(** * Training drivers of the DreamBooth and retrieval models

    A shallow embedding of the loss and orchestration code of
    - [nemo/collections/multimodal/models/dreambooth/dreambooth.py]
    - [nemo/collections/nlp/models/language_modeling/megatron_retrieval_model.py]

    Conventions of the embedding:
    - a tensor is the list of its entries along the batch dimension, each
      entry being the flat list of its elements;
    - tensor elements and scalars are rationals ([Q]): floating-point
      rounding, infinities and nan are not represented, so [.float()] is the
      identity, and torch's [0/0 = nan] shows up as [0/0 = 0]; statements
      that would depend on it carry a non-emptiness hypothesis;
    - where a property depends on values that are not finite, as the masked
      loss of the retrieval steps does, the scalars are IEEE values ([fval]:
      a finite rational, an infinity or nan), and the rational model is
      shown to be the finite part of it;
    - a Python exception is a value [Raise e] of the [result] type;
    - calls into collaborators that only have an effect (collectives,
      logging, the forward/backward engine) are recorded as [event]s. *)

From Stdlib Require Import ZArith QArith List String Lia.
From stdpp Require Import gmap strings.
Import ListNotations.

Local Open Scope string_scope.

(** ** Exceptions and fallible computations *)

Inductive exn : Type :=
| NotImplementedError
| ValueError
| KeyError
| TypeError
| RuntimeError
| ImportError
| IndexError
| ZeroDivisionError
| AssertionError.

Inductive result (A : Type) : Type :=
| Ok (a : A)
| Raise (e : exn).

Arguments Ok {A} a.
Arguments Raise {A} e.

Definition rbind {A B : Type} (r : result A) (k : A -> result B) : result B :=
  match r with
  | Ok a => k a
  | Raise e => Raise e
  end.

Notation "'do' x <- r ; k" := (rbind r (fun x => k))
  (at level 10, x name, r at level 100, k at level 200).
Notation "'do' ' p <- r ; k" := (rbind r (fun x => match x with p => k end))
  (at level 10, p pattern, r at level 100, k at level 200).

Definition is_ok {A : Type} (r : result A) : bool :=
  match r with Ok _ => true | Raise _ => false end.

Fixpoint rmap {A B : Type} (f : A -> result B) (l : list A) : result (list B) :=
  match l with
  | [] => Ok []
  | a :: l' => do b <- f a; do bs <- rmap f l'; Ok (b :: bs)
  end.

(** ** Tensors *)

(** One entry along the batch dimension, flattened. *)
Definition row : Type := list Q.
(** A tensor whose dimension 0 is the batch dimension. *)
Definition tensor : Type := list row.

Definition numel (t : tensor) : nat := length (concat t).

(** [has_shape t b d]: [t] has [b] batch entries of [d] elements each. *)
Definition has_shape (t : tensor) (b d : nat) : bool :=
  (length t =? b)%nat && forallb (fun r => (length r =? d)%nat) t.

Definition same_shape (x y : tensor) : bool :=
  (length x =? length y)%nat &&
  forallb (fun p => (length (fst p) =? length (snd p))%nat) (combine x y).

Definition Qsum (l : list Q) : Q := fold_right Qplus 0%Q l.

Definition scale (c : Q) (t : tensor) : tensor := map (map (Qmult c)) t.

(** *** torch.chunk / torch.split along dimension 0

    [torch.chunk(input, chunks, dim)] cuts [input] into pieces of
    [ceil(size / chunks)] entries; the last piece is shorter, and fewer than
    [chunks] pieces come back when the size is too small.  Only a size-0
    dimension yields [chunks] empty pieces. *)

Definition ceil_div (a b : nat) : nat := ((a + b - 1) / b)%nat.

Definition torch_split {A : Type} (split_size : nat) (l : list A) : list (list A) :=
  let num_splits := Nat.max (ceil_div (length l) split_size) 1 in
  map (fun i => firstn split_size (skipn (i * split_size) l)) (seq 0 num_splits).

Definition torch_chunk {A : Type} (chunks : nat) (l : list A) : result (list (list A)) :=
  if (chunks =? 0)%nat then Raise RuntimeError
  else
    let split_size := ceil_div (length l) chunks in
    if (split_size =? 0)%nat && (length l =? 0)%nat
    then Ok (repeat [] chunks)
    else Ok (torch_split split_size l).

(** Python's [a, b = seq]: any other number of items is a ValueError. *)
Definition unpack2 {A : Type} (l : list A) : result (A * A) :=
  match l with
  | [a; b] => Ok (a, b)
  | _ => Raise ValueError
  end.

(** *** torch.nn.functional.mse_loss with reduction="mean"

    The mean over all elements of the squared difference.  torch broadcasts
    operands of different shapes when it can; the model accepts equal shapes
    only, which is what the forward pass feeds it. *)

Definition sq_diff (p : Q * Q) : Q := ((fst p - snd p) * (fst p - snd p))%Q.

Definition mse_mean (x y : tensor) : Q :=
  (Qsum (map sq_diff (combine (concat x) (concat y))) / inject_Z (Z.of_nat (numel x)))%Q.

Definition mse_loss (x y : tensor) : result Q :=
  if same_shape x y then Ok (mse_mean x y) else Raise RuntimeError.

(** ** Stateful computations

    [state S A] is a computation over a mutable state [S] that either
    returns or raises; the state reached when it raises is kept. *)

Definition state (S A : Type) : Type := S -> result A * S.

Definition sret {S A : Type} (a : A) : state S A := fun s => (Ok a, s).

Definition sbind {S A B : Type} (m : state S A) (k : A -> state S B) : state S B :=
  fun s =>
    match m s with
    | (Ok a, s') => k a s'
    | (Raise e, s') => (Raise e, s')
    end.

Definition lift {S A : Type} (r : result A) : state S A := fun s => (r, s).
Definition get {S : Type} : state S S := fun s => (Ok s, s).
Definition modify {S : Type} (f : S -> S) : state S unit := fun s => (Ok tt, f s).

Notation "'run' x <- m ; k" := (sbind m (fun x => k))
  (at level 10, x name, m at level 100, k at level 200).
Notation "'exec' m ; k" := (sbind m (fun _ => k))
  (at level 10, m at level 100, k at level 200).

(** ** torch.nn parameters and modules

    Parameters are objects: two modules share a parameter exactly when they
    hold the same object.  The heap maps the identity of every parameter
    object of the process to its current content. *)

Record Param : Type := mkParam {
  requires_grad : bool;
  data : Q
}.

Record heap : Type := mkHeap {
  objects : gmap nat Param;
  next_id : nat
}.

(** The [train] attribute of a module: the method of [torch.nn.Module], or
    the function [disabled_train] stored over it. *)
Inductive train_method : Type :=
| nn_Module_train
| disabled_train_fn.

Record nn_Module : Type := mkModule {
  params : list nat;
  training : bool;
  train_attr : train_method
}.

(** [torch.nn.Module.train(self, mode)]: sets the mode and returns [self]. *)
Definition Module_train (self : nn_Module) (mode : bool) : nn_Module :=
  mkModule (params self) mode (train_attr self).

(** Line 65: [disabled_train(self, mode=True)] returns [self] untouched. *)
Definition disabled_train (self : nn_Module) (mode : bool) : nn_Module := self.

(** [module.train(mode)] goes through the attribute currently installed. *)
Definition call_train (self : nn_Module) (mode : bool) : nn_Module :=
  match train_attr self with
  | nn_Module_train => Module_train self mode
  | disabled_train_fn => disabled_train self mode
  end.

(** [module.eval()] is [module.train(False)]. *)
Definition eval (self : nn_Module) : nn_Module := call_train self false.

(** [module.train = f] *)
Definition set_train_attr (self : nn_Module) (f : train_method) : nn_Module :=
  mkModule (params self) (training self) f.

(** [param.requires_grad = b] *)
Definition set_requires_grad (b : bool) (id : nat) : state heap unit :=
  modify (fun h =>
    mkHeap (alter (fun p => mkParam b (data p)) id (objects h)) (next_id h)).

(** [for x in l: body(x)] *)
Fixpoint for_each {S A : Type} (l : list A) (body : A -> state S unit) : state S unit :=
  match l with
  | [] => sret tt
  | x :: l' => exec body x; for_each l' body
  end.

(** A new parameter object: trainable, as torch creates them. *)
Definition new_parameter (v : Q) : state heap nat :=
  fun h =>
    let id := next_id h in
    (Ok id, mkHeap (<[id := mkParam true v]> (objects h)) (S id)).

Fixpoint new_parameters (init : list Q) : state heap (list nat) :=
  match init with
  | [] => sret []
  | v :: init' =>
      run id <- new_parameter v;
      run ids <- new_parameters init';
      sret (id :: ids)
  end.

(** Modelled from the spec: [Serialization.from_config_dict], of nemo.core,
    is not among the sources.  It builds the sub-model a configuration
    describes, a model shard that provides its [parameters()].  Of a module
    only the parameter objects and the mode matter here: construction
    allocates the parameters, with the initial values the configuration
    determines, and leaves the module in training mode with the stock
    [train] method, as a new [torch.nn.Module] is. *)
Definition from_config_dict (cfg : list Q) : state heap nn_Module :=
  run ids <- new_parameters cfg;
  sret (mkModule ids true nn_Module_train).

(** An optimizer step writes the parameters the optimizer was built on, and
    no other object: [update id v] is the new value of parameter [id]. *)
Definition optimizer_step (update : nat -> Q -> Q) (param_list : list nat) (h : heap) : heap :=
  mkHeap
    (fold_right (fun id objs => alter (fun p => mkParam (requires_grad p) (update id (data p))) id objs)
                (objects h) param_list)
    (next_id h).

(** ** DreamBooth (dreambooth.py) *)

Module DreamBooth.

(** The entries of the model configuration that the class reads. *)
Record config : Type := mkConfig {
  cfg_with_prior_preservation : bool;
  cfg_prior_loss_weight : Q;
  cfg_train_text_encoder : bool;
  cfg_cond_stage_config : list Q;
  cfg_first_stage_config : list Q;
  cfg_unet_config : list Q;
  cfg_noise_scheduler : list Q;
  cfg_scale_factor : Q;
  cfg_timesteps : nat;
  cfg_parameterization : string
}.

Record t : Type := mk {
  with_prior_preservation : bool;
  prior_loss_weight : Q;
  train_text_encoder : bool;
  text_encoder : nn_Module;
  vae : nn_Module;
  unet : nn_Module;
  noise_scheduler : nn_Module;
  scale_factor : Q;
  num_timesteps : nat;
  parameterization : string
}.

(** Lines 115-121.  Wrapping the UNet with the inductor compiler keeps its
    parameter objects. *)
Definition instantiate_unet (cfg : list Q) : state heap nn_Module :=
  run unet <- from_config_dict cfg;
  sret (call_train unet true).

(** Lines 123-128. *)
Definition instantiate_vae (cfg : list Q) : state heap nn_Module :=
  run model <- from_config_dict cfg;
  let vae := eval model in
  let vae := set_train_attr vae disabled_train_fn in
  exec for_each (params vae) (set_requires_grad false);
  sret vae.

(** Lines 130-140. *)
Definition instantiate_text_encoder (train_text_encoder : bool) (cfg : list Q)
  : state heap nn_Module :=
  run model <- from_config_dict cfg;
  if train_text_encoder then
    let text_encoder := call_train model true in
    exec for_each (params text_encoder) (set_requires_grad true);
    sret text_encoder
  else
    let text_encoder := eval model in
    let text_encoder := set_train_attr text_encoder disabled_train_fn in
    exec for_each (params text_encoder) (set_requires_grad false);
    sret text_encoder.

(** Lines 142-144. *)
Definition get_noise_scheduler (cfg : list Q) : state heap nn_Module :=
  run model <- from_config_dict cfg;
  sret (eval model).

(** Lines 90-113. *)
Definition __init__ (cfg : config) : state heap t :=
  run text_encoder <- instantiate_text_encoder (cfg_train_text_encoder cfg) (cfg_cond_stage_config cfg);
  run vae <- instantiate_vae (cfg_first_stage_config cfg);
  run unet <- instantiate_unet (cfg_unet_config cfg);
  run noise_scheduler <- get_noise_scheduler (cfg_noise_scheduler cfg);
  sret (mk (cfg_with_prior_preservation cfg) (cfg_prior_loss_weight cfg)
           (cfg_train_text_encoder cfg) text_encoder vae unet noise_scheduler
           (cfg_scale_factor cfg) (cfg_timesteps cfg) (cfg_parameterization cfg)).

(** Lines 182-187: the parameters handed to the optimizer. *)
Definition parameters (self : t) : list nat :=
  let params_ := params (unet self) in
  if train_text_encoder self
  then (params_ ++ params (text_encoder self))%list
  else params_.

(** Lines 163-168: the loss target selected by the parameterization flag. *)
Definition select_target (self : t) (latents noise : tensor) : result tensor :=
  if String.eqb (parameterization self) "x0" then Ok latents
  else if String.eqb (parameterization self) "eps" then Ok noise
  else Raise NotImplementedError.

(** Lines 170-178: the loss of a model output against its target. *)
Definition compute_loss (self : t) (model_output target : tensor) : result Q :=
  if with_prior_preservation self then
    do chunks_out <- torch_chunk 2 model_output;
    do '(model_pred, model_pred_prior) <- unpack2 chunks_out;
    do chunks_tgt <- torch_chunk 2 target;
    do '(target, target_prior) <- unpack2 chunks_tgt;
    do loss <- mse_loss model_pred target;
    do prior_loss <- mse_loss model_pred_prior target_prior;
    Ok (loss + prior_loss * prior_loss_weight self)%Q
  else
    mse_loss target model_output.

Section Forward.
(** What the sub-models compute and what the random generators draw is
    not described here: they are taken as they come.  [rng] is the state
    of the generators the pass draws from. *)
Variable rng : Type.
(** [self.vae.encode(x).sample().detach()] *)
Variable vae_encode : tensor -> rng -> tensor * rng.
(** [randn_like(latents, generator=self.rng)] *)
Variable randn_like : tensor -> rng -> tensor * rng.
(** [torch.randint(0, high, (n,), generator=self.rng)] *)
Variable randint : nat -> nat -> rng -> list nat * rng.
(** [self.noise_scheduler(x_start, t, noise)] *)
Variable noise_scheduler_apply : tensor -> list nat -> tensor -> tensor.
(** [self.unet(x_noisy, t, cond)] *)
Variable unet_apply : tensor -> list nat -> tensor -> tensor.

(** Lines 147-161 of [forward]: everything up to the model output.
    Returns the model output, the latents, the noise and the generator. *)
Definition forward_pass (self : t) (batch : tensor * tensor) (g : rng)
  : tensor * tensor * tensor * rng :=
  let '(x, cond) := batch in
  let '(latents, g) := vae_encode x g in
  let latents := scale (scale_factor self) latents in
  let '(noise, g) := randn_like latents g in
  let '(t, g) := randint (num_timesteps self) (length latents) g in
  let x_noisy := noise_scheduler_apply latents t noise in
  let model_output := unet_apply x_noisy t cond in
  (model_output, latents, noise, g).

(** Lines 146-180. *)
Definition forward (self : t) (batch : tensor * tensor) : state rng Q :=
  fun g =>
    let '(model_output, latents, noise, g) := forward_pass self batch g in
    (do target <- select_target self latents noise;
     compute_loss self model_output target, g).
End Forward.

End DreamBooth.

(** ** The collate function of the DreamBooth data loader *)

(** What the example dicts of the dataset hold: prompts and image tensors. *)
Inductive pyval : Type :=
| VStr (s : string)
| VTensor (r : row).

(** [d[k]] *)
Definition getitem {V : Type} (d : gmap string V) (k : string) : result V :=
  match d !! k with
  | Some v => Ok v
  | None => Raise KeyError
  end.

Definition as_tensor (v : pyval) : result row :=
  match v with
  | VTensor r => Ok r
  | VStr _ => Raise TypeError
  end.

(** [torch.stack(tensors)]: a new leading dimension over tensors of one
    shape; an empty list or differing shapes are a RuntimeError. *)
Definition torch_stack (tensors : list pyval) : result tensor :=
  do rows <- rmap as_tensor tensors;
  match rows with
  | [] => Raise RuntimeError
  | r :: rest =>
      if forallb (fun r' => (length r' =? length r)%nat) rest
      then Ok rows
      else Raise RuntimeError
  end.

(** Lines 71-86. *)
Definition _collate_fn (examples : list (gmap string pyval)) (with_prior_preservation : bool)
  : result (list (list pyval) * tensor) :=
  do '(prompts, images) <-
    (if with_prior_preservation then
       do prompts <- rmap (fun example =>
                             do p <- getitem example "instance_prompt";
                             do q <- getitem example "reg_prompt";
                             Ok [p; q]) examples;
       do inst <- rmap (fun example => getitem example "instance_images") examples;
       do reg <- rmap (fun example => getitem example "reg_images") examples;
       Ok (prompts, (inst ++ reg)%list)
     else
       do prompts <- rmap (fun example =>
                             do p <- getitem example "instance_prompt";
                             Ok [p]) examples;
       do images <- rmap (fun example => getitem example "instance_images") examples;
       Ok (prompts, images));
  do images <- torch_stack images;
  Ok (prompts, images).

(** ** Effects of a training step

    The calls a training step makes into its collaborators, in the order
    they are made. *)

Inductive event : Type :=
| zero_grad
| forward_backward_no_pipelining
| allreduce_sequence_parallel_gradients
| allreduce_main_grads
| allreduce_gradients
| cuda_synchronize
| broadcast (src : nat)
| average_losses_across_data_parallel_group
| log (key : string) (value : Q).

Definition emit (e : event) : state (list event) unit :=
  modify (fun trace => (trace ++ [e])%list).

(** The explicit gradient reductions over the data-parallel group. *)
Definition is_grad_sync (e : event) : bool :=
  match e with
  | allreduce_main_grads | allreduce_gradients => true
  | _ => false
  end.

Definition is_broadcast (e : event) : bool :=
  match e with
  | broadcast _ => true
  | _ => false
  end.

(** [cfg.get(key, default)] on an entry that may be absent. *)
Definition cfg_get {A : Type} (entry : option A) (default : A) : A :=
  match entry with
  | Some v => v
  | None => default
  end.

(** A precision setting: an integer or a string such as ["bf16"]. *)
Inductive precision_value : Type :=
| PInt (z : Z)
| PStr (s : string).

Definition precision_is_16 (p : precision_value) : bool :=
  match p with
  | PInt z => (z =? 16)%Z
  | PStr _ => false
  end.

Definition mean (l : list Q) : Q := (Qsum l / inject_Z (Z.of_nat (length l)))%Q.

(** ** MegatronDreamBooth (dreambooth.py) *)

Module MegatronDreamBooth.

Record config : Type := mkConfig {
  cfg_model : DreamBooth.config;
  cfg_precision : precision_value;
  cfg_megatron_amp_O2 : option bool;
  cfg_tensor_model_parallel_size : option Z;
  cfg_sequence_parallel : option bool
}.

Record Trainer : Type := mkTrainer {
  accumulate_grad_batches : Z;
  precision : precision_value;
  global_step : Z;
  (** [precision_plugin.scaler._scale] *)
  scaler_scale : option Q
}.

Inductive dtype : Type := bfloat16 | float32 | float16.

Record t : Type := mk {
  cfg : config;
  trainer : Trainer;
  model : DreamBooth.t;
  megatron_amp_O2 : bool;
  autocast_dtype : dtype;
  (** filled in by the base class, the optimizer and [setup] *)
  with_distributed_adam : bool;
  lr : Q;
  init_global_step : Z
}.

(** Lines 486-493. *)
Definition _validate_trainer (trainer : Trainer) : result unit :=
  if (accumulate_grad_batches trainer >? 1)%Z
  then Raise ValueError
  else Ok tt.

Section Init.
(** Whether the apex import at the top of the file succeeded. *)
Variable HAVE_APEX : bool.
(** The constructor of the base class. *)
Variable base_init : config -> Trainer -> result unit.
(** Python's [int()] on a string. *)
Variable int_of_str : string -> result Z.
(** Attributes the base class, the optimizer and [setup] fill in later. *)
Variable base_with_distributed_adam : bool.
Variable base_lr : Q.
Variable setup_init_global_step : Z.

Definition py_int (p : precision_value) : result Z :=
  match p with
  | PInt z => Ok z
  | PStr s => int_of_str s
  end.

(** Lines 212-219. *)
Definition select_autocast_dtype (p : precision_value) : result dtype :=
  match p with
  | PStr "bf16" => Ok bfloat16
  | _ =>
      do p32 <- py_int p;
      if (p32 =? 32)%Z then Ok float32
      else
        do p16 <- py_int p;
        if (p16 =? 16)%Z then Ok float16
        else Raise ValueError
  end.

(** Lines 196-219. *)
Definition __init__ (cfg : config) (trainer : Trainer) : state heap t :=
  if negb HAVE_APEX then lift (Raise ImportError)
  else
    exec lift (base_init cfg trainer);
    exec lift (_validate_trainer trainer);
    let megatron_amp_O2 := cfg_get (cfg_megatron_amp_O2 cfg) false in
    run model <- DreamBooth.__init__ (cfg_model cfg);
    run autocast_dtype <- lift (select_autocast_dtype (precision trainer));
    sret (mk cfg trainer model megatron_amp_O2 autocast_dtype
             base_with_distributed_adam base_lr setup_init_global_step).
End Init.

(** Lines 261-269: the mean of the per-microbatch losses, or zero when the
    engine returned no record. *)
Definition aggregate_losses (losses_reduced_per_micro_batch : list (gmap string Q)) : result Q :=
  match losses_reduced_per_micro_batch with
  | [] => Ok 0%Q
  | _ =>
      do loss_tensors_list <-
        rmap (fun loss_reduced => getitem loss_reduced "loss") losses_reduced_per_micro_batch;
      Ok (mean loss_tensors_list)
  end.

(** Lines 275-287: the gradient synchronization selected by the mode. *)
Definition synchronize_gradients (self : t) : state (list event) unit :=
  if with_distributed_adam self then sret tt
  else if megatron_amp_O2 self then emit allreduce_main_grads
  else emit allreduce_gradients.

Section TrainingStep.
(** [compute_consumed_samples] of the base class. *)
Variable compute_consumed_samples : Z -> Z.
(** [get_last_rank()] *)
Variable get_last_rank : nat.
(** This process. *)
Variable rank : nat.
(** What the forward/backward engine returns on each rank for the global
    batch of this step. *)
Variable engine : nat -> result (list (gmap string Q)).

(** [torch.distributed.broadcast(tensor, src)] overwrites [tensor] on
    every rank with the value rank [src] holds when it reaches the call. *)
Definition torch_distributed_broadcast (tensor : Q) (src : nat) (held_by : nat -> result Q)
  : state (list event) Q :=
  exec emit (broadcast src);
  if (rank =? src)%nat then sret tensor else lift (held_by src).

(** The value of [loss_mean] rank [r] holds on reaching the broadcast. *)
Definition loss_mean_before_broadcast (r : nat) : result Q :=
  do losses <- engine r;
  aggregate_losses losses.

(** Lines 230-306. *)
Definition training_step (self : t) : state (list event) Q :=
  exec emit zero_grad;
  exec emit forward_backward_no_pipelining;
  run losses_reduced_per_micro_batch <- lift (engine rank);
  run loss_mean <- lift (aggregate_losses losses_reduced_per_micro_batch);
  exec (if (cfg_get (cfg_tensor_model_parallel_size (cfg self)) 1 >? 1)%Z
           && cfg_get (cfg_sequence_parallel (cfg self)) false
        then emit allreduce_sequence_parallel_gradients
        else sret tt);
  exec synchronize_gradients self;
  run loss_mean <- torch_distributed_broadcast loss_mean get_last_rank loss_mean_before_broadcast;
  exec (if precision_is_16 (cfg_precision (cfg self)) then
          match scaler_scale (trainer self) with
          | Some loss_scale => emit (log "loss_scale" loss_scale)
          | None => sret tt
          end
        else sret tt);
  exec emit (log "reduced_train_loss" loss_mean);
  exec emit (log "lr" (lr self));
  exec emit (log "global_step" (inject_Z (global_step (trainer self) + 1)));
  exec emit (log "consumed_samples"
               (inject_Z (compute_consumed_samples
                            (global_step (trainer self) + 1 - init_global_step self))));
  sret loss_mean.
End TrainingStep.

End MegatronDreamBooth.

(** ** MegatronRetrievalModel (megatron_retrieval_model.py) *)

Module MegatronRetrievalModel.

(** Elementwise product of two flat tensors, with torch's broadcasting of a
    one-element operand. *)
Fixpoint zip_mul (a b : list Q) : list Q :=
  match a, b with
  | x :: a', y :: b' => (x * y)%Q :: zip_mul a' b'
  | _, _ => []
  end.

Definition torch_mul (a b : list Q) : result (list Q) :=
  if (length a =? length b)%nat then Ok (zip_mul a b)
  else
    match a, b with
    | [x], _ => Ok (map (fun y => (x * y)%Q) b)
    | _, [y] => Ok (map (fun x => (x * y)%Q) a)
    | _, _ => Raise RuntimeError
    end.

(** Lines 371-372 and 473-474:
    [torch.sum(loss.view(-1) * loss_mask.reshape(-1)) / loss_mask.sum()],
    on tensors of numbers.  The same computation on float tensors that may
    hold infinities or nan is [MegatronRetrievalIEEE.masked_lm_loss]
    below. *)
Definition masked_lm_loss (loss loss_mask : tensor) : result Q :=
  do products <- torch_mul (concat loss) (concat loss_mask);
  Ok (Qsum products / Qsum (concat loss_mask))%Q.

Record config : Type := mkConfig {
  cfg_precision : precision_value;
  cfg_micro_batch_size : Z;
  cfg_add_position_embedding : option bool;
  cfg_pipeline_model_parallel_size : option Z
}.

(** The batch tuple, in the order it is unpacked. *)
Record batch : Type := mkBatch {
  input_tokens_id : tensor;
  input_attn_mask : tensor;
  loss_mask : tensor;
  retrieved_ids : tensor;
  retrieved_attn_mask : tensor;
  labels : tensor
}.

Record t : Type := mk {
  cfg : config;
  with_distributed_adam : bool;
  megatron_amp_o2 : bool;
  accumulate_grad_batches : Z;
  global_step : Z;
  init_global_step : Z;
  init_consumed_samples : Z;
  (** [AppState().data_parallel_size] *)
  data_parallel_size : Z;
  lr : Q;
  (** [trainer.precision_plugin.scaler._scale] *)
  scaler_scale : option Q
}.

(** Lines 802-811. *)
Definition compute_consumed_samples (self : t) (steps_since_resume : Z) : Z :=
  (init_consumed_samples self
   + steps_since_resume
     * data_parallel_size self
     * cfg_micro_batch_size (cfg self)
     * accumulate_grad_batches self)%Z.

(** What a training step changes: the buffer of reduced losses and the
    calls made so far. *)
Record step_state : Type := mkStepState {
  _reduced_loss_buffer : list Q;
  trace : list event
}.

Definition emit_ (e : event) : state step_state unit :=
  modify (fun s => mkStepState (_reduced_loss_buffer s) (trace s ++ [e])%list).

Definition index0 (l : list Q) : result Q :=
  match l with
  | x :: _ => Ok x
  | [] => Raise IndexError
  end.

(** Python's [a % b] on integers. *)
Definition py_mod (a b : Z) : result Z :=
  if (b =? 0)%Z then Raise ZeroDivisionError else Ok (a mod b)%Z.

Section Steps.
(** [self(...)]: the per-token loss the model returns for a batch, given
    the position ids when they are built. *)
Variable model_forward : batch -> option tensor -> tensor.
Variable build_position_ids : tensor -> tensor.
(** The reduction of a list of losses over the data-parallel group, as
    this rank receives it. *)
Variable average_losses : list Q -> list Q.

(** Lines 359-370 and 461-472. *)
Definition per_token_loss (self : t) (b : batch) : tensor :=
  let input_position_ids :=
    if cfg_get (cfg_add_position_embedding (cfg self)) false
    then Some (build_position_ids (input_tokens_id b))
    else None in
  model_forward b input_position_ids.

(** Lines 381-398: the gradient synchronization selected by the mode. *)
Definition synchronize_gradients (self : t) : state step_state unit :=
  if with_distributed_adam self then sret tt
  else if megatron_amp_o2 self then
    exec (if (cfg_get (cfg_pipeline_model_parallel_size (cfg self)) 1 =? 1)%Z
          then emit_ cuda_synchronize
          else sret tt);
    if (cfg_get (cfg_pipeline_model_parallel_size (cfg self)) 1 >? 1)%Z
    then emit_ allreduce_main_grads
    else sret tt
  else sret tt.

(** Lines 350-413. *)
Definition training_step (self : t) (b : batch) (batch_idx : Z) : state step_state Q :=
  let loss := per_token_loss self b in
  run lm_loss <- lift (masked_lm_loss loss (loss_mask b));
  exec emit_ average_losses_across_data_parallel_group;
  let reduced_loss := average_losses [lm_loss] in
  run reduced_loss_0 <- lift (index0 reduced_loss);
  exec modify (fun s => mkStepState (_reduced_loss_buffer s ++ [reduced_loss_0])%list (trace s));
  exec (if precision_is_16 (cfg_precision (cfg self)) then
          match scaler_scale self with
          | Some loss_scale => emit_ (log "loss_scale" loss_scale)
          | None => sret tt
          end
        else sret tt);
  exec synchronize_gradients self;
  run r <- lift (py_mod (batch_idx + 1) (accumulate_grad_batches self));
  exec (if (r =? 0)%Z then
          run s <- get;
          let average_reduced_loss := mean (_reduced_loss_buffer s) in
          exec emit_ (log "reduced_train_loss" average_reduced_loss);
          exec emit_ (log "lr" (lr self));
          exec emit_ (log "global_step" (inject_Z (global_step self)));
          exec emit_ (log "consumed_samples"
                        (inject_Z (compute_consumed_samples self
                                     (global_step self - init_global_step self))));
          modify (fun s => mkStepState [] (trace s))
        else sret tt);
  sret lm_loss.

(** Lines 452-476. *)
Definition validation_step (self : t) (b : batch) (batch_idx : Z) : state step_state (list Q) :=
  let loss := per_token_loss self b in
  run lm_loss <- lift (masked_lm_loss loss (loss_mask b));
  exec emit_ average_losses_across_data_parallel_group;
  let reduced_loss := average_losses [lm_loss] in
  sret reduced_loss.
End Steps.

(** *** The learning-rate schedulers and the grad scaler *)

(** A torch scheduler with one parameter group.  [get_lr] is the rate its
    [get_lr()] computes, from the step counter [last_epoch] and from the
    rate currently installed in the optimizer: schedulers in closed form
    read the counter only, chainable ones such as ExponentialLR multiply
    the installed rate. *)
Record scheduler : Type := mkScheduler {
  last_epoch : Z;
  get_lr : Z -> Q -> Q;
  (** the rate currently installed in the optimizer *)
  current_lr : Q;
  _step_count : nat
}.

(** [scheduler.step()]: counts the step, adds one to [last_epoch] and
    installs the rate [get_lr()] then computes. *)
Definition scheduler_step (s : scheduler) : scheduler :=
  let e := (last_epoch s + 1)%Z in
  mkScheduler e (get_lr s) (get_lr s e (current_lr s)) (S (_step_count s)).

(** A scheduler in closed form: its rate is a function of the counter. *)
Definition closed_form (s : scheduler) : Prop :=
  forall (e : Z) (lr lr' : Q), get_lr s e lr = get_lr s e lr'.

(** [scheduler.last_epoch -= 2] *)
Definition rewind2 (s : scheduler) : scheduler :=
  mkScheduler (last_epoch s - 2)%Z (get_lr s) (current_lr s) (_step_count s).

(** [precision_plugin.scaler]: absent, some other scaler, or the GradScaler
    of nlp_overrides with its [optimizer_update_skipped] attribute. *)
Inductive scaler_object : Type :=
| scaler_None
| scaler_other
| GradScaler (optimizer_update_skipped : option bool).

Inductive plugin_object : Type :=
| plugin_None
| plugin_other
| NativeMixedPrecisionPlugin (scaler : scaler_object).

Record Trainer : Type := mkTrainer {
  precision_plugin : plugin_object;
  lr_scheduler_configs : list scheduler;
  (** [trainer.lightning_module.automatic_optimization] *)
  automatic_optimization : bool
}.

(** Lines 415-450, after the hook of the base class. *)
Definition on_train_batch_end (trainer : Trainer) : Trainer :=
  match precision_plugin trainer with
  | NativeMixedPrecisionPlugin (GradScaler (Some true)) =>
      let scheduler_cfgs := lr_scheduler_configs trainer in
      if (length scheduler_cfgs =? 0)%nat || negb (automatic_optimization trainer)
      then trainer
      else
        mkTrainer (NativeMixedPrecisionPlugin (GradScaler None))
                  (map (fun s => scheduler_step (rewind2 s)) scheduler_cfgs)
                  (automatic_optimization trainer)
  | _ => trainer
  end.

End MegatronRetrievalModel.

(** ** Well-formed inputs of the collate function *)

(** The image an example holds under [key] ([[]] when there is none). *)
Definition image_of (key : string) (example : gmap string pyval) : row :=
  match example !! key with
  | Some (VTensor r) => r
  | _ => []
  end.

(** An example of a dataset with regularization data: both prompts and
    both images are present, the images being tensors of [d] elements. *)
Definition is_prior_example (d : nat) (example : gmap string pyval) : bool :=
  match example !! "instance_prompt", example !! "reg_prompt",
        example !! "instance_images", example !! "reg_images" with
  | Some _, Some _, Some (VTensor i), Some (VTensor r) =>
      (length i =? d)%nat && (length r =? d)%nat
  | _, _, _, _ => false
  end.

(** ** The calls of a DreamBooth training step, as lists

    The calls made before and after the broadcast of the loss, used to
    state what a whole step does. *)

Definition dreambooth_events_before_broadcast (self : MegatronDreamBooth.t) : list event :=
  ([zero_grad; forward_backward_no_pipelining]
   ++ (if (cfg_get (MegatronDreamBooth.cfg_tensor_model_parallel_size (MegatronDreamBooth.cfg self)) 1 >? 1)%Z
          && cfg_get (MegatronDreamBooth.cfg_sequence_parallel (MegatronDreamBooth.cfg self)) false
       then [allreduce_sequence_parallel_gradients] else [])
   ++ (if MegatronDreamBooth.with_distributed_adam self then []
       else if MegatronDreamBooth.megatron_amp_O2 self then [allreduce_main_grads]
       else [allreduce_gradients]))%list.

Definition dreambooth_events_after_broadcast
    (compute_consumed_samples : Z -> Z) (self : MegatronDreamBooth.t) (loss_mean : Q) : list event :=
  ((if precision_is_16 (MegatronDreamBooth.cfg_precision (MegatronDreamBooth.cfg self)) then
      match MegatronDreamBooth.scaler_scale (MegatronDreamBooth.trainer self) with
      | Some loss_scale => [log "loss_scale" loss_scale]
      | None => []
      end
    else [])
   ++ [log "reduced_train_loss" loss_mean;
       log "lr" (MegatronDreamBooth.lr self);
       log "global_step"
           (inject_Z (MegatronDreamBooth.global_step (MegatronDreamBooth.trainer self) + 1)%Z);
       log "consumed_samples"
           (inject_Z (compute_consumed_samples
                        (MegatronDreamBooth.global_step (MegatronDreamBooth.trainer self) + 1
                         - MegatronDreamBooth.init_global_step self)%Z))])%list.

(** ** The calls of a retrieval training step, as lists *)

Definition retrieval_sync_events (self : MegatronRetrievalModel.t) : list event :=
  if MegatronRetrievalModel.with_distributed_adam self then []
  else if MegatronRetrievalModel.megatron_amp_o2 self then
    ((if (cfg_get (MegatronRetrievalModel.cfg_pipeline_model_parallel_size
                     (MegatronRetrievalModel.cfg self)) 1 =? 1)%Z
      then [cuda_synchronize] else [])
     ++ (if (cfg_get (MegatronRetrievalModel.cfg_pipeline_model_parallel_size
                        (MegatronRetrievalModel.cfg self)) 1 >? 1)%Z
         then [allreduce_main_grads] else []))%list
  else [].

Definition retrieval_scale_events (self : MegatronRetrievalModel.t) : list event :=
  if precision_is_16 (MegatronRetrievalModel.cfg_precision (MegatronRetrievalModel.cfg self)) then
    match MegatronRetrievalModel.scaler_scale self with
    | Some loss_scale => [log "loss_scale" loss_scale]
    | None => []
    end
  else [].

Definition retrieval_log_events
    (self : MegatronRetrievalModel.t) (average_reduced_loss : Q) : list event :=
  [log "reduced_train_loss" average_reduced_loss;
   log "lr" (MegatronRetrievalModel.lr self);
   log "global_step" (inject_Z (MegatronRetrievalModel.global_step self));
   log "consumed_samples"
       (inject_Z (MegatronRetrievalModel.compute_consumed_samples self
                    (MegatronRetrievalModel.global_step self
                     - MegatronRetrievalModel.init_global_step self)%Z))].

(** ** Sample inputs *)

Definition sample_module : nn_Module := mkModule [] false nn_Module_train.

Definition sample_dreambooth (with_prior_preservation : bool) (flag : string) : DreamBooth.t :=
  DreamBooth.mk with_prior_preservation (1 # 2) false
                sample_module sample_module sample_module sample_module 1 1000 flag.

(** Collaborators of the forward pass that can be run: the generator is a
    counter, the noise repeats its value, the VAE, the noise scheduler and
    the UNet hand their input on. *)
Definition sample_vae_encode (x : tensor) (g : nat) : tensor * nat := (x, g).
Definition sample_randn_like (t : tensor) (g : nat) : tensor * nat :=
  (map (map (fun _ => inject_Z (Z.of_nat g))) t, S g).
Definition sample_randint (high n g : nat) : list nat * nat :=
  (repeat (g mod high)%nat n, S g).
Definition sample_forward :=
  DreamBooth.forward nat sample_vae_encode sample_randn_like sample_randint
                     (fun x _ _ => x) (fun x _ _ => x).

Definition sample_example (ip rp : string) (ii ri : row) : gmap string pyval :=
  <["instance_prompt" := VStr ip]>
  (<["reg_prompt" := VStr rp]>
  (<["instance_images" := VTensor ii]>
  (<["reg_images" := VTensor ri]> ∅))).

Definition empty_heap : heap := mkHeap ∅ 0.

Definition sample_model_config : DreamBooth.config :=
  DreamBooth.mkConfig true (1 # 2) false [1; 2]%Q [3; 4; 5]%Q [6; 7]%Q [] 1 1000 "eps".

Definition sample_config : MegatronDreamBooth.config :=
  MegatronDreamBooth.mkConfig sample_model_config (PInt 16) None None None.

Definition sample_trainer (accumulate_grad_batches : Z) : MegatronDreamBooth.Trainer :=
  MegatronDreamBooth.mkTrainer accumulate_grad_batches (PInt 16) 0 None.

Definition sample_init (trainer : MegatronDreamBooth.Trainer) : state heap MegatronDreamBooth.t :=
  MegatronDreamBooth.__init__ true (fun _ _ => Ok tt) (fun _ => Raise ValueError)
                              false (1 # 1000) 0 sample_config trainer.

Definition sample_retrieval (with_distributed_adam megatron_amp_o2 : bool)
    (pipeline_model_parallel_size : option Z) : MegatronRetrievalModel.t :=
  MegatronRetrievalModel.mk
    (MegatronRetrievalModel.mkConfig (PInt 16) 4 None pipeline_model_parallel_size)
    with_distributed_adam megatron_amp_o2 1 0 0 0 1 (1 # 1000) None.

Definition sample_batch : MegatronRetrievalModel.batch :=
  MegatronRetrievalModel.mkBatch [] [] [[1; 0; 1]]%Q [] [] [].

Definition sample_step_state : MegatronRetrievalModel.step_state :=
  MegatronRetrievalModel.mkStepState [] [].

(** A retrieval training step on one data-parallel rank, for a model whose
    per-token loss is [loss]. *)
Definition sample_retrieval_training_step (loss : tensor) (self : MegatronRetrievalModel.t) :=
  MegatronRetrievalModel.training_step
    (fun _ _ => loss) (fun x => x) (fun l => l)
    self sample_batch 0 sample_step_state.

Definition sample_megatron_dreambooth (with_distributed_adam megatron_amp_O2 : bool)
  : MegatronDreamBooth.t :=
  MegatronDreamBooth.mk sample_config (sample_trainer 1) (sample_dreambooth true "eps")
                        megatron_amp_O2 MegatronDreamBooth.float16
                        with_distributed_adam (1 # 1000) 0.

(** A world of two ranks: the engine returns two loss records on rank 1,
    the last one, and none on rank 0. *)
Definition sample_engine (rank : nat) : result (list (gmap string Q)) :=
  match rank with
  | 1%nat => Ok [ {["loss" := 1%Q]}; {["loss" := 2%Q]} ]
  | _ => Ok []
  end.

Definition sample_dreambooth_training_step (rank : nat) (self : MegatronDreamBooth.t) :=
  MegatronDreamBooth.training_step (fun steps => steps) 1%nat rank sample_engine self [].

(** A scheduler whose rate at step [e] is [e / 100], at step 5. *)
Definition sample_scheduler : MegatronRetrievalModel.scheduler :=
  MegatronRetrievalModel.mkScheduler 5 (fun e _ => inject_Z e / 100)%Q (5 / 100)%Q 6.

(** [ExponentialLR(optimizer, gamma=1/2)] on an initial rate of 1, at step
    5: every step halves the installed rate. *)
Definition sample_ExponentialLR : MegatronRetrievalModel.scheduler :=
  MegatronRetrievalModel.mkScheduler
    5 (fun e lr => if (e =? 0)%Z then lr else lr * (1 # 2))%Q (1 # 32)%Q 6.

(** A trainer whose grad scaler has just reported a skipped step, after
    the schedulers were stepped. *)
Definition sample_skipped_trainer (automatic_optimization : bool)
  : MegatronRetrievalModel.Trainer :=
  MegatronRetrievalModel.mkTrainer
    (MegatronRetrievalModel.NativeMixedPrecisionPlugin
       (MegatronRetrievalModel.GradScaler (Some true)))
    [MegatronRetrievalModel.scheduler_step sample_scheduler]
    automatic_optimization.

(** ** Python integers, indexing and slicing *)

(** [a // b] *)
Definition py_floordiv (a b : Z) : result Z :=
  if (b =? 0)%Z then Raise ZeroDivisionError else Ok (a / b)%Z.

(** A slice bound, brought into [0, len]: a negative bound counts from the
    end. *)
Definition slice_bound (len i : Z) : Z :=
  if (i <? 0)%Z then Z.max 0 (i + len) else Z.min i len.

(** [l[start:stop]], with [stop = None] for a slice to the end. *)
Definition py_slice {A : Type} (l : list A) (start : Z) (stop : option Z) : list A :=
  let len := Z.of_nat (length l) in
  let a := slice_bound len start in
  let b := match stop with
           | Some s => slice_bound len s
           | None => len
           end in
  firstn (Z.to_nat (b - a)) (skipn (Z.to_nat a) l).

(** [l[i]] *)
Definition py_getitem {A : Type} (l : list A) (i : Z) : result A :=
  let len := Z.of_nat (length l) in
  let j := if (i <? 0)%Z then (i + len)%Z else i in
  if (j <? 0)%Z then Raise IndexError
  else match nth_error l (Z.to_nat j) with
       | Some x => Ok x
       | None => Raise IndexError
       end.

(** ** generate_xl_fid_images.py: the share of a worker *)

Module GenerateFidImages.

(** The entries of [cfg.fid] that decide the share of a worker. *)
Record fid_config : Type := mkFid {
  nnodes_per_cfg : Z;
  ntasks_per_node : Z;
  local_task_id : option Z;
  num_images_to_eval : Z;
  classifier_free_guidance : list Q
}.

(** The two variables of the environment, read as integers when set. *)
Record environ : Type := mkEnviron {
  SLURM_ARRAY_TASK_ID : option Z;
  SLURM_LOCALID : option Z
}.

(** What [main] has computed when it starts to generate. *)
Record worker : Type := mkWorker {
  node_id : Z;
  node_id_per_cfg : Z;
  current_node_cfg : Q;
  partition_size_per_node : Z;
  task_id : Z;
  partition_size_per_task : Z;
  input : list string
}.

(** Lines 21-24 and 39-51 of [main]: the guidance scale of the node and the
    captions this worker is to generate, out of the captions read. *)
Definition select_input (fid : fid_config) (env : environ) (captions : list string)
  : result worker :=
  let node_id := cfg_get (SLURM_ARRAY_TASK_ID env) 0%Z in
  do node_id_per_cfg <- MegatronRetrievalModel.py_mod node_id (nnodes_per_cfg fid);
  do block <- py_floordiv node_id (nnodes_per_cfg fid);
  do current_node_cfg <- py_getitem (classifier_free_guidance fid) block;
  do partition_size_per_node <- py_floordiv (num_images_to_eval fid) (nnodes_per_cfg fid);
  let start_idx := (node_id_per_cfg * partition_size_per_node)%Z in
  let end_idx :=
    if negb (node_id_per_cfg =? nnodes_per_cfg fid - 1)%Z
    then Some ((node_id_per_cfg + 1) * partition_size_per_node)%Z
    else None in
  let captions := py_slice captions start_idx end_idx in
  let local_task_id :=
    match local_task_id fid with
    | Some t => t
    | None => cfg_get (SLURM_LOCALID env) 0%Z
    end in
  do partition_size_per_task <-
    py_floordiv (Z.of_nat (length captions)) (ntasks_per_node fid);
  let start_idx := (local_task_id * partition_size_per_task)%Z in
  let end_idx :=
    if negb (local_task_id =? ntasks_per_node fid - 1)%Z
    then Some ((local_task_id + 1) * partition_size_per_task)%Z
    else None in
  let input := py_slice captions start_idx end_idx in
  Ok (mkWorker node_id node_id_per_cfg current_node_cfg partition_size_per_node
               local_task_id partition_size_per_task input).

(** Line 93: the number in the file name of the images of prompt [i]. *)
Definition image_num (w : worker) (i : Z) : Z :=
  (i + partition_size_per_node w * node_id_per_cfg w
     + partition_size_per_task w * task_id w)%Z.

End GenerateFidImages.

(** ** The workers of one guidance scale

    [worker_at fid captions node task] is the share [main] selects on the
    node whose SLURM_ARRAY_TASK_ID is [node], for the task configured with
    the local task id [task]. *)
Definition worker_at (fid : GenerateFidImages.fid_config) (captions : list string)
    (node task : Z) : result GenerateFidImages.worker :=
  GenerateFidImages.select_input
    (GenerateFidImages.mkFid
       (GenerateFidImages.nnodes_per_cfg fid) (GenerateFidImages.ntasks_per_node fid)
       (Some task) (GenerateFidImages.num_images_to_eval fid)
       (GenerateFidImages.classifier_free_guidance fid))
    (GenerateFidImages.mkEnviron (Some node) None) captions.

Definition input_at (fid : GenerateFidImages.fid_config) (captions : list string)
    (node task : Z) : list string :=
  match worker_at fid captions node task with
  | Ok w => GenerateFidImages.input w
  | Raise _ => []
  end.

(** The integers [0, 1, ..., n - 1]. *)
Definition range (n : Z) : list Z := map Z.of_nat (seq 0 (Z.to_nat n)).

(** ** dreambooth.py: the batch of a step, the step function and the setup *)

(** [torch.cat([x, y], dim=0)]: the entries of both tensors, which must
    agree on the other dimensions. *)
Definition torch_cat (x y : tensor) : result tensor :=
  match (x ++ y)%list with
  | [] => Ok []
  | r :: rest =>
      if forallb (fun r' => (length r' =? length r)%nat) rest
      then Ok (x ++ y)%list
      else Raise RuntimeError
  end.

Module MegatronDreamBoothSteps.

(** Lines 499-503, for the model [model_provider_func] builds, which is not
    a list of modules. *)
Definition parameters (self : MegatronDreamBooth.t) : list nat :=
  DreamBooth.parameters (MegatronDreamBooth.model self).

Section Batches.
(** [self.model.text_encoder(prompts)]: one row of embeddings per prompt. *)
Variable text_encoder_apply : list pyval -> tensor.

(** Lines 353-372. *)
Definition process_global_batch (self : MegatronDreamBooth.t)
    (global_batch : list (list pyval) * tensor) : result (tensor * tensor) :=
  let '(prompts, images) := global_batch in
  do instance_prompts <- rmap (fun t => py_getitem t 0) prompts;
  let cond := text_encoder_apply instance_prompts in
  if DreamBooth.cfg_with_prior_preservation
       (MegatronDreamBooth.cfg_model (MegatronDreamBooth.cfg self))
  then
    do reg_prompts <- rmap (fun t => py_getitem t 1) prompts;
    let cond_prior := text_encoder_apply reg_prompts in
    do cond <- torch_cat cond cond_prior;
    Ok (images, cond)
  else Ok (images, cond).
End Batches.

(** Lines 379-380: the thunk of the step function, which hands back the loss
    whatever output tensor it is given. *)
Definition dummy (loss : Q) (output_tensor : tensor) : Q * gmap string Q :=
  (loss, {["loss" := loss]}).

(** Lines 375-382: the step function, applied to a microbatch and a model. *)
Definition fwd_output_and_loss_func {rng : Type}
    (batch : tensor * tensor) (model : tensor * tensor -> state rng Q)
  : state rng (Q * (tensor -> Q * gmap string Q)) :=
  run loss <- model batch;
  sret (loss, dummy loss).

(** Lines 386-390. *)
Definition fwd_output_only_func {A : Type} (batch : tensor * tensor) : result A :=
  Raise NotImplementedError.

(** The entries of [cfg.data] that [setup_training_data] reads. *)
Record data_config : Type := mkData {
  instance_dir : string;
  instance_prompt : string;
  regularization_dir : option string;
  regularization_prompt : option string;
  resolution : Z;
  center_crop : bool;
  num_workers : Z
}.

(** The entries of the model configuration that [setup] reads. *)
Record setup_config : Type := mkSetupConfig {
  seed : Z;
  micro_batch_size : Z;
  global_batch_size : Z;
  with_prior_preservation : bool;
  data : data_config
}.

(** The arguments [DreamBoothDataset] is built with. *)
Record dataset_args : Type := mkDatasetArgs {
  instance_data_root : string;
  ds_instance_prompt : string;
  reg_data_root : option string;
  reg_prompt : option string;
  size : Z;
  ds_center_crop : bool
}.

(** The arguments the batch sampler is built with. *)
Record sampler_args : Type := mkSamplerArgs {
  total_samples : Z;
  consumed_samples : Z;
  sampler_micro_batch_size : Z;
  sampler_global_batch_size : Z;
  data_parallel_rank : Z;
  data_parallel_size : Z;
  drop_last : bool
}.

(** The data loader [setup_training_data] leaves in [self._train_dl]. *)
Record data_loader : Type := mkDataLoader {
  train_dataset : dataset_args;
  batch_sampler : sampler_args;
  collate_with_prior_preservation : bool;
  dl_num_workers : Z
}.

(** What [setup] leaves in the model. *)
Record setup_result : Type := mkSetup {
  rng_seed : Z;
  init_consumed_samples : Z;
  init_global_step : Z;
  _num_micro_batches : Z;
  _global_batch_size_on_this_data_parallel_rank : Z;
  _train_dl : data_loader
}.

Section Setup.
(** The collaborators of the setup, each of which may raise. *)
(** [self.model.rng.manual_seed(seed)] *)
Variable manual_seed : Z -> result unit.
(** Lines 401-419: the parameters are counted, the count is reduced over
    the model-parallel group and logged. *)
Variable log_number_of_parameters : result unit.
(** [self._extract_consumed_samples_from_ckpt(path)] *)
Variable _extract_consumed_samples_from_ckpt : string -> result Z.
(** [DreamBoothDataset(...)], for the [len()] of the dataset it builds. *)
Variable DreamBoothDataset : dataset_args -> result Z.
(** [self.compute_consumed_samples(n)], of the base class. *)
Variable compute_consumed_samples : Z -> result Z.
(** [MegatronPretrainingRandomBatchSampler(...)] *)
Variable MegatronPretrainingRandomBatchSampler : sampler_args -> result unit.
(** [torch.utils.data.DataLoader(...)] *)
Variable DataLoader : data_loader -> result unit.
(** [parallel_state.get_data_parallel_rank()] and
    [parallel_state.get_data_parallel_world_size()], of an initialized
    parallel state. *)
Variable get_data_parallel_rank : Z.
Variable get_data_parallel_world_size : Z.

(** Lines 436-470. *)
Definition setup_training_data (self_cfg : setup_config) (cfg : data_config)
  : result data_loader :=
  do _ <- (if with_prior_preservation self_cfg then
             match regularization_dir cfg with
             | None => Raise ValueError
             | Some _ =>
                 match regularization_prompt cfg with
                 | None => Raise ValueError
                 | Some _ => Ok tt
                 end
             end
           else Ok tt);
  let train_dataset :=
    mkDatasetArgs
      (instance_dir cfg) (instance_prompt cfg)
      (if with_prior_preservation self_cfg then regularization_dir cfg else None)
      (if with_prior_preservation self_cfg then regularization_prompt cfg else None)
      (resolution cfg) (center_crop cfg) in
  do total_samples <- DreamBoothDataset train_dataset;
  do consumed_samples <- compute_consumed_samples 0;
  let batch_sampler :=
    mkSamplerArgs
      total_samples consumed_samples
      (micro_batch_size self_cfg) (global_batch_size self_cfg)
      get_data_parallel_rank get_data_parallel_world_size false in
  do _ <- MegatronPretrainingRandomBatchSampler batch_sampler;
  let _train_dl :=
    mkDataLoader train_dataset batch_sampler
                 (with_prior_preservation self_cfg) (num_workers cfg) in
  do _ <- DataLoader _train_dl;
  Ok _train_dl.

(** Lines 392-434.  [resume_checkpoint_path] is the path of the checkpoint
    the trainer resumes from, when there is one. *)
Definition setup (self_cfg : setup_config) (global_step : Z)
    (resume_checkpoint_path : option string) : result setup_result :=
  let rng_seed := (seed self_cfg + 100 * get_data_parallel_rank)%Z in
  do _ <- manual_seed rng_seed;
  do _ <- log_number_of_parameters;
  do init_consumed_samples <-
    match resume_checkpoint_path with
    | Some path =>
        if String.eqb path "" then Ok 0%Z
        else _extract_consumed_samples_from_ckpt path
    | None => Ok 0%Z
    end;
  let init_global_step := global_step in
  do _num_micro_batches <-
    py_floordiv (global_batch_size self_cfg)
                (micro_batch_size self_cfg * get_data_parallel_world_size);
  let on_this_rank := (_num_micro_batches * micro_batch_size self_cfg)%Z in
  do _train_dl <- setup_training_data self_cfg (data self_cfg);
  Ok (mkSetup rng_seed init_consumed_samples init_global_step
              _num_micro_batches on_this_rank _train_dl).
End Setup.

End MegatronDreamBoothSteps.

(** A setup whose collaborators all succeed, except that the generator
    refuses a seed outside 64 bits; the dataset holds five images. *)
Definition sample_manual_seed (seed : Z) : result unit :=
  if ((- 2 ^ 63 <=? seed) && (seed <? 2 ^ 64))%Z then Ok tt else Raise ValueError.

Definition sample_setup (world : Z) :=
  MegatronDreamBoothSteps.setup
    sample_manual_seed (Ok tt) (fun _ => Ok 0%Z) (fun _ => Ok 5%Z) (fun _ => Ok 0%Z)
    (fun _ => Ok tt) (fun _ => Ok tt) 1 world.

Definition sample_setup_config (seed : Z) (with_prior_preservation : bool)
  : MegatronDreamBoothSteps.setup_config :=
  MegatronDreamBoothSteps.mkSetupConfig seed 2 10 with_prior_preservation
    (MegatronDreamBoothSteps.mkData "instance" "a photo" None None 512 true 4).

(** The keys [_collate_fn] reads from every example. *)
Definition collate_keys (with_prior_preservation : bool) : list string :=
  if with_prior_preservation
  then ["instance_prompt"; "reg_prompt"; "instance_images"; "reg_images"]
  else ["instance_prompt"; "instance_images"].

(** ** megatron_retrieval_model.py: the steps of a run and the ends of the
    epochs *)

Module MegatronRetrievalLoops.

Section Loops.
Variable model_forward : MegatronRetrievalModel.batch -> option tensor -> tensor.
Variable build_position_ids : tensor -> tensor.
Variable average_losses : list Q -> list Q.

(** The training loop, which calls [training_step] on the batches of the
    loader with the batch indices [batch_idx], [batch_idx + 1], ... in turn
    and stops at the first step that raises. *)
Fixpoint training_steps (self : MegatronRetrievalModel.t)
    (batches : list MegatronRetrievalModel.batch) (batch_idx : Z)
  : state MegatronRetrievalModel.step_state (list Q) :=
  match batches with
  | [] => sret []
  | b :: batches' =>
      run lm_loss <- MegatronRetrievalModel.training_step
                       model_forward build_position_ids average_losses self b batch_idx;
      run lm_losses <- training_steps self batches' (batch_idx + 1);
      sret (lm_loss :: lm_losses)
  end.

(** Lines 488-489. *)
Definition test_step (self : MegatronRetrievalModel.t) (b : MegatronRetrievalModel.batch)
    (batch_idx : Z) : state MegatronRetrievalModel.step_state (list Q) :=
  MegatronRetrievalModel.validation_step
    model_forward build_position_ids average_losses self b batch_idx.
End Loops.

(** [torch.stack(outputs).mean()] on the one-dimensional tensors the steps
    return: the mean over all elements; an empty list and tensors of
    different lengths are a RuntimeError of [torch.stack]. *)
Definition stack_mean (outputs : list (list Q)) : result Q :=
  match outputs with
  | [] => Raise RuntimeError
  | r :: rest =>
      if forallb (fun r' => (length r' =? length r)%nat) rest
      then Ok (mean (concat outputs))
      else Raise RuntimeError
  end.

Section EpochEnd.
(** [torch.exp], which has no rational value to give: taken as it comes. *)
Variable torch_exp : Q -> Q.

(** Lines 478-486.  The result is [None] when the function returns without
    a value. *)
Definition validation_epoch_end (outputs : list (list Q))
  : state MegatronRetrievalModel.step_state (option Q) :=
  if (length outputs =? 0)%nat then sret None
  else
    run averaged_loss <- lift (stack_mean outputs);
    exec MegatronRetrievalModel.emit_ (log "val_loss" averaged_loss);
    exec MegatronRetrievalModel.emit_ (log "perplexity" (torch_exp averaged_loss));
    sret (Some averaged_loss).

(** Lines 491-496. *)
Definition test_epoch_end (outputs : list (list Q))
  : state MegatronRetrievalModel.step_state Q :=
  run averaged_loss <- lift (stack_mean outputs);
  exec MegatronRetrievalModel.emit_ (log "test_loss" averaged_loss);
  exec MegatronRetrievalModel.emit_ (log "perplexity" (torch_exp averaged_loss));
  sret averaged_loss.
End EpochEnd.

End MegatronRetrievalLoops.

(** The calls every retrieval training step makes, whether it logs or not. *)
Definition retrieval_step_events (self : MegatronRetrievalModel.t) : list event :=
  ([average_losses_across_data_parallel_group]
   ++ retrieval_scale_events self ++ retrieval_sync_events self)%list.


(** ** IEEE values

    The scalars of a float tensor where values that are not finite matter:
    a finite value, an infinity or nan.  The arithmetic of the special
    values is the one of IEEE 754; finite arithmetic is exact (rounding and
    overflow are not represented) and zero carries no sign. *)

Inductive fval : Type :=
| Fin (q : Q)
| PInf
| NInf
| NaN.

Definition finite (v : fval) : bool :=
  match v with
  | Fin _ => true
  | _ => false
  end.

(** The rational a finite value stands for. *)
Definition to_Q (v : fval) : Q :=
  match v with
  | Fin q => q
  | _ => 0%Q
  end.

Definition Qsign (q : Q) : comparison := (Qnum q ?= 0)%Z.

(** [a * b]: nan is absorbing, and an infinity times zero is nan. *)
Definition fmul (a b : fval) : fval :=
  match a, b with
  | NaN, _ | _, NaN => NaN
  | Fin x, Fin y => Fin (x * y)
  | Fin x, PInf | PInf, Fin x =>
      match Qsign x with Eq => NaN | Gt => PInf | Lt => NInf end
  | Fin x, NInf | NInf, Fin x =>
      match Qsign x with Eq => NaN | Gt => NInf | Lt => PInf end
  | PInf, PInf | NInf, NInf => PInf
  | PInf, NInf | NInf, PInf => NInf
  end.

(** [a + b]: nan is absorbing, and the two infinities add up to nan. *)
Definition fadd (a b : fval) : fval :=
  match a, b with
  | NaN, _ | _, NaN => NaN
  | Fin x, Fin y => Fin (x + y)
  | PInf, NInf | NInf, PInf => NaN
  | PInf, _ | _, PInf => PInf
  | NInf, _ | _, NInf => NInf
  end.

(** [a / b]: a finite value over zero is an infinity, or nan for [0 / 0]. *)
Definition fdiv (a b : fval) : fval :=
  match a, b with
  | NaN, _ | _, NaN => NaN
  | Fin x, Fin y =>
      match Qsign y with
      | Eq => match Qsign x with Eq => NaN | Gt => PInf | Lt => NInf end
      | _ => Fin (x / y)
      end
  | Fin _, PInf | Fin _, NInf => Fin 0
  | PInf, Fin y => match Qsign y with Lt => NInf | _ => PInf end
  | NInf, Fin y => match Qsign y with Lt => PInf | _ => NInf end
  | PInf, PInf | PInf, NInf | NInf, PInf | NInf, NInf => NaN
  end.

(** [torch.sum] of a flat tensor *)
Definition fsum (l : list fval) : fval := fold_right fadd (Fin 0) l.

Definition ftensor : Type := list (list fval).

(** [t.float()] on a tensor of numbers: every element is finite. *)
Definition float (t : tensor) : ftensor := map (map Fin) t.

(** ** MegatronRetrievalModel over IEEE values: the loss of a step

    The loss computation of [training_step] (lines 359-372) and of
    [validation_step] (lines 461-474), with a model whose per-token loss
    is a float tensor, and the value each step returns.  The calls the
    steps make are those of [MegatronRetrievalModel.training_step] and
    [MegatronRetrievalModel.validation_step] above. *)

Module MegatronRetrievalIEEE.

Fixpoint zip_mul (a b : list fval) : list fval :=
  match a, b with
  | x :: a', y :: b' => fmul x y :: zip_mul a' b'
  | _, _ => []
  end.

(** Elementwise product of two flat tensors, with torch's broadcasting of a
    one-element operand. *)
Definition torch_mul (a b : list fval) : result (list fval) :=
  if (length a =? length b)%nat then Ok (zip_mul a b)
  else
    match a, b with
    | [x], _ => Ok (map (fun y => fmul x y) b)
    | _, [y] => Ok (map (fun x => fmul x y) a)
    | _, _ => Raise RuntimeError
    end.

(** Lines 371-372 and 473-474:
    [torch.sum(loss.view(-1) * loss_mask.reshape(-1)) / loss_mask.sum()]. *)
Definition masked_lm_loss (loss loss_mask : ftensor) : result fval :=
  do products <- torch_mul (concat loss) (concat loss_mask);
  Ok (fdiv (fsum products) (fsum (concat loss_mask))).

Definition index0 (l : list fval) : result fval :=
  match l with
  | x :: _ => Ok x
  | [] => Raise IndexError
  end.

Section Steps.
(** [self(...)]: the per-token loss the model returns for a batch. *)
Variable model_forward : MegatronRetrievalModel.batch -> option tensor -> ftensor.
Variable build_position_ids : tensor -> tensor.
(** The reduction of a list of losses over the data-parallel group, as
    this rank receives it. *)
Variable average_losses : list fval -> list fval.

(** Lines 359-370 and 461-472. *)
Definition per_token_loss (self : MegatronRetrievalModel.t) (b : MegatronRetrievalModel.batch)
  : ftensor :=
  let input_position_ids :=
    if cfg_get (MegatronRetrievalModel.cfg_add_position_embedding (MegatronRetrievalModel.cfg self))
               false
    then Some (build_position_ids (MegatronRetrievalModel.input_tokens_id b))
    else None in
  model_forward b input_position_ids.

(** Lines 350-413, for the value returned: [lm_loss], once the reduced loss
    was indexed and the accumulation window tested. *)
Definition training_step (self : MegatronRetrievalModel.t) (b : MegatronRetrievalModel.batch)
    (batch_idx : Z) : result fval :=
  let loss := per_token_loss self b in
  let loss_mask := float (MegatronRetrievalModel.loss_mask b) in
  do lm_loss <- masked_lm_loss loss loss_mask;
  let reduced_loss := average_losses [lm_loss] in
  do reduced_loss_0 <- index0 reduced_loss;
  do r <- MegatronRetrievalModel.py_mod
            (batch_idx + 1) (MegatronRetrievalModel.accumulate_grad_batches self);
  Ok lm_loss.

(** Lines 452-476, for the value returned. *)
Definition validation_step (self : MegatronRetrievalModel.t) (b : MegatronRetrievalModel.batch)
    (batch_idx : Z) : result (list fval) :=
  let loss := per_token_loss self b in
  let loss_mask := float (MegatronRetrievalModel.loss_mask b) in
  do lm_loss <- masked_lm_loss loss loss_mask;
  let reduced_loss := average_losses [lm_loss] in
  Ok reduced_loss.
End Steps.

End MegatronRetrievalIEEE.

(** A batch of three tokens whose second one is masked out, and a model
    whose per-token loss is [loss] whatever the batch. *)
Definition sample_ieee_training_step (loss : ftensor) : result fval :=
  MegatronRetrievalIEEE.training_step
    (fun _ _ => loss) (fun x => x) (fun l => l)
    (sample_retrieval false false None) sample_batch 0.

Definition sample_ieee_validation_step (loss : ftensor) : result (list fval) :=
  MegatronRetrievalIEEE.validation_step
    (fun _ _ => loss) (fun x => x) (fun l => l)
    (sample_retrieval false false None) sample_batch 0.


(** * Properties *)

(** ** The tensor operations on small inputs *)

Example torch_chunk_four : torch_chunk 2 [1; 2; 3; 4]%nat = Ok [[1; 2]; [3; 4]]%nat.
Proof. reflexivity. Qed.

Example torch_chunk_three : torch_chunk 2 [1; 2; 3]%nat = Ok [[1; 2]; [3]]%nat.
Proof. reflexivity. Qed.

Example torch_chunk_one : torch_chunk 2 [1]%nat = Ok [[1]]%nat.
Proof. reflexivity. Qed.

Example torch_chunk_none : torch_chunk 2 (@nil nat) = Ok [[]; []].
Proof. reflexivity. Qed.

Example mse_loss_two_rows :
  mse_loss [[1; 2]; [3; 4]]%Q [[1; 0]; [3; 0]]%Q = Ok (20 / 4)%Q.
Proof. reflexivity. Qed.

Example masked_lm_loss_three_tokens :
  MegatronRetrievalModel.masked_lm_loss [[2; 5; 4]]%Q [[1; 0; 1]]%Q = Ok (6 / 2)%Q.
Proof. reflexivity. Qed.

Example init_allocates_fresh_parameters :
  exists self h,
    DreamBooth.__init__ sample_model_config empty_heap = (Ok self, h) /\
    params (DreamBooth.text_encoder self) = [0; 1]%nat /\
    params (DreamBooth.vae self) = [2; 3; 4]%nat /\
    DreamBooth.parameters self = [5; 6]%nat /\
    objects h !! 3%nat = Some (mkParam false 4) /\
    objects h !! 5%nat = Some (mkParam true 6).
Proof.
  eexists. eexists. split; [reflexivity|]. repeat split; reflexivity.
Qed.

(** ** Helper lemmas on the tensor operations *)

Lemma Qmult_comm_eq (a b : Q) : (a * b)%Q = (b * a)%Q.
Proof.
  unfold Qmult. f_equal.
  - apply Z.mul_comm.
  - apply Pos.mul_comm.
Qed.

Lemma ceil_div_double (n : nat) : ceil_div (2 * n) 2 = n.
Proof.
  unfold ceil_div. symmetry. apply Nat.div_unique with (r := 1%nat); lia.
Qed.

Lemma ceil_div_twice_self (n : nat) : (0 < n)%nat -> ceil_div (2 * n) n = 2%nat.
Proof.
  intros Hn. unfold ceil_div. symmetry.
  apply Nat.div_unique with (r := (n - 1)%nat); lia.
Qed.

(** An even-sized batch is chunked in two halves of equal size. *)
Lemma torch_chunk_even {A : Type} (l : list A) (n : nat) :
  (0 < n)%nat -> length l = (2 * n)%nat ->
  torch_chunk 2 l = Ok [firstn n l; skipn n l].
Proof.
  intros Hn Hlen. unfold torch_chunk. simpl Nat.eqb at 1. cbv iota.
  rewrite Hlen, ceil_div_double.
  destruct (Nat.eqb_spec n 0) as [->|_]; [lia|]. simpl andb. cbv iota.
  unfold torch_split. rewrite Hlen, ceil_div_twice_self by exact Hn.
  simpl. rewrite Nat.add_0_r. f_equal. f_equal. f_equal.
  apply firstn_all2. rewrite length_skipn. lia.
Qed.

Lemma has_shape_length (t : tensor) (b d : nat) :
  has_shape t b d = true -> length t = b.
Proof.
  unfold has_shape. intros H. apply andb_true_iff in H as [H _].
  now apply Nat.eqb_eq in H.
Qed.

Lemma has_shape_rows (t : tensor) (b d : nat) :
  has_shape t b d = true -> Forall (fun r => length r = d) t.
Proof.
  unfold has_shape. intros H. apply andb_true_iff in H as [_ H].
  rewrite forallb_forall in H. apply Forall_forall. intros r Hr.
  apply Nat.eqb_eq. apply H. now apply list_elem_of_In.
Qed.

Lemma same_shape_of_rows (x y : tensor) (d : nat) :
  length x = length y ->
  Forall (fun r => length r = d) x -> Forall (fun r => length r = d) y ->
  same_shape x y = true.
Proof.
  intros Hlen Hx. revert y Hlen.
  induction Hx as [|r x Hr Hx IH]; intros [|r' y] Hlen Hy; simpl in Hlen; try discriminate.
  - reflexivity.
  - inversion Hy as [|? ? Hr' Hy']; subst.
    unfold same_shape in *. simpl.
    injection Hlen as Hlen.
    specialize (IH y Hlen Hy'). apply andb_true_iff in IH as [_ IH].
    rewrite Hlen, Nat.eqb_refl, Hr', Nat.eqb_refl, IH. reflexivity.
Qed.


(** ** DreamBooth.forward *)

Section ForwardProperties.
Variable rng : Type.
Variable vae_encode : tensor -> rng -> tensor * rng.
Variable randn_like : tensor -> rng -> tensor * rng.
Variable randint : nat -> nat -> rng -> list nat * rng.
Variable noise_scheduler_apply : tensor -> list nat -> tensor -> tensor.
Variable unet_apply : tensor -> list nat -> tensor -> tensor.

Local Abbreviation forward_pass :=
  (DreamBooth.forward_pass rng vae_encode randn_like randint noise_scheduler_apply unet_apply).
Local Abbreviation forward :=
  (DreamBooth.forward rng vae_encode randn_like randint noise_scheduler_apply unet_apply).

Lemma forward_unfold self batch g model_output latents noise g' :
  forward_pass self batch g = (model_output, latents, noise, g') ->
  forward self batch g =
    (do target <- DreamBooth.select_target self latents noise;
     DreamBooth.compute_loss self model_output target, g').
Proof.
  intros H. unfold DreamBooth.forward. rewrite H. reflexivity.
Qed.

Lemma compute_loss_halves self model_output target n d :
  DreamBooth.with_prior_preservation self = true ->
  (0 < n)%nat ->
  has_shape model_output (2 * n) d = true ->
  has_shape target (2 * n) d = true ->
  DreamBooth.compute_loss self model_output target =
    Ok (mse_mean (firstn n model_output) (firstn n target)
        + DreamBooth.prior_loss_weight self
          * mse_mean (skipn n model_output) (skipn n target))%Q.
Proof.
  intros Hpp Hn Hout Htgt. unfold DreamBooth.compute_loss. rewrite Hpp.
  pose proof (has_shape_length _ _ _ Hout) as Lout.
  pose proof (has_shape_length _ _ _ Htgt) as Ltgt.
  pose proof (has_shape_rows _ _ _ Hout) as Rout.
  pose proof (has_shape_rows _ _ _ Htgt) as Rtgt.
  rewrite (torch_chunk_even model_output n Hn Lout).
  rewrite (torch_chunk_even target n Hn Ltgt).
  cbn [rbind unpack2].
  unfold mse_loss.
  rewrite (same_shape_of_rows (firstn n model_output) (firstn n target) d);
    [ | rewrite !length_firstn; lia | now apply Forall_take | now apply Forall_take ].
  rewrite (same_shape_of_rows (skipn n model_output) (skipn n target) d);
    [ | rewrite !length_skipn; lia | now apply Forall_drop | now apply Forall_drop ].
  cbn [rbind]. f_equal. f_equal. apply Qmult_comm_eq.
Qed.

(** C1: with prior preservation, the forward pass of a microbatch of 2n
    entries chunks the model output and the target into the first n
    (instance) and the last n (regularization) entries, takes the mean
    squared error of each half on its own, and returns
    instance_mse + prior_loss_weight * regularization_mse. *)
Theorem forward_prior_preservation_loss self batch g model_output latents noise g' target n d :
  DreamBooth.with_prior_preservation self = true ->
  forward_pass self batch g = (model_output, latents, noise, g') ->
  DreamBooth.select_target self latents noise = Ok target ->
  (0 < n)%nat -> (0 < d)%nat ->
  has_shape model_output (2 * n) d = true ->
  has_shape target (2 * n) d = true ->
  let instance_mse := mse_mean (firstn n model_output) (firstn n target) in
  let regularization_mse := mse_mean (skipn n model_output) (skipn n target) in
  torch_chunk 2 model_output = Ok [firstn n model_output; skipn n model_output] /\
  torch_chunk 2 target = Ok [firstn n target; skipn n target] /\
  length (firstn n model_output) = n /\ length (skipn n model_output) = n /\
  length (firstn n target) = n /\ length (skipn n target) = n /\
  mse_loss (firstn n model_output) (firstn n target) = Ok instance_mse /\
  mse_loss (skipn n model_output) (skipn n target) = Ok regularization_mse /\
  forward self batch g =
    (Ok (instance_mse + DreamBooth.prior_loss_weight self * regularization_mse)%Q, g').
Proof.
  intros Hpp Hpass Hsel Hn Hd Hout Htgt instance_mse regularization_mse.
  pose proof (has_shape_length _ _ _ Hout) as Lout.
  pose proof (has_shape_length _ _ _ Htgt) as Ltgt.
  pose proof (has_shape_rows _ _ _ Hout) as Rout.
  pose proof (has_shape_rows _ _ _ Htgt) as Rtgt.
  repeat split.
  - now apply torch_chunk_even.
  - now apply torch_chunk_even.
  - rewrite length_firstn; lia.
  - rewrite length_skipn; lia.
  - rewrite length_firstn; lia.
  - rewrite length_skipn; lia.
  - unfold mse_loss.
    rewrite (same_shape_of_rows _ _ d); [ reflexivity | rewrite !length_firstn; lia | | ];
      now apply Forall_take.
  - unfold mse_loss.
    rewrite (same_shape_of_rows _ _ d); [ reflexivity | rewrite !length_skipn; lia | | ];
      now apply Forall_drop.
  - rewrite (forward_unfold _ _ _ _ _ _ _ Hpass), Hsel. cbn [rbind].
    now rewrite (compute_loss_halves self model_output target n d).
Qed.

(** C3: the flag "x0" makes the clean latent the loss target, "eps" the
    injected noise, and with any other flag the forward pass raises
    NotImplementedError and returns no loss. *)
Theorem forward_parameterization self batch g model_output latents noise g' :
  forward_pass self batch g = (model_output, latents, noise, g') ->
  (DreamBooth.parameterization self = "x0" ->
     DreamBooth.select_target self latents noise = Ok latents /\
     forward self batch g = (DreamBooth.compute_loss self model_output latents, g')) /\
  (DreamBooth.parameterization self = "eps" ->
     DreamBooth.select_target self latents noise = Ok noise /\
     forward self batch g = (DreamBooth.compute_loss self model_output noise, g')) /\
  (DreamBooth.parameterization self <> "x0" ->
   DreamBooth.parameterization self <> "eps" ->
     DreamBooth.select_target self latents noise = Raise NotImplementedError /\
     forward self batch g = (Raise NotImplementedError, g')).
Proof.
  intros Hpass. rewrite (forward_unfold _ _ _ _ _ _ _ Hpass).
  unfold DreamBooth.select_target.
  split; [|split].
  - intros ->. split; reflexivity.
  - intros ->. split; reflexivity.
  - intros Hx0 Heps. apply String.eqb_neq in Hx0, Heps.
    rewrite Hx0, Heps. split; reflexivity.
Qed.
End ForwardProperties.

(** ** _collate_fn *)

Lemma rmap_ok {A B : Type} (f : A -> result B) (g : A -> B) (l : list A) :
  Forall (fun a => f a = Ok (g a)) l -> rmap f l = Ok (map g l).
Proof.
  induction 1 as [|a l Ha _ IH]; simpl.
  - reflexivity.
  - now rewrite Ha, IH.
Qed.

Lemma rmap_as_tensor (rows : list row) :
  rmap as_tensor (map VTensor rows) = Ok rows.
Proof.
  induction rows as [|r rows IH]; simpl.
  - reflexivity.
  - now rewrite IH.
Qed.

Lemma torch_stack_rows (rows : list row) (d : nat) :
  rows <> [] -> Forall (fun r => length r = d) rows ->
  torch_stack (map VTensor rows) = Ok rows.
Proof.
  intros Hne Hd. unfold torch_stack. rewrite rmap_as_tensor. cbn [rbind].
  destruct rows as [|r rest]; [congruence|].
  inversion Hd as [|? ? Hr Hrest]; subst.
  replace (forallb _ rest) with true; [reflexivity|].
  symmetry. apply forallb_forall. intros r' Hr'.
  apply Nat.eqb_eq. rewrite Forall_forall in Hrest.
  apply Hrest. now apply list_elem_of_In.
Qed.

Lemma is_prior_example_inv (d : nat) (example : gmap string pyval) :
  is_prior_example d example = true ->
  (exists p q, getitem example "instance_prompt" = Ok p /\
               getitem example "reg_prompt" = Ok q) /\
  getitem example "instance_images" = Ok (VTensor (image_of "instance_images" example)) /\
  getitem example "reg_images" = Ok (VTensor (image_of "reg_images" example)) /\
  length (image_of "instance_images" example) = d /\
  length (image_of "reg_images" example) = d.
Proof.
  unfold is_prior_example, getitem, image_of.
  destruct (example !! "instance_prompt") as [p|]; [|discriminate].
  destruct (example !! "reg_prompt") as [q|]; [|discriminate].
  destruct (example !! "instance_images") as [[?|i]|]; try discriminate.
  destruct (example !! "reg_images") as [[?|r]|]; try discriminate.
  intros H. apply andb_true_iff in H as [Hi Hr].
  apply Nat.eqb_eq in Hi, Hr. eauto 10.
Qed.

(** C9: on a non-empty list of n examples with regularization data, the
    collate function with prior preservation returns the 2n images made of
    the n instance images followed by the n regularization images, and the
    two-way chunk of the forward pass gives back these two halves in that
    order. *)
Theorem collate_fn_prior_preservation_layout (examples : list (gmap string pyval)) (d : nat) :
  examples <> [] ->
  forallb (is_prior_example d) examples = true ->
  let n := length examples in
  let instance_images := map (image_of "instance_images") examples in
  let reg_images := map (image_of "reg_images") examples in
  exists prompts images,
    _collate_fn examples true = Ok (prompts, images) /\
    images = (instance_images ++ reg_images)%list /\
    length images = (2 * n)%nat /\
    firstn n images = instance_images /\
    skipn n images = reg_images /\
    torch_chunk 2 images = Ok [instance_images; reg_images].
Proof.
  intros Hne Hok n instance_images reg_images.
  assert (Hall : Forall (fun e => is_prior_example d e = true) examples).
  { apply Forall_forall. intros e He. rewrite forallb_forall in Hok.
    apply Hok. now apply list_elem_of_In. }
  assert (Hprompts : exists prompts,
    rmap (fun example =>
            do p <- getitem example "instance_prompt";
            do q <- getitem example "reg_prompt";
            Ok [p; q]) examples = Ok prompts).
  { clear Hne Hok n instance_images reg_images.
    induction Hall as [|e l He _ [ps IH]]; simpl.
    - now exists [].
    - apply is_prior_example_inv in He as [(p & q & -> & ->) _].
      cbn [rbind]. rewrite IH. cbn [rbind]. eauto. }
  destruct Hprompts as [prompts Hprompts].
  assert (Hlen_i : length instance_images = n) by apply length_map.
  assert (Hlen_r : length reg_images = n) by apply length_map.
  assert (Hn : (0 < n)%nat).
  { subst n. destruct examples; [congruence | simpl; lia]. }
  exists prompts, (instance_images ++ reg_images)%list.
  split; [|split; [reflexivity|split; [|split; [|split]]]].
  - unfold _collate_fn. rewrite Hprompts. cbn [rbind].
    rewrite (rmap_ok _ (fun e => VTensor (image_of "instance_images" e))).
    2:{ eapply Forall_impl; [exact Hall|]. intros e He.
        now apply is_prior_example_inv in He as (_ & -> & _). }
    rewrite (rmap_ok _ (fun e => VTensor (image_of "reg_images" e))).
    2:{ eapply Forall_impl; [exact Hall|]. intros e He.
        now apply is_prior_example_inv in He as (_ & _ & -> & _). }
    cbn [rbind].
    rewrite <- (map_map (image_of "instance_images") VTensor).
    rewrite <- (map_map (image_of "reg_images") VTensor).
    rewrite <- map_app.
    fold instance_images reg_images.
    rewrite (torch_stack_rows _ d); [reflexivity| |].
    + destruct instance_images; [simpl in Hlen_i; lia | discriminate].
    + apply Forall_app. split; apply Forall_map; (eapply Forall_impl; [exact Hall|]);
        intros e He; now apply is_prior_example_inv in He as (_ & _ & _ & ? & ?).
  - rewrite length_app. lia.
  - rewrite firstn_app, <- Hlen_i, firstn_all, Nat.sub_diag. simpl. apply app_nil_r.
  - rewrite skipn_app, <- Hlen_i, skipn_all, Nat.sub_diag. reflexivity.
  - rewrite (torch_chunk_even _ n Hn); [|rewrite length_app; lia].
    rewrite firstn_app, skipn_app, <- Hlen_i, firstn_all, skipn_all, Nat.sub_diag.
    simpl. now rewrite app_nil_r.
Qed.

Lemma forward_prior_preservation_loss_witness :
  exists loss,
    sample_forward (sample_dreambooth true "eps") ([[1]; [3]], [])%Q 0%nat = (Ok loss, 2%nat) /\
    (loss == 11 # 2)%Q.
Proof.
  pose proof (forward_prior_preservation_loss
                nat sample_vae_encode sample_randn_like sample_randint
                (fun x _ _ => x) (fun x _ _ => x)
                (sample_dreambooth true "eps") ([[1]; [3]], [])%Q 0%nat
                [[1 * 1]; [1 * 3]]%Q [[1 * 1]; [1 * 3]]%Q [[0]; [0]]%Q 2%nat [[0]; [0]]%Q
                1%nat 1%nat
                eq_refl eq_refl eq_refl Nat.lt_0_1 Nat.lt_0_1 eq_refl eq_refl) as H.
  cbv zeta in H.
  destruct H as (_ & _ & _ & _ & _ & _ & _ & _ & H).
  eexists. split; [exact H|]. reflexivity.
Defined.

Lemma forward_parameterization_witness :
  sample_forward (sample_dreambooth false "x0") ([[1]; [3]], [])%Q 0%nat
    = (DreamBooth.compute_loss (sample_dreambooth false "x0")
         [[1 * 1]; [1 * 3]]%Q [[1 * 1]; [1 * 3]]%Q, 2%nat) /\
  sample_forward (sample_dreambooth false "eps") ([[1]; [3]], [])%Q 0%nat
    = (DreamBooth.compute_loss (sample_dreambooth false "eps")
         [[1 * 1]; [1 * 3]]%Q [[0]; [0]]%Q, 2%nat) /\
  sample_forward (sample_dreambooth false "v") ([[1]; [3]], [])%Q 0%nat
    = (Raise NotImplementedError, 2%nat).
Proof.
  split; [|split].
  - apply (forward_parameterization
             nat sample_vae_encode sample_randn_like sample_randint
             (fun x _ _ => x) (fun x _ _ => x)
             (sample_dreambooth false "x0") ([[1]; [3]], [])%Q 0%nat
             [[1 * 1]; [1 * 3]]%Q [[1 * 1]; [1 * 3]]%Q [[0]; [0]]%Q 2%nat eq_refl).
    reflexivity.
  - apply (forward_parameterization
             nat sample_vae_encode sample_randn_like sample_randint
             (fun x _ _ => x) (fun x _ _ => x)
             (sample_dreambooth false "eps") ([[1]; [3]], [])%Q 0%nat
             [[1 * 1]; [1 * 3]]%Q [[1 * 1]; [1 * 3]]%Q [[0]; [0]]%Q 2%nat eq_refl).
    reflexivity.
  - apply (forward_parameterization
             nat sample_vae_encode sample_randn_like sample_randint
             (fun x _ _ => x) (fun x _ _ => x)
             (sample_dreambooth false "v") ([[1]; [3]], [])%Q 0%nat
             [[1 * 1]; [1 * 3]]%Q [[1 * 1]; [1 * 3]]%Q [[0]; [0]]%Q 2%nat eq_refl);
      discriminate.
Defined.

Lemma collate_fn_prior_preservation_layout_witness :
  exists prompts,
    _collate_fn [sample_example "a dog" "dog" [1; 2]%Q [3; 4]%Q;
                 sample_example "a dog" "dog" [5; 6]%Q [7; 8]%Q] true
    = Ok (prompts, [[1; 2]; [5; 6]; [3; 4]; [7; 8]]%Q) /\
    torch_chunk 2 [[1; 2]; [5; 6]; [3; 4]; [7; 8]]%Q
    = Ok [[[1; 2]; [5; 6]]; [[3; 4]; [7; 8]]]%Q.
Proof.
  destruct (collate_fn_prior_preservation_layout
              [sample_example "a dog" "dog" [1; 2]%Q [3; 4]%Q;
               sample_example "a dog" "dog" [5; 6]%Q [7; 8]%Q] 2%nat)
    as (prompts & images & Hc & Himg & _ & _ & _ & Hchunk).
  - discriminate.
  - vm_compute. reflexivity.
  - exists prompts. subst images. split; [exact Hc | exact Hchunk].
Defined.

(** ** MegatronDreamBooth: construction *)

Section InitProperties.
Variable base_init : MegatronDreamBooth.config -> MegatronDreamBooth.Trainer -> result unit.
Variable int_of_str : string -> result Z.
Variable base_with_distributed_adam : bool.
Variable base_lr : Q.
Variable setup_init_global_step : Z.

(** C8: for a trainer whose accumulate_grad_batches is a positive integer,
    as the Trainer of Lightning requires of an accumulation factor, and
    differs from 1, the construction of the model raises ValueError at the
    trainer validation, before the model is built (the heap is left as it
    was); a trainer with accumulate_grad_batches = 1 passes the
    validation. *)
Theorem init_rejects_gradient_accumulation cfg trainer h :
  base_init cfg trainer = Ok tt ->
  (1 <= MegatronDreamBooth.accumulate_grad_batches trainer)%Z ->
  MegatronDreamBooth.accumulate_grad_batches trainer <> 1%Z ->
  MegatronDreamBooth._validate_trainer trainer = Raise ValueError /\
  MegatronDreamBooth.__init__ true base_init int_of_str base_with_distributed_adam
                              base_lr setup_init_global_step cfg trainer h
    = (Raise ValueError, h) /\
  (forall trainer1, MegatronDreamBooth.accumulate_grad_batches trainer1 = 1%Z ->
     MegatronDreamBooth._validate_trainer trainer1 = Ok tt).
Proof.
  intros Hbase Hpos Hacc.
  assert (Hv : MegatronDreamBooth._validate_trainer trainer = Raise ValueError).
  { unfold MegatronDreamBooth._validate_trainer.
    destruct (Z.gtb_spec (MegatronDreamBooth.accumulate_grad_batches trainer) 1); [reflexivity|lia]. }
  split; [exact Hv|split].
  - unfold MegatronDreamBooth.__init__, sbind, lift. simpl negb. cbv iota.
    now rewrite Hbase, Hv.
  - intros trainer1 H1. unfold MegatronDreamBooth._validate_trainer. now rewrite H1.
Qed.
End InitProperties.

Lemma init_rejects_gradient_accumulation_witness :
  sample_init (sample_trainer 4) empty_heap = (Raise ValueError, empty_heap).
Proof.
  apply (init_rejects_gradient_accumulation
           (fun _ _ => Ok tt) (fun _ => Raise ValueError) false (1 # 1000) 0%Z
           sample_config (sample_trainer 4) empty_heap).
  - reflexivity.
  - simpl. lia.
  - simpl. lia.
Defined.

(** ** MegatronDreamBooth: the training step *)

Lemma aggregate_losses_mean (records : list (gmap string Q)) (losses : list Q) :
  records <> [] ->
  Forall2 (fun record loss => record !! "loss" = Some loss) records losses ->
  MegatronDreamBooth.aggregate_losses records = Ok (mean losses).
Proof.
  intros Hne H. unfold MegatronDreamBooth.aggregate_losses.
  destruct records as [|r rs]; [congruence|].
  assert (Hmap : rmap (fun loss_reduced => getitem loss_reduced "loss") (r :: rs) = Ok losses).
  { clear Hne. induction H as [|r' l' rs' ls' Hr _ IH]; simpl.
    - reflexivity.
    - unfold getitem at 1. rewrite Hr. cbn [rbind]. now rewrite IH. }
  now rewrite Hmap.
Qed.

Section TrainingStepProperties.
Variable compute_consumed_samples : Z -> Z.
Variable get_last_rank : nat.
Variable engine : nat -> result (list (gmap string Q)).

Local Abbreviation training_step rank :=
  (MegatronDreamBooth.training_step compute_consumed_samples get_last_rank rank engine).
Local Abbreviation held_by rank :=
  (MegatronDreamBooth.loss_mean_before_broadcast engine rank).

(** A whole step, on a rank whose aggregation yields [m] while the last
    rank holds [v]. *)
Lemma training_step_run rank self trace m v :
  held_by rank = Ok m ->
  held_by get_last_rank = Ok v ->
  training_step rank self trace =
    (Ok (if (rank =? get_last_rank)%nat then m else v),
     (trace ++ dreambooth_events_before_broadcast self
            ++ [broadcast get_last_rank]
            ++ dreambooth_events_after_broadcast compute_consumed_samples self
                 (if (rank =? get_last_rank)%nat then m else v))%list).
Proof.
  intros Hm Hv.
  unfold MegatronDreamBooth.loss_mean_before_broadcast in Hm.
  destruct (engine rank) as [records|] eqn:E; [|discriminate]. cbn [rbind] in Hm.
  unfold MegatronDreamBooth.training_step, MegatronDreamBooth.synchronize_gradients,
    MegatronDreamBooth.torch_distributed_broadcast,
    dreambooth_events_before_broadcast, dreambooth_events_after_broadcast,
    sbind, emit, modify, lift, sret.
  rewrite E, Hm.
  destruct ((cfg_get _ 1 >? 1)%Z && cfg_get _ false);
    destruct (MegatronDreamBooth.with_distributed_adam self);
    destruct (MegatronDreamBooth.megatron_amp_O2 self);
    destruct (rank =? get_last_rank)%nat;
    rewrite ?Hv;
    destruct (precision_is_16 (MegatronDreamBooth.cfg_precision (MegatronDreamBooth.cfg self)));
    destruct (MegatronDreamBooth.scaler_scale (MegatronDreamBooth.trainer self));
    cbn [app]; rewrite <- ?app_assoc; reflexivity.
Qed.
End TrainingStepProperties.

(** ** MegatronRetrievalModel: the masked loss and the steps *)

Lemma masked_lm_loss_eq (loss loss_mask : tensor) :
  numel loss = numel loss_mask ->
  MegatronRetrievalModel.masked_lm_loss loss loss_mask =
    Ok (Qsum (MegatronRetrievalModel.zip_mul (concat loss) (concat loss_mask))
        / Qsum (concat loss_mask))%Q.
Proof.
  unfold numel. intros H.
  unfold MegatronRetrievalModel.masked_lm_loss, MegatronRetrievalModel.torch_mul.
  rewrite H, Nat.eqb_refl. reflexivity.
Qed.

Lemma Qsum_zip_mul_masked (l l' mask : list Q) :
  length l = length mask -> length l' = length mask ->
  (forall i, ~ (nth i mask 0 == 0)%Q -> (nth i l 0 == nth i l' 0)%Q) ->
  (Qsum (MegatronRetrievalModel.zip_mul l mask)
   == Qsum (MegatronRetrievalModel.zip_mul l' mask))%Q.
Proof.
  revert l l'.
  induction mask as [|y mask IH]; intros [|x l] [|x' l'] Hl Hl' Hsame;
    simpl in Hl, Hl'; try discriminate; simpl.
  - reflexivity.
  - injection Hl as Hl. injection Hl' as Hl'.
    rewrite (IH l l' Hl Hl' (fun i => Hsame (S i))).
    apply Qplus_inj_r.
    destruct (Qeq_dec y 0) as [Hy|Hy].
    + rewrite Hy. ring.
    + rewrite (Hsame 0%nat Hy). reflexivity.
Qed.

Section RetrievalStepProperties.
Variable model_forward : MegatronRetrievalModel.batch -> option tensor -> tensor.
Variable build_position_ids : tensor -> tensor.
Variable average_losses : list Q -> list Q.

Local Abbreviation per_token_loss :=
  (MegatronRetrievalModel.per_token_loss model_forward build_position_ids).
Local Abbreviation training_step :=
  (MegatronRetrievalModel.training_step model_forward build_position_ids average_losses).
Local Abbreviation validation_step :=
  (MegatronRetrievalModel.validation_step model_forward build_position_ids average_losses).

(** A whole training step whose masked loss is [lm_loss], reduced to
    [reduced] over the data-parallel group. *)
Lemma retrieval_training_step_run self b batch_idx st lm_loss reduced r :
  MegatronRetrievalModel.masked_lm_loss (per_token_loss self b)
                                        (MegatronRetrievalModel.loss_mask b) = Ok lm_loss ->
  MegatronRetrievalModel.index0 (average_losses [lm_loss]) = Ok reduced ->
  MegatronRetrievalModel.py_mod (batch_idx + 1)
                                (MegatronRetrievalModel.accumulate_grad_batches self) = Ok r ->
  let buffer := (MegatronRetrievalModel._reduced_loss_buffer st ++ [reduced])%list in
  training_step self b batch_idx st =
    (Ok lm_loss,
     MegatronRetrievalModel.mkStepState
       (if (r =? 0)%Z then [] else buffer)
       (MegatronRetrievalModel.trace st
        ++ [average_losses_across_data_parallel_group]
        ++ retrieval_scale_events self
        ++ retrieval_sync_events self
        ++ (if (r =? 0)%Z
            then retrieval_log_events self (mean buffer)
            else []))%list).
Proof.
  intros Hloss Hred Hmod buffer. subst buffer.
  unfold MegatronRetrievalModel.training_step, MegatronRetrievalModel.synchronize_gradients,
    retrieval_scale_events, retrieval_sync_events, retrieval_log_events,
    MegatronRetrievalModel.emit_, sbind, get, modify, lift, sret.
  rewrite Hloss. cbn [MegatronRetrievalModel.trace MegatronRetrievalModel._reduced_loss_buffer].
  rewrite Hred. cbn [MegatronRetrievalModel.trace MegatronRetrievalModel._reduced_loss_buffer].
  set (pp := cfg_get (MegatronRetrievalModel.cfg_pipeline_model_parallel_size
                        (MegatronRetrievalModel.cfg self)) 1%Z).
  destruct (precision_is_16 (MegatronRetrievalModel.cfg_precision (MegatronRetrievalModel.cfg self)));
    destruct (MegatronRetrievalModel.scaler_scale self);
    destruct (MegatronRetrievalModel.with_distributed_adam self);
    destruct (MegatronRetrievalModel.megatron_amp_o2 self);
    destruct (pp =? 1)%Z;
    destruct (pp >? 1)%Z;
    cbn [MegatronRetrievalModel.trace MegatronRetrievalModel._reduced_loss_buffer];
    rewrite Hmod;
    destruct (r =? 0)%Z;
    cbn [MegatronRetrievalModel.trace MegatronRetrievalModel._reduced_loss_buffer app];
    rewrite <- ?app_assoc; reflexivity.
Qed.

Lemma retrieval_validation_step_run self b batch_idx st lm_loss :
  MegatronRetrievalModel.masked_lm_loss (per_token_loss self b)
                                        (MegatronRetrievalModel.loss_mask b) = Ok lm_loss ->
  validation_step self b batch_idx st =
    (Ok (average_losses [lm_loss]),
     MegatronRetrievalModel.mkStepState
       (MegatronRetrievalModel._reduced_loss_buffer st)
       (MegatronRetrievalModel.trace st ++ [average_losses_across_data_parallel_group])%list).
Proof.
  intros Hloss.
  unfold MegatronRetrievalModel.validation_step, MegatronRetrievalModel.emit_,
    sbind, modify, lift, sret.
  now rewrite Hloss.
Qed.
End RetrievalStepProperties.

(** *** The masked loss over IEEE values *)

Lemma finite_embed (l : list fval) :
  forallb finite l = true -> l = map Fin (map to_Q l).
Proof.
  induction l as [|v l IH]; simpl; intros H; [reflexivity|].
  apply andb_prop in H as [Hv Hl]. destruct v; try discriminate.
  simpl. f_equal. now apply IH.
Qed.

Lemma concat_float (t : tensor) : concat (float t) = map Fin (concat t).
Proof.
  unfold float. induction t as [|r t IH]; simpl; [reflexivity|].
  now rewrite map_app, IH.
Qed.

Lemma ieee_zip_mul_finite (a b : list Q) :
  MegatronRetrievalIEEE.zip_mul (map Fin a) (map Fin b)
    = map Fin (MegatronRetrievalModel.zip_mul a b).
Proof.
  revert b. induction a as [|x a IH]; intros [|y b]; simpl; try reflexivity.
  now rewrite IH.
Qed.

Lemma fsum_finite (l : list Q) : fsum (map Fin l) = Fin (Qsum l).
Proof.
  induction l as [|x l IH]; [reflexivity|].
  cbn [map fsum fold_right]. fold (fsum (map Fin l)). rewrite IH. reflexivity.
Qed.

Lemma fdiv_finite (x y : Q) : ~ (y == 0)%Q -> fdiv (Fin x) (Fin y) = Fin (x / y).
Proof.
  intros Hy. unfold fdiv, Qsign.
  destruct (Z.compare_spec (Qnum y) 0) as [H0| |]; try reflexivity.
  exfalso. apply Hy. unfold Qeq. simpl. rewrite H0. reflexivity.
Qed.

(** On finite per-token losses and a mask whose sum is not zero, the masked
    loss over IEEE values is finite and is the quotient of the sums. *)
Lemma ieee_masked_lm_loss_eq (loss : ftensor) (mask : tensor) :
  forallb finite (concat loss) = true ->
  length (concat loss) = numel mask ->
  ~ (Qsum (concat mask) == 0)%Q ->
  MegatronRetrievalIEEE.masked_lm_loss loss (float mask) =
    Ok (Fin (Qsum (MegatronRetrievalModel.zip_mul (map to_Q (concat loss)) (concat mask))
             / Qsum (concat mask))%Q).
Proof.
  intros Hfin Hlen Hsum. unfold numel in Hlen.
  set (ql := map to_Q (concat loss)).
  assert (E : concat loss = map Fin ql) by (subst ql; now apply finite_embed).
  unfold MegatronRetrievalIEEE.masked_lm_loss, MegatronRetrievalIEEE.torch_mul.
  rewrite concat_float, length_map, Hlen, Nat.eqb_refl. cbn [rbind].
  rewrite E, ieee_zip_mul_finite, !fsum_finite. now rewrite fdiv_finite.
Qed.

(** The rational model of the masked loss is the finite part of the IEEE
    one: on a per-token loss of numbers and a mask whose sum is not zero,
    both compute the same value. *)
Lemma rational_masked_lm_loss_is_ieee (loss mask : tensor) :
  numel loss = numel mask ->
  ~ (Qsum (concat mask) == 0)%Q ->
  exists q,
    MegatronRetrievalModel.masked_lm_loss loss mask = Ok q /\
    MegatronRetrievalIEEE.masked_lm_loss (float loss) (float mask) = Ok (Fin q).
Proof.
  intros Hn Hsum. eexists. split; [now apply masked_lm_loss_eq|].
  rewrite ieee_masked_lm_loss_eq; try assumption.
  - rewrite concat_float, map_map. simpl. now rewrite map_id.
  - rewrite concat_float. clear. induction (concat loss); simpl; auto.
  - rewrite concat_float, length_map. exact Hn.
Qed.

Section RetrievalIEEEProperties.
Variable build_position_ids : tensor -> tensor.
Variable average_losses : list fval -> list fval.

(** The value of both steps over a finite per-token loss. *)
Lemma ieee_steps_run
    (model_forward : MegatronRetrievalModel.batch -> option tensor -> ftensor)
    self b batch_idx :
  let loss := MegatronRetrievalIEEE.per_token_loss model_forward build_position_ids self b in
  let mask := MegatronRetrievalModel.loss_mask b in
  forallb finite (concat loss) = true ->
  length (concat loss) = numel mask ->
  ~ (Qsum (concat mask) == 0)%Q ->
  (forall l, length (average_losses l) = length l) ->
  MegatronRetrievalModel.accumulate_grad_batches self <> 0%Z ->
  let q := (Qsum (MegatronRetrievalModel.zip_mul (map to_Q (concat loss)) (concat mask))
            / Qsum (concat mask))%Q in
  MegatronRetrievalIEEE.training_step
    model_forward build_position_ids average_losses self b batch_idx = Ok (Fin q) /\
  MegatronRetrievalIEEE.validation_step
    model_forward build_position_ids average_losses self b batch_idx
    = Ok (average_losses [Fin q]).
Proof.
  intros loss mask Hfin Hlen Hsum Havg Hacc q.
  pose proof (ieee_masked_lm_loss_eq loss mask Hfin Hlen Hsum) as Hloss. fold q in Hloss.
  unfold MegatronRetrievalIEEE.training_step, MegatronRetrievalIEEE.validation_step.
  fold loss mask. rewrite Hloss. cbn [rbind]. split; [|reflexivity].
  specialize (Havg [Fin q]).
  destruct (average_losses [Fin q]) as [|x l]; [discriminate|]. cbn [MegatronRetrievalIEEE.index0 rbind].
  unfold MegatronRetrievalModel.py_mod.
  destruct (Z.eqb_spec (MegatronRetrievalModel.accumulate_grad_batches self) 0);
    [contradiction|reflexivity].
Qed.
End RetrievalIEEEProperties.




(** ** Gradient synchronization and the broadcast of the loss *)

Lemma dreambooth_grad_sync_before self :
  List.filter is_grad_sync (dreambooth_events_before_broadcast self) =
    if MegatronDreamBooth.with_distributed_adam self then []
    else if MegatronDreamBooth.megatron_amp_O2 self then [allreduce_main_grads]
    else [allreduce_gradients].
Proof.
  unfold dreambooth_events_before_broadcast.
  destruct ((cfg_get _ 1 >? 1)%Z && cfg_get _ false);
    destruct (MegatronDreamBooth.with_distributed_adam self);
    destruct (MegatronDreamBooth.megatron_amp_O2 self); reflexivity.
Qed.

Lemma dreambooth_after_broadcast_quiet ccs self loss_mean :
  List.filter is_grad_sync (dreambooth_events_after_broadcast ccs self loss_mean) = [] /\
  List.filter is_broadcast (dreambooth_events_after_broadcast ccs self loss_mean) = [].
Proof.
  unfold dreambooth_events_after_broadcast.
  destruct (precision_is_16 _); [destruct (MegatronDreamBooth.scaler_scale _)|];
    split; reflexivity.
Qed.

Lemma dreambooth_no_broadcast_before self :
  List.filter is_broadcast (dreambooth_events_before_broadcast self) = [].
Proof.
  unfold dreambooth_events_before_broadcast.
  destruct ((cfg_get _ 1 >? 1)%Z && cfg_get _ false);
    destruct (MegatronDreamBooth.with_distributed_adam self);
    destruct (MegatronDreamBooth.megatron_amp_O2 self); reflexivity.
Qed.

Lemma retrieval_events_filters self (finish : bool) average_reduced_loss :
  let events :=
    ([average_losses_across_data_parallel_group]
     ++ retrieval_scale_events self
     ++ retrieval_sync_events self
     ++ (if finish then retrieval_log_events self average_reduced_loss else []))%list in
  List.filter is_grad_sync events =
    (if MegatronRetrievalModel.with_distributed_adam self then []
     else if MegatronRetrievalModel.megatron_amp_o2 self then
       if (cfg_get (MegatronRetrievalModel.cfg_pipeline_model_parallel_size
                      (MegatronRetrievalModel.cfg self)) 1 >? 1)%Z
       then [allreduce_main_grads] else []
     else []) /\
  List.filter is_broadcast events = [].
Proof.
  unfold retrieval_scale_events, retrieval_sync_events, retrieval_log_events.
  set (pp := cfg_get (MegatronRetrievalModel.cfg_pipeline_model_parallel_size
                        (MegatronRetrievalModel.cfg self)) 1%Z).
  destruct (precision_is_16 _); [destruct (MegatronRetrievalModel.scaler_scale self)| ];
    destruct (MegatronRetrievalModel.with_distributed_adam self);
    destruct (MegatronRetrievalModel.megatron_amp_o2 self);
    destruct (pp =? 1)%Z; destruct (pp >? 1)%Z; destruct finish;
    split; reflexivity.
Qed.

(** C4, as the code has it.  A DreamBooth training step makes the one
    explicit gradient reduction of its mode: none under the distributed
    optimizer, allreduce_main_grads once under the mixed-precision wrapper,
    allreduce_gradients once in the plain mode.  A retrieval training step
    makes none under the distributed optimizer, none in the plain mode, and
    under the mixed-precision wrapper allreduce_main_grads once exactly when
    the pipeline-parallel size exceeds 1. *)
Theorem gradient_synchronization_by_mode :
  (forall (compute_consumed_samples : Z -> Z) (get_last_rank rank : nat)
          (engine : nat -> result (list (gmap string Q)))
          (self : MegatronDreamBooth.t) (trace : list event) (m v : Q),
     MegatronDreamBooth.loss_mean_before_broadcast engine rank = Ok m ->
     MegatronDreamBooth.loss_mean_before_broadcast engine get_last_rank = Ok v ->
     exists loss_mean events,
       MegatronDreamBooth.training_step
         compute_consumed_samples get_last_rank rank engine self trace
         = (Ok loss_mean, (trace ++ events)%list) /\
       List.filter is_grad_sync events =
         if MegatronDreamBooth.with_distributed_adam self then []
         else if MegatronDreamBooth.megatron_amp_O2 self then [allreduce_main_grads]
         else [allreduce_gradients]) /\
  (forall (model_forward : MegatronRetrievalModel.batch -> option tensor -> tensor)
          (build_position_ids : tensor -> tensor) (average_losses : list Q -> list Q)
          (self : MegatronRetrievalModel.t) (b : MegatronRetrievalModel.batch)
          (batch_idx : Z) (st : MegatronRetrievalModel.step_state)
          (lm_loss reduced : Q) (r : Z),
     MegatronRetrievalModel.masked_lm_loss
       (MegatronRetrievalModel.per_token_loss model_forward build_position_ids self b)
       (MegatronRetrievalModel.loss_mask b) = Ok lm_loss ->
     MegatronRetrievalModel.index0 (average_losses [lm_loss]) = Ok reduced ->
     MegatronRetrievalModel.py_mod
       (batch_idx + 1) (MegatronRetrievalModel.accumulate_grad_batches self) = Ok r ->
     exists buffer events,
       MegatronRetrievalModel.training_step
         model_forward build_position_ids average_losses
         self b batch_idx st
         = (Ok lm_loss,
            MegatronRetrievalModel.mkStepState
              buffer (MegatronRetrievalModel.trace st ++ events)%list) /\
       List.filter is_grad_sync events =
         if MegatronRetrievalModel.with_distributed_adam self then []
         else if MegatronRetrievalModel.megatron_amp_o2 self then
           if (cfg_get (MegatronRetrievalModel.cfg_pipeline_model_parallel_size
                          (MegatronRetrievalModel.cfg self)) 1 >? 1)%Z
           then [allreduce_main_grads] else []
         else []).
Proof.
  split.
  - intros ccs get_last_rank rank engine self trace m v Hm Hv.
    eexists. eexists. split.
    + apply (training_step_run _ _ _ _ _ _ _ _ Hm Hv).
    + rewrite !List.filter_app, dreambooth_grad_sync_before.
      destruct (dreambooth_after_broadcast_quiet ccs self
                  (if (rank =? get_last_rank)%nat then m else v)) as [-> _].
      simpl. now rewrite app_nil_r.
  - intros model_forward build_position_ids average_losses self b batch_idx st
           lm_loss reduced r Hloss Hred Hmod.
    eexists. eexists. split.
    + apply (retrieval_training_step_run _ _ _ _ _ _ _ _ _ _ Hloss Hred Hmod).
    + apply (retrieval_events_filters self (r =? 0)%Z).
Qed.

(** C4 as stated fails on the retrieval model: in the plain mode its
    training step returns without any all-reduce of the gradients, and under
    the mixed-precision wrapper without pipeline parallelism it returns
    without calling allreduce_main_grads. *)
Lemma retrieval_plain_mode_makes_no_allreduce :
  let plain := sample_retrieval_training_step [[2; 5; 4]]%Q (sample_retrieval false false None) in
  let wrapper := sample_retrieval_training_step [[2; 5; 4]]%Q (sample_retrieval false true None) in
  is_ok (fst plain) = true /\
  ~ In allreduce_gradients (MegatronRetrievalModel.trace (snd plain)) /\
  List.filter is_grad_sync (MegatronRetrievalModel.trace (snd plain)) = [] /\
  is_ok (fst wrapper) = true /\
  ~ In allreduce_main_grads (MegatronRetrievalModel.trace (snd wrapper)).
Proof.
  vm_compute. repeat split; try reflexivity; intros H;
    repeat (destruct H as [H|H]; [discriminate|]); exact H.
Qed.

Lemma gradient_synchronization_by_mode_witness :
  (exists loss_mean events,
     sample_dreambooth_training_step 0 (sample_megatron_dreambooth false true)
       = (Ok loss_mean, events) /\
     List.filter is_grad_sync events = [allreduce_main_grads]) /\
  (exists buffer events,
     sample_retrieval_training_step [[2; 5; 4]]%Q (sample_retrieval false true (Some 2%Z))
       = (Ok (6 / 2)%Q, MegatronRetrievalModel.mkStepState buffer events) /\
     List.filter is_grad_sync events = [allreduce_main_grads]).
Proof.
  destruct gradient_synchronization_by_mode as [Hdreambooth Hretrieval].
  split.
  - apply (Hdreambooth (fun steps => steps) 1%nat 0%nat sample_engine
                       (sample_megatron_dreambooth false true) [] 0%Q (3 / 2)%Q);
      reflexivity.
  - apply (Hretrieval (fun _ _ => [[2; 5; 4]]%Q) (fun x => x) (fun l => l)
                      (sample_retrieval false true (Some 2%Z)) sample_batch 0%Z
                      sample_step_state (6 / 2)%Q (6 / 2)%Q 0%Z);
      reflexivity.
Defined.

(** C6: when the engine returns no loss record the aggregation is guarded
    and yields the zero loss, otherwise it yields the sum of the "loss"
    entries divided by their number; in both cases the training step returns
    a loss and does not raise. *)
Theorem training_step_guards_empty_losses
    (compute_consumed_samples : Z -> Z) (get_last_rank rank : nat)
    (engine : nat -> result (list (gmap string Q)))
    (self : MegatronDreamBooth.t) (trace : list event)
    (records : list (gmap string Q)) (losses : list Q) (v : Q) :
  engine rank = Ok records ->
  Forall2 (fun record loss => record !! "loss" = Some loss) records losses ->
  MegatronDreamBooth.loss_mean_before_broadcast engine get_last_rank = Ok v ->
  let loss_mean :=
    match records with
    | [] => 0%Q
    | _ => (Qsum losses / inject_Z (Z.of_nat (length records)))%Q
    end in
  MegatronDreamBooth.aggregate_losses [] = Ok 0%Q /\
  MegatronDreamBooth.aggregate_losses records = Ok loss_mean /\
  exists trace',
    MegatronDreamBooth.training_step
      compute_consumed_samples get_last_rank rank engine self trace
      = (Ok (if (rank =? get_last_rank)%nat then loss_mean else v), trace').
Proof.
  intros Hengine Hlosses Hv loss_mean.
  assert (Hagg : MegatronDreamBooth.aggregate_losses records = Ok loss_mean).
  { subst loss_mean. destruct records as [|record records'].
    - reflexivity.
    - rewrite (aggregate_losses_mean _ losses); [|discriminate|exact Hlosses].
      unfold mean. now rewrite <- (Forall2_length _ _ _ Hlosses). }
  split; [reflexivity|]. split; [exact Hagg|].
  eexists. apply training_step_run; [|exact Hv].
  unfold MegatronDreamBooth.loss_mean_before_broadcast. now rewrite Hengine.
Qed.

Lemma training_step_guards_empty_losses_witness :
  (exists trace', sample_dreambooth_training_step 1 (sample_megatron_dreambooth false false)
                  = (Ok (3 / 2)%Q, trace')) /\
  (exists trace', sample_dreambooth_training_step 0 (sample_megatron_dreambooth false false)
                  = (Ok (3 / 2)%Q, trace')) /\
  MegatronDreamBooth.aggregate_losses [] = Ok 0%Q.
Proof.
  destruct (training_step_guards_empty_losses
              (fun steps => steps) 1%nat 1%nat sample_engine
              (sample_megatron_dreambooth false false) []
              [ {["loss" := 1%Q]}; {["loss" := 2%Q]} ] [1; 2]%Q (3 / 2)%Q eq_refl)
    as (H0 & _ & trace1 & H1).
  { repeat constructor. }
  { reflexivity. }
  destruct (training_step_guards_empty_losses
              (fun steps => steps) 1%nat 0%nat sample_engine
              (sample_megatron_dreambooth false false) []
              [] [] (3 / 2)%Q eq_refl)
    as (_ & _ & trace0 & H2).
  { constructor. }
  { reflexivity. }
  split; [|split].
  - exists trace1. exact H1.
  - exists trace0. exact H2.
  - exact H0.
Defined.

(** C7, as the code has it.  A DreamBooth training step broadcasts its
    loss exactly once, from the rank get_last_rank() names, after the
    gradient reductions; every rank then returns and logs the value that
    rank held.  A retrieval training step makes no broadcast: it starts by
    averaging the loss over the data-parallel group. *)
Theorem loss_broadcast_after_reduction :
  (forall (compute_consumed_samples : Z -> Z) (get_last_rank rank : nat)
          (engine : nat -> result (list (gmap string Q)))
          (self : MegatronDreamBooth.t) (trace : list event) (m v : Q),
     MegatronDreamBooth.loss_mean_before_broadcast engine rank = Ok m ->
     MegatronDreamBooth.loss_mean_before_broadcast engine get_last_rank = Ok v ->
     exists before after,
       MegatronDreamBooth.training_step
         compute_consumed_samples get_last_rank rank engine self trace
         = (Ok v, (trace ++ before ++ [broadcast get_last_rank] ++ after)%list) /\
       List.filter is_grad_sync before =
         (if MegatronDreamBooth.with_distributed_adam self then []
          else if MegatronDreamBooth.megatron_amp_O2 self then [allreduce_main_grads]
          else [allreduce_gradients]) /\
       List.filter is_grad_sync after = [] /\
       List.filter is_broadcast before = [] /\
       List.filter is_broadcast after = [] /\
       In (log "reduced_train_loss" v) after) /\
  (forall (model_forward : MegatronRetrievalModel.batch -> option tensor -> tensor)
          (build_position_ids : tensor -> tensor) (average_losses : list Q -> list Q)
          (self : MegatronRetrievalModel.t) (b : MegatronRetrievalModel.batch)
          (batch_idx : Z) (st : MegatronRetrievalModel.step_state)
          (lm_loss reduced : Q) (r : Z),
     MegatronRetrievalModel.masked_lm_loss
       (MegatronRetrievalModel.per_token_loss model_forward build_position_ids self b)
       (MegatronRetrievalModel.loss_mask b) = Ok lm_loss ->
     MegatronRetrievalModel.index0 (average_losses [lm_loss]) = Ok reduced ->
     MegatronRetrievalModel.py_mod
       (batch_idx + 1) (MegatronRetrievalModel.accumulate_grad_batches self) = Ok r ->
     exists buffer events,
       MegatronRetrievalModel.training_step
         model_forward build_position_ids average_losses
         self b batch_idx st
         = (Ok lm_loss,
            MegatronRetrievalModel.mkStepState
              buffer
              (MegatronRetrievalModel.trace st
               ++ average_losses_across_data_parallel_group :: events)%list) /\
       List.filter is_broadcast events = [] /\
       (r = 0%Z ->
        In (log "reduced_train_loss"
                (mean (MegatronRetrievalModel._reduced_loss_buffer st ++ [reduced])%list))
           events)).
Proof.
  split.
  - intros ccs get_last_rank rank engine self trace m v Hm Hv.
    assert (Hfinal : (if (rank =? get_last_rank)%nat then m else v) = v).
    { destruct (Nat.eqb_spec rank get_last_rank) as [->|_]; congruence. }
    exists (dreambooth_events_before_broadcast self),
           (dreambooth_events_after_broadcast ccs self v).
    split; [|split; [|split; [|split; [|split]]]].
    + rewrite (training_step_run _ _ _ _ _ _ _ _ Hm Hv). now rewrite Hfinal.
    + apply dreambooth_grad_sync_before.
    + apply dreambooth_after_broadcast_quiet.
    + apply dreambooth_no_broadcast_before.
    + apply dreambooth_after_broadcast_quiet.
    + unfold dreambooth_events_after_broadcast. apply in_or_app. right. now left.
  - intros model_forward build_position_ids average_losses self b batch_idx st
           lm_loss reduced r Hloss Hred Hmod.
    eexists. eexists. split; [|split].
    + rewrite (retrieval_training_step_run _ _ _ _ _ _ _ _ _ _ Hloss Hred Hmod).
      reflexivity.
    + pose proof (retrieval_events_filters self (r =? 0)%Z
                    (mean (MegatronRetrievalModel._reduced_loss_buffer st ++ [reduced])))
        as [_ H].
      exact H.
    + intros ->. simpl Z.eqb. cbv iota.
      apply in_or_app. right. apply in_or_app. right.
      unfold retrieval_log_events. now left.
Qed.

Lemma loss_broadcast_after_reduction_witness :
  (exists before after,
     sample_dreambooth_training_step 0 (sample_megatron_dreambooth false false)
       = (Ok (3 / 2)%Q, (before ++ [broadcast 1] ++ after)%list) /\
     In (log "reduced_train_loss" (3 / 2)%Q) after) /\
  (exists buffer events,
     sample_retrieval_training_step [[2; 5; 4]]%Q (sample_retrieval false false None)
       = (Ok (6 / 2)%Q,
          MegatronRetrievalModel.mkStepState
            buffer (average_losses_across_data_parallel_group :: events)) /\
     List.filter is_broadcast events = []).
Proof.
  destruct loss_broadcast_after_reduction as [Hdreambooth Hretrieval].
  split.
  - destruct (Hdreambooth (fun steps => steps) 1%nat 0%nat sample_engine
                          (sample_megatron_dreambooth false false) [] 0%Q (3 / 2)%Q
                          eq_refl eq_refl)
      as (before & after & Hrun & _ & _ & _ & _ & Hlog).
    exists before, after. split; [exact Hrun | exact Hlog].
  - destruct (Hretrieval (fun _ _ => [[2; 5; 4]]%Q) (fun x => x) (fun l => l)
                         (sample_retrieval false false None) sample_batch 0%Z
                         sample_step_state (6 / 2)%Q (6 / 2)%Q 0%Z
                         eq_refl eq_refl eq_refl)
      as (buffer & events & Hrun & Hnb & _).
    exists buffer, events. split; [exact Hrun | exact Hnb].
Defined.

(** C7 as stated fails on the retrieval model: its training step returns
    without having broadcast anything. *)
Lemma retrieval_training_step_makes_no_broadcast :
  let step := sample_retrieval_training_step [[2; 5; 4]]%Q (sample_retrieval false false None) in
  is_ok (fst step) = true /\
  forall src, ~ In (broadcast src) (MegatronRetrievalModel.trace (snd step)).
Proof.
  vm_compute. split; [reflexivity|]. intros src H.
  repeat (destruct H as [H|H]; [discriminate|]). exact H.
Qed.

(** ** The correction of the schedulers after a skipped optimizer step *)

Lemma step_after_rewind (s : MegatronRetrievalModel.scheduler) :
  MegatronRetrievalModel.scheduler_step (MegatronRetrievalModel.rewind2 s) =
    MegatronRetrievalModel.mkScheduler
      (MegatronRetrievalModel.last_epoch s - 1)
      (MegatronRetrievalModel.get_lr s)
      (MegatronRetrievalModel.get_lr s (MegatronRetrievalModel.last_epoch s - 1)
                                     (MegatronRetrievalModel.current_lr s))
      (S (MegatronRetrievalModel._step_count s)).
Proof.
  unfold MegatronRetrievalModel.scheduler_step, MegatronRetrievalModel.rewind2. simpl.
  replace (MegatronRetrievalModel.last_epoch s - 2 + 1)%Z
    with (MegatronRetrievalModel.last_epoch s - 1)%Z by lia.
  reflexivity.
Qed.

(** Rewinding by two and stepping once takes the counter of a stepped
    scheduler back by one step; it takes the rate back as well when the
    scheduler is in closed form and had installed the rate of its counter. *)
Lemma correction_undoes_step (s : MegatronRetrievalModel.scheduler) :
  let s' := MegatronRetrievalModel.scheduler_step
              (MegatronRetrievalModel.rewind2 (MegatronRetrievalModel.scheduler_step s)) in
  MegatronRetrievalModel.last_epoch s' = MegatronRetrievalModel.last_epoch s /\
  (MegatronRetrievalModel.closed_form s ->
   MegatronRetrievalModel.current_lr s
     = MegatronRetrievalModel.get_lr s (MegatronRetrievalModel.last_epoch s)
                                     (MegatronRetrievalModel.current_lr s) ->
   MegatronRetrievalModel.current_lr s' = MegatronRetrievalModel.current_lr s).
Proof.
  rewrite step_after_rewind. simpl.
  replace (MegatronRetrievalModel.last_epoch s + 1 - 1)%Z
    with (MegatronRetrievalModel.last_epoch s) by lia.
  split; [reflexivity|].
  intros Hclosed Hlr. rewrite Hlr at 2. apply Hclosed.
Qed.

Lemma Forall2_map_self {A B : Type} (f : A -> B) (R : B -> A -> Prop) (l : list A) :
  Forall (fun a => R (f a) a) l -> Forall2 R (map f l) l.
Proof.
  induction 1; simpl; constructor; assumption.
Qed.

(** C5, as the code has it.  When the grad scaler of the mixed-precision
    plugin reports a skipped optimizer step, the trainer has schedulers and
    the module optimizes automatically, on_train_batch_end takes two off the
    step counter of every scheduler and steps each once: the counter of
    every scheduler is back at its value before the step it had made for
    the skipped optimizer step, and its rate is the one get_lr computes for
    that counter from the rate installed.  For a scheduler in closed form
    that had installed the rate of its counter, this is the rate it had
    before the skipped step; for a scheduler that computes the rate from
    the installed one it need not be.  The flag of the scaler is reset, so
    that a second call changes nothing. *)
Theorem scheduler_skip_correction
    (trainer : MegatronRetrievalModel.Trainer)
    (before : list MegatronRetrievalModel.scheduler) :
  MegatronRetrievalModel.precision_plugin trainer
    = MegatronRetrievalModel.NativeMixedPrecisionPlugin
        (MegatronRetrievalModel.GradScaler (Some true)) ->
  MegatronRetrievalModel.automatic_optimization trainer = true ->
  before <> [] ->
  MegatronRetrievalModel.lr_scheduler_configs trainer
    = map MegatronRetrievalModel.scheduler_step before ->
  let trainer' := MegatronRetrievalModel.on_train_batch_end trainer in
  MegatronRetrievalModel.lr_scheduler_configs trainer'
    = map (fun s => MegatronRetrievalModel.scheduler_step (MegatronRetrievalModel.rewind2 s))
          (MegatronRetrievalModel.lr_scheduler_configs trainer) /\
  Forall2 (fun s' s =>
             MegatronRetrievalModel.last_epoch s' = (MegatronRetrievalModel.last_epoch s - 1)%Z /\
             MegatronRetrievalModel._step_count s' = S (MegatronRetrievalModel._step_count s) /\
             MegatronRetrievalModel.current_lr s'
               = MegatronRetrievalModel.get_lr s (MegatronRetrievalModel.last_epoch s - 1)%Z
                                               (MegatronRetrievalModel.current_lr s))
          (MegatronRetrievalModel.lr_scheduler_configs trainer')
          (MegatronRetrievalModel.lr_scheduler_configs trainer) /\
  Forall2 (fun s' s =>
             MegatronRetrievalModel.last_epoch s' = MegatronRetrievalModel.last_epoch s /\
             (MegatronRetrievalModel.closed_form s ->
              MegatronRetrievalModel.current_lr s
                = MegatronRetrievalModel.get_lr s (MegatronRetrievalModel.last_epoch s)
                                                (MegatronRetrievalModel.current_lr s) ->
              MegatronRetrievalModel.current_lr s' = MegatronRetrievalModel.current_lr s))
          (MegatronRetrievalModel.lr_scheduler_configs trainer') before /\
  MegatronRetrievalModel.precision_plugin trainer'
    = MegatronRetrievalModel.NativeMixedPrecisionPlugin (MegatronRetrievalModel.GradScaler None) /\
  MegatronRetrievalModel.on_train_batch_end trainer' = trainer'.
Proof.
  intros Hplugin Hauto Hne Hscheds trainer'.
  assert (Hrun : trainer' =
    MegatronRetrievalModel.mkTrainer
      (MegatronRetrievalModel.NativeMixedPrecisionPlugin (MegatronRetrievalModel.GradScaler None))
      (map (fun s => MegatronRetrievalModel.scheduler_step (MegatronRetrievalModel.rewind2 s))
           (MegatronRetrievalModel.lr_scheduler_configs trainer))
      true).
  { subst trainer'. unfold MegatronRetrievalModel.on_train_batch_end.
    rewrite Hplugin, Hauto, Hscheds, length_map.
    destruct before; [congruence|]. reflexivity. }
  rewrite Hrun. cbn [MegatronRetrievalModel.lr_scheduler_configs
                     MegatronRetrievalModel.precision_plugin].
  split; [reflexivity|]. split; [|split; [|split; [reflexivity|reflexivity]]].
  - apply Forall2_map_self. apply Forall_forall. intros s _.
    rewrite step_after_rewind. simpl. repeat split; reflexivity.
  - rewrite Hscheds, map_map. apply Forall2_map_self.
    apply Forall_forall. intros s _. apply correction_undoes_step.
Qed.

Lemma scheduler_skip_correction_witness :
  let trainer' := MegatronRetrievalModel.on_train_batch_end (sample_skipped_trainer true) in
  Forall2 (fun s' s =>
             MegatronRetrievalModel.last_epoch s' = MegatronRetrievalModel.last_epoch s /\
             (MegatronRetrievalModel.closed_form s ->
              MegatronRetrievalModel.current_lr s
                = MegatronRetrievalModel.get_lr s (MegatronRetrievalModel.last_epoch s)
                                                (MegatronRetrievalModel.current_lr s) ->
              MegatronRetrievalModel.current_lr s' = MegatronRetrievalModel.current_lr s))
          (MegatronRetrievalModel.lr_scheduler_configs trainer') [sample_scheduler] /\
  MegatronRetrievalModel.on_train_batch_end trainer' = trainer'.
Proof.
  destruct (scheduler_skip_correction (sample_skipped_trainer true) [sample_scheduler])
    as (_ & _ & Hsame & _ & Honce).
  - reflexivity.
  - reflexivity.
  - discriminate.
  - reflexivity.
  - split; [exact Hsame | exact Honce].
Defined.

(** The sample scheduler is in closed form and holds the rate of its
    counter, so the correction gives it back the rate of step 5. *)
Lemma sample_scheduler_rate_restored :
  MegatronRetrievalModel.closed_form sample_scheduler /\
  map MegatronRetrievalModel.current_lr
      (MegatronRetrievalModel.lr_scheduler_configs
         (MegatronRetrievalModel.on_train_batch_end (sample_skipped_trainer true)))
    = [MegatronRetrievalModel.current_lr sample_scheduler].
Proof.
  split; [intros e lr lr'; reflexivity | reflexivity].
Qed.

(** C5 as stated fails: with manual optimization the reported skip leaves
    every scheduler as it was, one step ahead, and the flag stays set. *)
Lemma manual_optimization_skips_correction :
  let trainer := sample_skipped_trainer false in
  let trainer' := MegatronRetrievalModel.on_train_batch_end trainer in
  MegatronRetrievalModel.precision_plugin trainer
    = MegatronRetrievalModel.NativeMixedPrecisionPlugin
        (MegatronRetrievalModel.GradScaler (Some true)) /\
  map MegatronRetrievalModel.last_epoch (MegatronRetrievalModel.lr_scheduler_configs trainer')
    = [6%Z] /\
  map MegatronRetrievalModel._step_count (MegatronRetrievalModel.lr_scheduler_configs trainer')
    = map MegatronRetrievalModel._step_count (MegatronRetrievalModel.lr_scheduler_configs trainer) /\
  MegatronRetrievalModel.last_epoch sample_scheduler = 5%Z /\
  MegatronRetrievalModel.precision_plugin trainer'
    = MegatronRetrievalModel.NativeMixedPrecisionPlugin
        (MegatronRetrievalModel.GradScaler (Some true)).
Proof.
  repeat split; reflexivity.
Qed.

(** C5 as stated fails for a chainable scheduler as well, with every guard
    of the hook passed: ExponentialLR with gamma 1/2 holds the rate 1/32 at
    step 5; its step for the skipped optimizer step installs 1/64, and the
    correction brings the counter back to 5 but installs 1/128. *)
Lemma chainable_scheduler_rate_not_restored :
  let skipped :=
    MegatronRetrievalModel.mkTrainer
      (MegatronRetrievalModel.NativeMixedPrecisionPlugin
         (MegatronRetrievalModel.GradScaler (Some true)))
      [MegatronRetrievalModel.scheduler_step sample_ExponentialLR] true in
  let trainer' := MegatronRetrievalModel.on_train_batch_end skipped in
  MegatronRetrievalModel.current_lr sample_ExponentialLR = (1 # 32)%Q /\
  map MegatronRetrievalModel.current_lr (MegatronRetrievalModel.lr_scheduler_configs skipped)
    = [((1 # 32) * (1 # 2))%Q] /\
  map MegatronRetrievalModel.last_epoch (MegatronRetrievalModel.lr_scheduler_configs trainer')
    = [5%Z] /\
  map MegatronRetrievalModel.current_lr (MegatronRetrievalModel.lr_scheduler_configs trainer')
    = [((1 # 32) * (1 # 2) * (1 # 2))%Q] /\
  ~ ((1 # 32) * (1 # 2) * (1 # 2) == 1 # 32)%Q.
Proof.
  repeat split; try reflexivity. discriminate.
Qed.

(** ** The frozen VAE *)

Lemma new_parameters_spec (init : list Q) (h : heap) :
  exists h',
    new_parameters init h = (Ok (seq (next_id h) (length init)), h') /\
    next_id h' = (next_id h + length init)%nat /\
    (forall id, (id < next_id h)%nat -> objects h' !! id = objects h !! id) /\
    (forall id, (next_id h <= id < next_id h + length init)%nat -> is_Some (objects h' !! id)).
Proof.
  revert h. induction init as [|v init IH]; intros h.
  - exists h. simpl. split; [reflexivity|]. split; [lia|]. split; [reflexivity|].
    intros id Hid. lia.
  - simpl. unfold sbind, new_parameter at 1.
    set (h1 := mkHeap (<[next_id h := mkParam true v]> (objects h)) (S (next_id h))).
    destruct (IH h1) as (h' & Hrun & Hnext & Hframe & Halloc).
    rewrite Hrun. exists h'. simpl in *.
    split; [reflexivity|]. split; [lia|]. split.
    + intros id Hid. rewrite Hframe by lia. apply lookup_insert_ne. lia.
    + intros id Hid. destruct (decide (id = next_id h)) as [->|Hne].
      * rewrite Hframe by lia. rewrite lookup_insert_eq. eauto.
      * apply Halloc. lia.
Qed.

Lemma for_each_set_requires_grad (b : bool) (ids : list nat) (h : heap) :
  exists h',
    for_each ids (set_requires_grad b) h = (Ok tt, h') /\
    next_id h' = next_id h /\
    (forall id, id ∉ ids -> objects h' !! id = objects h !! id) /\
    (forall id, id ∈ ids -> is_Some (objects h !! id) ->
       exists p, objects h' !! id = Some p /\ requires_grad p = b).
Proof.
  revert h. induction ids as [|x ids IH]; intros h.
  - exists h. simpl. split; [reflexivity|]. split; [reflexivity|]. split; [reflexivity|].
    intros id Hid. inversion Hid.
  - simpl. unfold sbind, set_requires_grad at 1, modify.
    set (h1 := mkHeap (alter (fun p => mkParam b (data p)) x (objects h)) (next_id h)).
    destruct (IH h1) as (h' & Hrun & Hnext & Hframe & Hset).
    rewrite Hrun. exists h'. split; [reflexivity|]. split; [exact Hnext|]. split.
    + intros id Hid. apply not_elem_of_cons in Hid as [Hne Hid].
      rewrite (Hframe id Hid). simpl. now apply lookup_alter_ne.
    + intros id Hid [p Hp].
      destruct (decide (id ∈ ids)) as [Hin|Hnin].
      * apply (Hset id Hin). simpl. rewrite lookup_alter.
        destruct (decide (x = id)) as [->|_]; rewrite Hp; eauto.
      * apply elem_of_cons in Hid as [->|Hid]; [|contradiction].
        rewrite (Hframe x Hnin). simpl. rewrite lookup_alter_eq, Hp. simpl. eauto.
Qed.

Lemma optimizer_step_frame (update : nat -> Q -> Q) (param_list : list nat) (h : heap) (id : nat) :
  id ∉ param_list ->
  objects (optimizer_step update param_list h) !! id = objects h !! id.
Proof.
  unfold optimizer_step. simpl.
  induction param_list as [|x l IH]; intros Hid; simpl.
  - reflexivity.
  - apply not_elem_of_cons in Hid as [Hne Hid].
    rewrite lookup_alter_ne by congruence. now apply IH.
Qed.

Lemma instantiate_text_encoder_spec (train_text_encoder : bool) (cfg : list Q) (h : heap) :
  exists m h',
    DreamBooth.instantiate_text_encoder train_text_encoder cfg h = (Ok m, h') /\
    params m = seq (next_id h) (length cfg) /\
    next_id h' = (next_id h + length cfg)%nat.
Proof.
  unfold DreamBooth.instantiate_text_encoder, from_config_dict, sbind, sret.
  destruct (new_parameters_spec cfg h) as (h1 & -> & Hnext & _ & _).
  destruct train_text_encoder; cbv beta iota.
  - destruct (for_each_set_requires_grad true
                (params (call_train (mkModule (seq (next_id h) (length cfg)) true nn_Module_train) true))
                h1)
      as (h2 & -> & Hnext2 & _ & _).
    eexists. eexists. split; [reflexivity|]. split; [reflexivity|]. lia.
  - destruct (for_each_set_requires_grad false
                (params (set_train_attr (eval (mkModule (seq (next_id h) (length cfg)) true nn_Module_train))
                                        disabled_train_fn))
                h1)
      as (h2 & -> & Hnext2 & _ & _).
    eexists. eexists. split; [reflexivity|]. split; [reflexivity|]. lia.
Qed.

Lemma instantiate_vae_spec (cfg : list Q) (h : heap) :
  exists m h',
    DreamBooth.instantiate_vae cfg h = (Ok m, h') /\
    m = mkModule (seq (next_id h) (length cfg)) false disabled_train_fn /\
    next_id h' = (next_id h + length cfg)%nat /\
    (forall id, id ∈ params m ->
       exists p, objects h' !! id = Some p /\ requires_grad p = false).
Proof.
  unfold DreamBooth.instantiate_vae, from_config_dict, sbind, sret.
  destruct (new_parameters_spec cfg h) as (h1 & -> & Hnext & _ & Halloc).
  cbv beta iota.
  destruct (for_each_set_requires_grad false
              (params (set_train_attr (eval (mkModule (seq (next_id h) (length cfg)) true nn_Module_train))
                                      disabled_train_fn))
              h1)
    as (h2 & -> & Hnext2 & _ & Hset).
  eexists. eexists. split; [reflexivity|]. split; [reflexivity|]. split; [lia|].
  intros id Hid. apply (Hset id Hid). apply Halloc.
  simpl in Hid. now apply elem_of_seq in Hid.
Qed.

Lemma instantiate_unet_spec (cfg : list Q) (h : heap) :
  exists m h',
    DreamBooth.instantiate_unet cfg h = (Ok m, h') /\
    params m = seq (next_id h) (length cfg) /\
    (next_id h <= next_id h')%nat /\
    (forall id, (id < next_id h)%nat -> objects h' !! id = objects h !! id).
Proof.
  unfold DreamBooth.instantiate_unet, from_config_dict, sbind, sret.
  destruct (new_parameters_spec cfg h) as (h1 & -> & Hnext & Hframe & _).
  eexists. eexists. split; [reflexivity|]. split; [reflexivity|].
  split; [lia | exact Hframe].
Qed.

Lemma get_noise_scheduler_spec (cfg : list Q) (h : heap) :
  exists m h',
    DreamBooth.get_noise_scheduler cfg h = (Ok m, h') /\
    (forall id, (id < next_id h)%nat -> objects h' !! id = objects h !! id).
Proof.
  unfold DreamBooth.get_noise_scheduler, from_config_dict, sbind, sret.
  destruct (new_parameters_spec cfg h) as (h1 & -> & _ & Hframe & _).
  eexists. eexists. split; [reflexivity | exact Hframe].
Qed.

(** C10: after construction every VAE parameter has requires_grad set to
    False and the VAE's train attribute is the no-op disabled_train, so the
    VAE stays in evaluation mode; parameters() is the list of the UNet
    parameters, followed by the text-encoder parameters exactly when
    train_text_encoder is true, and holds no VAE parameter; an optimizer step
    over parameters() leaves every VAE parameter as it was. *)
Theorem vae_is_frozen (cfg : DreamBooth.config) (h : heap) :
  exists self h',
    DreamBooth.__init__ cfg h = (Ok self, h') /\
    length (params (DreamBooth.vae self)) = length (DreamBooth.cfg_first_stage_config cfg) /\
    (forall id, id ∈ params (DreamBooth.vae self) ->
       exists p, objects h' !! id = Some p /\ requires_grad p = false) /\
    train_attr (DreamBooth.vae self) = disabled_train_fn /\
    training (DreamBooth.vae self) = false /\
    (forall mode, call_train (DreamBooth.vae self) mode = DreamBooth.vae self) /\
    DreamBooth.train_text_encoder self = DreamBooth.cfg_train_text_encoder cfg /\
    DreamBooth.parameters self =
      (params (DreamBooth.unet self)
       ++ (if DreamBooth.cfg_train_text_encoder cfg
           then params (DreamBooth.text_encoder self) else []))%list /\
    (forall id, id ∈ params (DreamBooth.vae self) -> id ∉ DreamBooth.parameters self) /\
    (forall update id, id ∈ params (DreamBooth.vae self) ->
       objects (optimizer_step update (DreamBooth.parameters self) h') !! id = objects h' !! id).
Proof.
  unfold DreamBooth.__init__, sbind, sret.
  destruct (instantiate_text_encoder_spec
              (DreamBooth.cfg_train_text_encoder cfg) (DreamBooth.cfg_cond_stage_config cfg) h)
    as (te & h1 & -> & Hte & Hn1).
  destruct (instantiate_vae_spec (DreamBooth.cfg_first_stage_config cfg) h1)
    as (vae & h2 & -> & Hvae & Hn2 & Hfrozen).
  destruct (instantiate_unet_spec (DreamBooth.cfg_unet_config cfg) h2)
    as (unet & h3 & -> & Hunet & Hn3 & Hframe).
  destruct (get_noise_scheduler_spec (DreamBooth.cfg_noise_scheduler cfg) h3)
    as (ns & h4 & -> & Hframe4).
  eexists. eexists. split; [reflexivity|].
  cbn [DreamBooth.vae DreamBooth.unet DreamBooth.text_encoder DreamBooth.train_text_encoder].
  assert (Hdisjoint : forall id, id ∈ params vae ->
            id ∉ DreamBooth.parameters
                   (DreamBooth.mk (DreamBooth.cfg_with_prior_preservation cfg)
                      (DreamBooth.cfg_prior_loss_weight cfg)
                      (DreamBooth.cfg_train_text_encoder cfg) te vae unet ns
                      (DreamBooth.cfg_scale_factor cfg) (DreamBooth.cfg_timesteps cfg)
                      (DreamBooth.cfg_parameterization cfg))).
  { intros id Hid. unfold DreamBooth.parameters.
    cbn [DreamBooth.vae DreamBooth.unet DreamBooth.text_encoder DreamBooth.train_text_encoder].
    rewrite Hvae in Hid. simpl in Hid. apply elem_of_seq in Hid.
    rewrite Hunet, Hte.
    destruct (DreamBooth.cfg_train_text_encoder cfg);
      rewrite ?elem_of_app, !elem_of_seq; lia. }
  repeat split.
  - rewrite Hvae. simpl. apply length_seq.
  - intros id Hid. destruct (Hfrozen id Hid) as (p & Hp & Hg).
    exists p. split; [|exact Hg].
    rewrite Hvae in Hid. simpl in Hid. apply elem_of_seq in Hid.
    rewrite Hframe4 by lia. rewrite Hframe by lia. exact Hp.
  - now rewrite Hvae.
  - now rewrite Hvae.
  - intros mode. now rewrite Hvae.
  - unfold DreamBooth.parameters.
    cbn [DreamBooth.vae DreamBooth.unet DreamBooth.text_encoder DreamBooth.train_text_encoder].
    destruct (DreamBooth.cfg_train_text_encoder cfg); [reflexivity|]. now rewrite app_nil_r.
  - exact Hdisjoint.
  - intros update id Hid. apply optimizer_step_frame. now apply Hdisjoint.
Qed.

(** * Further properties *)

(** ** Python slices *)

Lemma py_slice_to_end {A : Type} (l : list A) (a : nat) :
  py_slice l (Z.of_nat a) None = skipn a l.
Proof.
  unfold py_slice, slice_bound.
  destruct (Z.ltb_spec (Z.of_nat a) 0); [lia|].
  destruct (Nat.le_gt_cases (length l) a) as [Hge|Hlt].
  - rewrite Z.min_r by lia. rewrite Nat2Z.id, Z.sub_diag. simpl.
    now rewrite (drop_ge l a) by lia.
  - rewrite Z.min_l by lia. rewrite Nat2Z.id.
    apply take_ge. rewrite length_drop. lia.
Qed.

Lemma py_slice_between {A : Type} (l : list A) (a b : nat) :
  (a <= b)%nat ->
  py_slice l (Z.of_nat a) (Some (Z.of_nat b)) = firstn (b - a) (skipn a l).
Proof.
  intros Hab. unfold py_slice, slice_bound.
  destruct (Z.ltb_spec (Z.of_nat a) 0); [lia|].
  destruct (Z.ltb_spec (Z.of_nat b) 0); [lia|].
  destruct (Nat.le_gt_cases (length l) a) as [Hge|Hlt].
  - rewrite !Z.min_r by lia. rewrite Nat2Z.id, Z.sub_diag. simpl.
    rewrite (drop_ge l a) by lia. now rewrite take_nil.
  - rewrite (Z.min_l (Z.of_nat a)) by lia. rewrite Nat2Z.id.
    destruct (Nat.le_gt_cases b (length l)) as [Hb|Hb].
    + rewrite Z.min_l by lia. f_equal. lia.
    + rewrite Z.min_r by lia.
      rewrite !take_ge; [reflexivity| |]; rewrite length_drop; lia.
Qed.

(** What a slice with a non-negative start holds at position [i]. *)
Lemma py_slice_lookup {A : Type} (l : list A) (a : Z) (stop : option Z) (i : nat) :
  (0 <= a)%Z -> (i < length (py_slice l a stop))%nat ->
  py_slice l a stop !! i = l !! (Z.to_nat a + i)%nat /\
  (Z.to_nat a + i < length l)%nat.
Proof.
  intros Ha. unfold py_slice, slice_bound.
  destruct (Z.ltb_spec a 0); [lia|].
  set (b := match stop with Some s => _ | None => _ end).
  rewrite length_take, length_drop. intros Hi.
  assert (Hmin : Z.min a (Z.of_nat (length l)) = a) by lia.
  rewrite Hmin in *. split; [|lia].
  rewrite lookup_take. destruct (decide (i < Z.to_nat (b - a))%nat); [|lia].
  apply lookup_drop.
Qed.

Lemma py_slice_length_le {A : Type} (l : list A) (a b : Z) :
  (0 <= a <= b)%Z -> (Z.of_nat (length (py_slice l a (Some b))) <= b - a)%Z.
Proof.
  intros Hab. unfold py_slice, slice_bound.
  destruct (Z.ltb_spec a 0); [lia|]. destruct (Z.ltb_spec b 0); [lia|].
  rewrite length_take, length_drop. lia.
Qed.

(** Cutting a list into [m] consecutive slices of [q] entries, the last one
    running to the end, loses and repeats nothing. *)
Lemma consecutive_slices_cover {A : Type} (l : list A) (m q : Z) :
  (0 < m)%Z -> (0 <= q)%Z ->
  concat (map (fun t => py_slice l (t * q)
                          (if negb (t =? m - 1)%Z then Some ((t + 1) * q)%Z else None))
              (range m)) = l.
Proof.
  intros Hm Hq. unfold range.
  assert (Hfirst : forall k, (k < Z.to_nat m)%nat ->
    concat (map (fun t => py_slice l (t * q)
                            (if negb (t =? m - 1)%Z then Some ((t + 1) * q)%Z else None))
                (map Z.of_nat (seq 0 k)))
    = firstn (k * Z.to_nat q) l).
  { induction k as [|k IH]; intros Hk.
    - reflexivity.
    - rewrite seq_S, !map_app, concat_app, IH by lia. simpl.
      destruct (Z.eqb_spec (Z.of_nat k) (m - 1)); [lia|]. simpl.
      replace (Z.of_nat k * q)%Z with (Z.of_nat (k * Z.to_nat q)) by lia.
      replace ((Z.of_nat k + 1) * q)%Z with (Z.of_nat (k * Z.to_nat q + Z.to_nat q)) by lia.
      rewrite py_slice_between by lia.
      rewrite app_nil_r.
      replace (k * Z.to_nat q + Z.to_nat q - k * Z.to_nat q)%nat with (Z.to_nat q) by lia.
      rewrite take_take_drop. f_equal. lia. }
  replace (Z.to_nat m) with (S (Z.to_nat m - 1)) by lia.
  rewrite seq_S, !map_app, concat_app, Hfirst by lia. simpl.
  destruct (Z.eqb_spec (Z.of_nat (Z.to_nat m - 1)) (m - 1)); [|lia]. simpl.
  replace (Z.of_nat (Z.to_nat m - 1) * q)%Z
    with (Z.of_nat ((Z.to_nat m - 1) * Z.to_nat q)) by lia.
  rewrite py_slice_to_end, app_nil_r. apply take_drop.
Qed.

(** ** generate_xl_fid_images.py: the shares of the workers *)

(** The share of the task [t] on the [j]-th node of the guidance scale
    [k], spelled out. *)
Lemma worker_at_eq (fid : GenerateFidImages.fid_config) (captions : list string)
    (k j t : Z) (scale : Q) :
  (0 <= j < GenerateFidImages.nnodes_per_cfg fid)%Z ->
  (GenerateFidImages.ntasks_per_node fid <> 0)%Z ->
  py_getitem (GenerateFidImages.classifier_free_guidance fid) k = Ok scale ->
  let n := GenerateFidImages.nnodes_per_cfg fid in
  let m := GenerateFidImages.ntasks_per_node fid in
  let p := (GenerateFidImages.num_images_to_eval fid / n)%Z in
  let node_captions :=
    py_slice captions (j * p) (if negb (j =? n - 1)%Z then Some ((j + 1) * p)%Z else None) in
  let pt := (Z.of_nat (length node_captions) / m)%Z in
  worker_at fid captions (k * n + j) t =
    Ok (GenerateFidImages.mkWorker
          (k * n + j) j scale p t pt
          (py_slice node_captions (t * pt)
                    (if negb (t =? m - 1)%Z then Some ((t + 1) * pt)%Z else None))).
Proof.
  intros Hj Hm Hscale n m p node_captions pt.
  unfold worker_at, GenerateFidImages.select_input, MegatronRetrievalModel.py_mod,
    py_floordiv, cfg_get.
  cbn [GenerateFidImages.nnodes_per_cfg GenerateFidImages.ntasks_per_node
       GenerateFidImages.local_task_id GenerateFidImages.num_images_to_eval
       GenerateFidImages.classifier_free_guidance
       GenerateFidImages.SLURM_ARRAY_TASK_ID GenerateFidImages.SLURM_LOCALID].
  fold n m.
  destruct (Z.eqb_spec n 0); [lia|]. cbn [rbind].
  replace ((k * n + j) mod n)%Z with j
    by (rewrite Z.add_comm, Z_mod_plus_full; symmetry; apply Z.mod_small; lia).
  replace ((k * n + j) / n)%Z with k
    by (rewrite Z.add_comm, Z_div_plus_full by lia; rewrite Z.div_small; lia).
  rewrite Hscale. cbn [rbind]. fold p. fold node_captions.
  destruct (Z.eqb_spec m 0); [lia|]. cbn [rbind]. fold pt. reflexivity.
Qed.

(** X1: the workers of one guidance scale share out the captions: node by
    node and task by task, their inputs put end to end are the caption list,
    every caption once and in order; each of these workers is set up with
    the guidance scale of its block. *)
Theorem fid_workers_cover_captions (fid : GenerateFidImages.fid_config)
    (captions : list string) (k : Z) (scale : Q) :
  (0 < GenerateFidImages.nnodes_per_cfg fid)%Z ->
  (0 < GenerateFidImages.ntasks_per_node fid)%Z ->
  (0 <= GenerateFidImages.num_images_to_eval fid)%Z ->
  py_getitem (GenerateFidImages.classifier_free_guidance fid) k = Ok scale ->
  let n := GenerateFidImages.nnodes_per_cfg fid in
  let m := GenerateFidImages.ntasks_per_node fid in
  (forall j t, (0 <= j < n)%Z ->
     exists w, worker_at fid captions (k * n + j) t = Ok w /\
               GenerateFidImages.current_node_cfg w = scale /\
               GenerateFidImages.node_id_per_cfg w = j /\
               GenerateFidImages.task_id w = t) /\
  concat (map (fun j => concat (map (fun t => input_at fid captions (k * n + j) t) (range m)))
              (range n)) = captions.
Proof.
  intros Hn Hm Hnum Hscale n m. subst n m.
  set (n := GenerateFidImages.nnodes_per_cfg fid) in *.
  set (m := GenerateFidImages.ntasks_per_node fid) in *.
  assert (Hm0 : (m <> 0)%Z) by lia.
  split.
  - intros j t Hj. eexists. split.
    + apply (worker_at_eq fid captions k j t scale Hj Hm0 Hscale).
    + repeat split.
  - set (p := (GenerateFidImages.num_images_to_eval fid / n)%Z).
    assert (Hp : (0 <= p)%Z) by (apply Z.div_pos; lia).
    etransitivity; [|exact (consecutive_slices_cover captions n p Hn Hp)].
    f_equal. apply map_ext_in. intros j Hj.
    assert (Hjr : (0 <= j < n)%Z).
    { unfold range in Hj. apply in_map_iff in Hj as (i & <- & Hi).
      apply in_seq in Hi. lia. }
    set (node_captions := py_slice captions (j * p)
           (if negb (j =? n - 1)%Z then Some ((j + 1) * p)%Z else None)).
    set (pt := (Z.of_nat (length node_captions) / m)%Z).
    assert (Hpt : (0 <= pt)%Z) by (apply Z.div_pos; lia).
    etransitivity; [|exact (consecutive_slices_cover node_captions m pt Hm Hpt)].
    f_equal. apply map_ext. intros t. unfold input_at.
    pose proof (worker_at_eq fid captions k j t scale Hjr Hm0 Hscale) as Hw.
    cbv zeta in Hw. fold n in Hw. now rewrite Hw.
Qed.

Lemma fid_workers_cover_captions_witness :
  let fid := GenerateFidImages.mkFid 2 2 None 5 [5; 7]%Q in
  let captions := ["a"; "b"; "c"; "d"; "e"] in
  concat (map (fun j => concat (map (fun t => input_at fid captions (1 * 2 + j) t) (range 2)))
              (range 2)) = captions /\
  map (fun j => map (fun t => input_at fid captions (1 * 2 + j) t) (range 2)) (range 2)
    = [[["a"]; ["b"]]; [["c"]; ["d"; "e"]]].
Proof.
  split.
  - apply (fid_workers_cover_captions
             (GenerateFidImages.mkFid 2 2 None 5 [5; 7]%Q)
             ["a"; "b"; "c"; "d"; "e"] 1%Z 7%Q); simpl; try lia. reflexivity.
  - reflexivity.
Defined.

(** X2: the number under which a worker saves the images of a prompt is
    the position of that prompt in the caption list. *)
Theorem fid_image_num_is_caption_index (fid : GenerateFidImages.fid_config)
    (env : GenerateFidImages.environ) (captions : list string)
    (w : GenerateFidImages.worker) (i : nat) :
  GenerateFidImages.select_input fid env captions = Ok w ->
  (0 < GenerateFidImages.nnodes_per_cfg fid)%Z ->
  (0 < GenerateFidImages.ntasks_per_node fid)%Z ->
  (0 <= GenerateFidImages.num_images_to_eval fid)%Z ->
  (0 <= GenerateFidImages.task_id w)%Z ->
  (i < length (GenerateFidImages.input w))%nat ->
  (0 <= GenerateFidImages.image_num w (Z.of_nat i))%Z /\
  captions !! Z.to_nat (GenerateFidImages.image_num w (Z.of_nat i))
    = GenerateFidImages.input w !! i.
Proof.
  unfold GenerateFidImages.select_input, MegatronRetrievalModel.py_mod, py_floordiv.
  intros Hsel Hn Hm Hnum.
  destruct (Z.eqb_spec (GenerateFidImages.nnodes_per_cfg fid) 0); [lia|].
  cbn [rbind] in Hsel.
  destruct (py_getitem _ _) as [scale|]; [|discriminate]. cbn [rbind] in Hsel.
  destruct (Z.eqb_spec (GenerateFidImages.ntasks_per_node fid) 0); [lia|].
  cbn [rbind] in Hsel. injection Hsel as <-.
  cbn [GenerateFidImages.task_id GenerateFidImages.input].
  unfold GenerateFidImages.image_num.
  cbn [GenerateFidImages.task_id GenerateFidImages.node_id_per_cfg
       GenerateFidImages.partition_size_per_node GenerateFidImages.partition_size_per_task].
  set (node_id := cfg_get (GenerateFidImages.SLURM_ARRAY_TASK_ID env) 0%Z).
  set (j := (node_id mod GenerateFidImages.nnodes_per_cfg fid)%Z).
  set (p := (GenerateFidImages.num_images_to_eval fid / GenerateFidImages.nnodes_per_cfg fid)%Z).
  set (node_captions := py_slice captions (j * p) _).
  set (t := match GenerateFidImages.local_task_id fid with Some t => t | None => _ end).
  set (pt := (Z.of_nat (length node_captions) / GenerateFidImages.ntasks_per_node fid)%Z).
  intros Ht Hi.
  assert (Hj : (0 <= j)%Z) by (apply Z.mod_pos_bound; lia).
  assert (Hp : (0 <= p)%Z) by (apply Z.div_pos; lia).
  assert (Hpt : (0 <= pt)%Z) by (apply Z.div_pos; lia).
  assert (Hstart : (0 <= t * pt)%Z) by lia.
  assert (Hnode : (0 <= j * p)%Z) by lia.
  destruct (py_slice_lookup node_captions (t * pt) _ i Hstart Hi) as [Hin Hlt].
  destruct (py_slice_lookup captions (j * p) _ (Z.to_nat (t * pt) + i) Hnode Hlt) as [Hout _].
  split; [lia|].
  rewrite Hin. fold node_captions in Hout. rewrite Hout. f_equal. lia.
Qed.

Lemma fid_image_num_is_caption_index_witness :
  exists w,
    worker_at (GenerateFidImages.mkFid 2 2 None 5 [5; 7]%Q) ["a"; "b"; "c"; "d"; "e"] 3 1 = Ok w /\
    GenerateFidImages.input w = ["d"; "e"] /\
    GenerateFidImages.image_num w 1 = 4%Z /\
    ["a"; "b"; "c"; "d"; "e"] !! 4%nat = GenerateFidImages.input w !! 1%nat.
Proof.
  eexists. split; [reflexivity|]. split; [reflexivity|]. split; [reflexivity|].
  apply (fid_image_num_is_caption_index
           (GenerateFidImages.mkFid 2 2 (Some 1%Z) 5 [5; 7]%Q)
           (GenerateFidImages.mkEnviron (Some 3%Z) None)
           ["a"; "b"; "c"; "d"; "e"] _ 1%nat eq_refl); simpl; lia.
Defined.

(** X3: two different workers of one guidance scale never save under the
    same number: the numbers of an earlier worker (earlier node, or earlier
    task of the same node) are all below those of a later one. *)
Theorem fid_workers_save_distinct_numbers (fid : GenerateFidImages.fid_config)
    (captions : list string) (k : Z) (j t j' t' : Z)
    (w w' : GenerateFidImages.worker) (i i' : nat) :
  (0 <= GenerateFidImages.num_images_to_eval fid)%Z ->
  (0 <= j < GenerateFidImages.nnodes_per_cfg fid)%Z ->
  (0 <= j' < GenerateFidImages.nnodes_per_cfg fid)%Z ->
  (0 <= t < GenerateFidImages.ntasks_per_node fid)%Z ->
  (0 <= t' < GenerateFidImages.ntasks_per_node fid)%Z ->
  worker_at fid captions (k * GenerateFidImages.nnodes_per_cfg fid + j) t = Ok w ->
  worker_at fid captions (k * GenerateFidImages.nnodes_per_cfg fid + j') t' = Ok w' ->
  (j < j' \/ (j = j' /\ t < t'))%Z ->
  (i < length (GenerateFidImages.input w))%nat ->
  (i' < length (GenerateFidImages.input w'))%nat ->
  (GenerateFidImages.image_num w (Z.of_nat i) < GenerateFidImages.image_num w' (Z.of_nat i'))%Z.
Proof.
  intros Hnum Hj Hj' Ht Ht' Hw Hw' Horder.
  assert (Hm0 : (GenerateFidImages.ntasks_per_node fid <> 0)%Z) by lia.
  assert (Hscale : exists scale,
            py_getitem (GenerateFidImages.classifier_free_guidance fid) k = Ok scale).
  { revert Hw. unfold worker_at, GenerateFidImages.select_input,
      MegatronRetrievalModel.py_mod, py_floordiv, cfg_get.
    cbn [GenerateFidImages.nnodes_per_cfg GenerateFidImages.classifier_free_guidance
         GenerateFidImages.SLURM_ARRAY_TASK_ID].
    destruct (Z.eqb_spec (GenerateFidImages.nnodes_per_cfg fid) 0); [lia|]. cbn [rbind].
    replace ((k * GenerateFidImages.nnodes_per_cfg fid + j)
             / GenerateFidImages.nnodes_per_cfg fid)%Z with k
      by (rewrite Z.add_comm, Z_div_plus_full by lia; rewrite Z.div_small; lia).
    destruct (py_getitem _ k) as [scale|]; [eauto|discriminate]. }
  destruct Hscale as [scale Hscale].
  pose proof (worker_at_eq fid captions k j t scale Hj Hm0 Hscale) as E.
  pose proof (worker_at_eq fid captions k j' t' scale Hj' Hm0 Hscale) as E'.
  cbv zeta in E, E'. rewrite E in Hw. rewrite E' in Hw'.
  injection Hw as <-. injection Hw' as <-.
  unfold GenerateFidImages.image_num.
  cbn [GenerateFidImages.input GenerateFidImages.task_id GenerateFidImages.node_id_per_cfg
       GenerateFidImages.partition_size_per_node GenerateFidImages.partition_size_per_task].
  set (n := GenerateFidImages.nnodes_per_cfg fid) in *.
  set (m := GenerateFidImages.ntasks_per_node fid) in *.
  set (p := (GenerateFidImages.num_images_to_eval fid / n)%Z).
  assert (Hp : (0 <= p)%Z) by (apply Z.div_pos; lia).
  set (nc := py_slice captions (j * p) _).
  set (nc' := py_slice captions (j' * p) _).
  set (pt := (Z.of_nat (length nc) / m)%Z).
  set (pt' := (Z.of_nat (length nc') / m)%Z).
  assert (Hpt : (0 <= pt)%Z) by (apply Z.div_pos; lia).
  assert (Hpt' : (0 <= pt')%Z) by (apply Z.div_pos; lia).
  intros Hi Hi'.
  assert (Hstart : (0 <= t * pt)%Z) by lia.
  destruct (py_slice_lookup nc (t * pt) _ i Hstart Hi) as [_ Hin].
  destruct Horder as [Hlt|[-> Hlt]].
  - assert (Hlen : (Z.of_nat (length nc) <= p)%Z).
    { subst nc. destruct (Z.eqb_spec j (n - 1)); [lia|]. simpl negb. cbv iota.
      etransitivity; [apply py_slice_length_le; nia|]. lia. }
    nia.
  - fold nc in nc'. subst nc'. fold pt in pt'. subst pt'.
    assert (Hlen : (Z.of_nat i < pt)%Z).
    { revert Hi. destruct (Z.eqb_spec t (m - 1)); [lia|]. simpl negb. cbv iota.
      intros Hi.
      pose proof (py_slice_length_le nc (t * pt) ((t + 1) * pt)) as Hle.
      assert ((0 <= t * pt <= (t + 1) * pt)%Z) by nia.
      specialize (Hle H). lia. }
    nia.
Qed.

Lemma fid_workers_save_distinct_numbers_witness :
  exists w w',
    worker_at (GenerateFidImages.mkFid 2 2 None 5 [5; 7]%Q) ["a"; "b"; "c"; "d"; "e"] 2 1 = Ok w /\
    worker_at (GenerateFidImages.mkFid 2 2 None 5 [5; 7]%Q) ["a"; "b"; "c"; "d"; "e"] 3 0 = Ok w' /\
    (GenerateFidImages.image_num w 0 < GenerateFidImages.image_num w' 0)%Z.
Proof.
  eexists. eexists. split; [reflexivity|]. split; [reflexivity|].
  apply (fid_workers_save_distinct_numbers
           (GenerateFidImages.mkFid 2 2 None 5 [5; 7]%Q)
           ["a"; "b"; "c"; "d"; "e"] 1%Z 0%Z 1%Z 1%Z 0%Z _ _ 0%nat 0%nat);
    simpl; try lia; reflexivity.
Defined.

(** ** _collate_fn and process_global_batch *)

Lemma rmap_inv {A B : Type} (f : A -> result B) (l : list A) (l' : list B) :
  rmap f l = Ok l' -> Forall2 (fun a b => f a = Ok b) l l'.
Proof.
  revert l'. induction l as [|a l IH]; simpl; intros l' H.
  - injection H as <-. constructor.
  - destruct (f a) as [b|] eqn:Ha; [|discriminate]. cbn [rbind] in H.
    destruct (rmap f l) as [bs|]; [|discriminate]. cbn [rbind] in H.
    injection H as <-. constructor; [exact Ha | now apply IH].
Qed.

Lemma rmap_length {A B : Type} (f : A -> result B) (l : list A) (l' : list B) :
  rmap f l = Ok l' -> length l' = length l.
Proof.
  intros H. apply rmap_inv in H. symmetry. eapply Forall2_length; eauto.
Qed.

(** A traversal whose steps can only fail with [e] fails with [e] as soon as
    one step fails. *)
Lemma rmap_raise {A B : Type} (f : A -> result B) (e : exn) (l : list A) :
  (forall a e', f a = Raise e' -> e' = e) ->
  Exists (fun a => f a = Raise e) l ->
  rmap f l = Raise e.
Proof.
  intros Honly. induction 1 as [a l Ha|a l _ IH]; simpl.
  - now rewrite Ha.
  - destruct (f a) as [b|e'] eqn:Hfa; cbn [rbind].
    + now rewrite IH.
    + now rewrite (Honly a e' Hfa).
Qed.

Lemma rmap_only {A B : Type} (f : A -> result B) (e : exn) (l : list A) (e' : exn) :
  (forall a e', f a = Raise e' -> e' = e) ->
  rmap f l = Raise e' -> e' = e.
Proof.
  intros Honly. induction l as [|a l IH]; simpl; [discriminate|].
  destruct (f a) as [b|e''] eqn:Hfa; cbn [rbind].
  - destruct (rmap f l) as [bs|e3]; cbn [rbind]; [discriminate|].
    intros H. injection H as <-. now apply IH.
  - intros H. injection H as <-. now apply (Honly a).
Qed.

Lemma getitem_only_KeyError {V : Type} (k : string) (d : gmap string V) (e : exn) :
  getitem d k = Raise e -> e = KeyError.
Proof.
  unfold getitem. destruct (d !! k); [discriminate|]. now intros [= <-].
Qed.

Lemma torch_stack_inv (tensors : list pyval) (t : tensor) :
  torch_stack tensors = Ok t ->
  tensors <> [] /\ length t = length tensors /\
  exists d, Forall (fun r => length r = d) t.
Proof.
  unfold torch_stack. destruct (rmap as_tensor tensors) as [rows|] eqn:Hrows; [|discriminate].
  cbn [rbind]. destruct rows as [|r rest]; [discriminate|].
  destruct (forallb (fun r' => (length r' =? length r)%nat) rest) eqn:Hall; [|discriminate].
  intros [= <-]. pose proof (rmap_length _ _ _ Hrows) as Hlen.
  split; [|split].
  - intros ->. discriminate.
  - exact Hlen.
  - exists (length r). constructor; [reflexivity|].
    apply Forall_forall. intros r' Hr'. rewrite forallb_forall in Hall.
    apply Nat.eqb_eq. apply Hall. now apply list_elem_of_In.
Qed.

(** X4: whenever the collate function returns, it was given at least one
    example, it returns one prompt entry per example (a pair with prior
    preservation, a single prompt without) and a stack of images of one
    shape that has twice as many entries as there are examples with prior
    preservation, and as many without. *)
Theorem collate_fn_returns_layout (examples : list (gmap string pyval))
    (with_prior_preservation : bool) (prompts : list (list pyval)) (images : tensor) :
  _collate_fn examples with_prior_preservation = Ok (prompts, images) ->
  let per_example := if with_prior_preservation then 2%nat else 1%nat in
  examples <> [] /\
  length prompts = length examples /\
  Forall (fun t => length t = per_example) prompts /\
  length images = (per_example * length examples)%nat /\
  exists d, Forall (fun r => length r = d) images.
Proof.
  unfold _collate_fn. intros H.
  destruct with_prior_preservation.
  - destruct (rmap _ examples) as [ps|] eqn:Hp in H; [|discriminate]. cbn [rbind] in H.
    destruct (rmap (fun example => getitem example "instance_images") examples)
      as [inst|] eqn:Hi; [|discriminate]. cbn [rbind] in H.
    destruct (rmap (fun example => getitem example "reg_images") examples)
      as [reg|] eqn:Hr; [|discriminate]. cbn [rbind] in H.
    destruct (torch_stack (inst ++ reg)) as [t|] eqn:Hs; [|discriminate]. cbn [rbind] in H.
    injection H as <- <-.
    apply torch_stack_inv in Hs as (Hne & Hlen & Hd).
    pose proof (rmap_length _ _ _ Hi) as Li. pose proof (rmap_length _ _ _ Hr) as Lr.
    rewrite length_app in Hlen.
    split; [|split; [|split; [|split]]].
    + intros ->. simpl in Li, Lr.
      destruct inst; [|discriminate]. destruct reg; [|discriminate]. now apply Hne.
    + eapply rmap_length; eauto.
    + apply rmap_inv in Hp. clear -Hp.
      induction Hp as [|e p es ps' He _ IH]; constructor; [|exact IH].
      destruct (getitem e "instance_prompt"); [|discriminate]. cbn [rbind] in He.
      destruct (getitem e "reg_prompt"); [|discriminate]. cbn [rbind] in He.
      now injection He as <-.
    + lia.
    + exact Hd.
  - destruct (rmap _ examples) as [ps|] eqn:Hp in H; [|discriminate]. cbn [rbind] in H.
    destruct (rmap (fun example => getitem example "instance_images") examples)
      as [inst|] eqn:Hi; [|discriminate]. cbn [rbind] in H.
    destruct (torch_stack inst) as [t|] eqn:Hs; [|discriminate]. cbn [rbind] in H.
    injection H as <- <-.
    apply torch_stack_inv in Hs as (Hne & Hlen & Hd).
    pose proof (rmap_length _ _ _ Hi) as Li.
    split; [|split; [|split; [|split]]].
    + intros ->. simpl in Li. destruct inst; [|discriminate]. now apply Hne.
    + eapply rmap_length; eauto.
    + apply rmap_inv in Hp. clear -Hp.
      induction Hp as [|e p es ps' He _ IH]; constructor; [|exact IH].
      destruct (getitem e "instance_prompt"); [|discriminate]. cbn [rbind] in He.
      now injection He as <-.
    + lia.
    + exact Hd.
Qed.

Lemma collate_fn_returns_layout_witness :
  exists prompts images,
    _collate_fn [sample_example "a dog" "dog" [1; 2]%Q [3; 4]%Q] true = Ok (prompts, images) /\
    length prompts = 1%nat /\ length images = 2%nat.
Proof.
  eexists. eexists. split; [reflexivity|].
  destruct (collate_fn_returns_layout
              [sample_example "a dog" "dog" [1; 2]%Q [3; 4]%Q] true _ _ eq_refl)
    as (_ & Hp & _ & Hi & _).
  split; [exact Hp | exact Hi].
Defined.

Lemma rmap_getitem_present {V : Type} (key : string) (examples : list (gmap string V))
    (l : list V) :
  rmap (fun example => getitem example key) examples = Ok l ->
  Forall (fun example : gmap string V => is_Some (example !! key)) examples.
Proof.
  intros H. apply rmap_inv in H.
  induction H as [|e v es vs He _ IH]; constructor; [|exact IH].
  unfold getitem in He. destruct (e !! key); [eauto|discriminate].
Qed.

Lemma rmap_getitem_cases {V : Type} (key : string) (examples : list (gmap string V)) :
  (exists l, rmap (fun example => getitem example key) examples = Ok l) \/
  rmap (fun example => getitem example key) examples = Raise KeyError.
Proof.
  destruct (rmap _ examples) as [l|e] eqn:E; [eauto|].
  right. f_equal. eapply rmap_only; [|exact E].
  intros a e'. apply getitem_only_KeyError.
Qed.

(** X5: the collate function raises RuntimeError on an empty list of
    examples, and KeyError as soon as one example lacks one of the keys it
    reads (the two regularization keys are read only with prior
    preservation). *)
Theorem collate_fn_errors (examples : list (gmap string pyval))
    (with_prior_preservation : bool) :
  _collate_fn [] with_prior_preservation = Raise RuntimeError /\
  (Exists (fun example =>
             Exists (fun key => example !! key = None)
                    (collate_keys with_prior_preservation)) examples ->
   _collate_fn examples with_prior_preservation = Raise KeyError).
Proof.
  split; [destruct with_prior_preservation; reflexivity|].
  intros Hmiss.
  apply Exists_exists in Hmiss as (example & Hin & Hkey).
  apply Exists_exists in Hkey as (key & Hkin & Hnone).
  assert (Habsent : forall l,
            rmap (fun e : gmap string pyval => getitem e key) examples <> Ok l).
  { intros l Hl. apply rmap_getitem_present in Hl.
    rewrite Forall_forall in Hl. destruct (Hl example Hin) as [v Hv]. congruence. }
  unfold _collate_fn.
  destruct with_prior_preservation; unfold collate_keys in Hkin.
  - set (pair_of := fun example : gmap string pyval =>
                      do p <- getitem example "instance_prompt";
                      do q <- getitem example "reg_prompt"; Ok [p; q]).
    destruct (rmap pair_of examples) as [ps|e] eqn:Hp; cbn [rbind].
    + destruct (rmap_getitem_cases "instance_images" examples) as [[inst Hi]|Hi];
        rewrite Hi; cbn [rbind]; [|reflexivity].
      destruct (rmap_getitem_cases "reg_images" examples) as [[reg Hr]|Hr];
        rewrite Hr; cbn [rbind]; [|reflexivity].
      exfalso. apply rmap_inv in Hp.
      assert (Hboth : is_Some (example !! "instance_prompt") /\
                      is_Some (example !! "reg_prompt")).
      { clear -Hp Hin. induction Hp as [|e p es ps' He _ IH]; [inversion Hin|].
        apply elem_of_cons in Hin as [->|Hin]; [|now apply IH].
        unfold pair_of, getitem in He.
        destruct (e !! "instance_prompt"); [|discriminate].
        destruct (e !! "reg_prompt"); [|discriminate]. eauto. }
      destruct Hboth as [[v1 H1] [v2 H2]].
      repeat (apply elem_of_cons in Hkin as [->|Hkin]); try congruence.
      all: try solve [eapply Habsent; eassumption | inversion Hkin].
    + f_equal. eapply rmap_only; [|exact Hp].
      intros a e'. unfold pair_of.
      destruct (getitem a "instance_prompt") eqn:E1; cbn [rbind].
      * destruct (getitem a "reg_prompt") eqn:E2; cbn [rbind]; [discriminate|].
        intros [= <-]. eapply getitem_only_KeyError; eauto.
      * intros [= <-]. eapply getitem_only_KeyError; eauto.
  - set (single_of := fun example : gmap string pyval =>
                        do p <- getitem example "instance_prompt"; Ok [p]).
    destruct (rmap single_of examples) as [ps|e] eqn:Hp; cbn [rbind].
    + destruct (rmap_getitem_cases "instance_images" examples) as [[inst Hi]|Hi];
        rewrite Hi; cbn [rbind]; [|reflexivity].
      exfalso. apply rmap_inv in Hp.
      assert (Hone : is_Some (example !! "instance_prompt")).
      { clear -Hp Hin. induction Hp as [|e p es ps' He _ IH]; [inversion Hin|].
        apply elem_of_cons in Hin as [->|Hin]; [|now apply IH].
        unfold single_of, getitem in He.
        destruct (e !! "instance_prompt"); [|discriminate]. eauto. }
      destruct Hone as [v1 H1].
      repeat (apply elem_of_cons in Hkin as [->|Hkin]); try congruence.
      all: try solve [eapply Habsent; eassumption | inversion Hkin].
    + f_equal. eapply rmap_only; [|exact Hp].
      intros a e'. unfold single_of.
      destruct (getitem a "instance_prompt") eqn:E1; cbn [rbind]; [discriminate|].
      intros [= <-]. eapply getitem_only_KeyError; eauto.
Qed.

Lemma collate_fn_errors_witness :
  _collate_fn [sample_example "a dog" "dog" [1; 2]%Q [3; 4]%Q;
               <["instance_prompt" := VStr "a dog"]> (<["instance_images" := VTensor [1; 2]%Q]> ∅)]
              true = Raise KeyError.
Proof.
  apply collate_fn_errors.
  apply Exists_cons_tl, Exists_cons_hd.
  apply Exists_cons_tl, Exists_cons_hd. reflexivity.
Defined.

Lemma py_getitem_nat {A : Type} (l : list A) (i : nat) :
  (i < length l)%nat -> exists x, py_getitem l (Z.of_nat i) = Ok x.
Proof.
  intros Hi. unfold py_getitem.
  destruct (Z.ltb_spec (Z.of_nat i) 0); [lia|].
  destruct (Z.ltb_spec (Z.of_nat i) 0); [lia|].
  rewrite Nat2Z.id.
  destruct (nth_error l i) as [x|] eqn:E; [eauto|].
  apply nth_error_None in E. lia.
Qed.

Lemma rmap_total {A B : Type} (f : A -> result B) (l : list A) :
  Forall (fun a => exists b, f a = Ok b) l ->
  exists l', rmap f l = Ok l' /\ length l' = length l.
Proof.
  induction 1 as [|a l [b Hb] _ (l' & IH & Hlen)]; simpl.
  - now exists [].
  - rewrite Hb, IH. cbn [rbind]. exists (b :: l'). simpl. now rewrite Hlen.
Qed.

Lemma torch_cat_same_width (x y : tensor) (bx by_ d : nat) :
  has_shape x bx d = true -> has_shape y by_ d = true ->
  torch_cat x y = Ok (x ++ y)%list.
Proof.
  intros Hx Hy. unfold torch_cat.
  pose proof (has_shape_rows _ _ _ Hx) as Rx. pose proof (has_shape_rows _ _ _ Hy) as Ry.
  assert (Rall : Forall (fun r => length r = d) (x ++ y)) by (apply Forall_app; now split).
  destruct (x ++ y)%list as [|r rest] eqn:E; [reflexivity|].
  inversion Rall as [|? ? Hr Hrest]; subst.
  replace (forallb _ rest) with true; [reflexivity|].
  symmetry. apply forallb_forall. intros r' Hr'. apply Nat.eqb_eq.
  rewrite Forall_forall in Hrest. apply Hrest. now apply list_elem_of_In.
Qed.

(** X6: a batch the collate function returned is always accepted by
    process_global_batch run under the same prior-preservation flag, over a
    text encoder that returns one row per prompt: the images go through
    unchanged and the conditioning has one row per image, the rows of the
    instance prompts first and those of the regularization prompts after. *)
Theorem collated_batch_is_processed
    (text_encoder_apply : list pyval -> tensor) (width : nat)
    (self : MegatronDreamBooth.t) (examples : list (gmap string pyval))
    (prompts : list (list pyval)) (images : tensor) :
  (forall l, has_shape (text_encoder_apply l) (length l) width = true) ->
  _collate_fn examples
    (DreamBooth.cfg_with_prior_preservation
       (MegatronDreamBooth.cfg_model (MegatronDreamBooth.cfg self)))
    = Ok (prompts, images) ->
  exists cond,
    MegatronDreamBoothSteps.process_global_batch text_encoder_apply self (prompts, images)
      = Ok (images, cond) /\
    length cond = length images /\
    firstn (length examples) cond
      = text_encoder_apply (map (fun t => nth 0 t (VStr "")) prompts).
Proof.
  intros Henc Hcollate.
  destruct (collate_fn_returns_layout _ _ _ _ Hcollate) as (_ & Hlen & Hwidth & Himages & _).
  unfold MegatronDreamBoothSteps.process_global_batch.
  assert (Hfirst : rmap (fun t : list pyval => py_getitem t 0) prompts
                   = Ok (map (fun t => nth 0 t (VStr "")) prompts)).
  { apply rmap_ok. eapply Forall_impl; [exact Hwidth|]. intros t Ht.
    destruct t as [|x t]; [destruct (DreamBooth.cfg_with_prior_preservation _); discriminate|].
    reflexivity. }
  rewrite Hfirst. cbn [rbind].
  set (first := map (fun t => nth 0 t (VStr "")) prompts).
  pose proof (Henc first) as Hc. pose proof (has_shape_length _ _ _ Hc) as Lc.
  assert (Lfirst : length first = length examples) by (unfold first; now rewrite length_map).
  destruct (DreamBooth.cfg_with_prior_preservation
              (MegatronDreamBooth.cfg_model (MegatronDreamBooth.cfg self))) eqn:Hwpp.
  - destruct (rmap_total (fun t : list pyval => py_getitem t 1) prompts) as (second & -> & Ls).
    { eapply Forall_impl; [exact Hwidth|]. intros t Ht.
      apply (py_getitem_nat t 1). simpl in Ht. lia. }
    cbn [rbind]. pose proof (Henc second) as Hp. pose proof (has_shape_length _ _ _ Hp) as Lp.
    rewrite (torch_cat_same_width _ _ _ _ _ Hc Hp). cbn [rbind].
    eexists. split; [reflexivity|]. split.
    + rewrite length_app. lia.
    + rewrite firstn_app. rewrite <- Lfirst, <- Lc, firstn_all, Nat.sub_diag.
      simpl. apply app_nil_r.
  - eexists. split; [reflexivity|]. split; [lia|].
    rewrite <- Lfirst, <- Lc. apply firstn_all.
Qed.

Lemma collated_batch_is_processed_witness :
  exists prompts cond,
    MegatronDreamBoothSteps.process_global_batch
      (map (fun _ => [0]%Q)) (sample_megatron_dreambooth false false)
      (prompts, [[1; 2]; [3; 4]]%Q)
    = Ok ([[1; 2]; [3; 4]]%Q, cond) /\
    length cond = 2%nat.
Proof.
  destruct (collated_batch_is_processed
              (map (fun _ => [0]%Q)) 1%nat (sample_megatron_dreambooth false false)
              [sample_example "a dog" "dog" [1; 2]%Q [3; 4]%Q]
              [[VStr "a dog"; VStr "dog"]] [[1; 2]; [3; 4]]%Q)
    as (cond & Hrun & Hlen & _).
  - intros l. unfold has_shape. rewrite length_map, Nat.eqb_refl. simpl.
    induction l; simpl; auto.
  - reflexivity.
  - exists [[VStr "a dog"; VStr "dog"]], cond. split; [exact Hrun | exact Hlen].
Defined.

(** ** The loss of the forward pass: sign and uneven batches *)

Lemma sq_diff_nonneg (p : Q * Q) : (0 <= sq_diff p)%Q.
Proof.
  unfold sq_diff. set (d := (fst p - snd p)%Q).
  unfold Qle, Qmult. simpl. rewrite Z.mul_1_r. apply Z.square_nonneg.
Qed.

Lemma Qsum_nonneg (l : list Q) : Forall (fun q => (0 <= q)%Q) l -> (0 <= Qsum l)%Q.
Proof.
  induction 1 as [|q l Hq _ IH]; simpl.
  - apply Qle_refl.
  - replace 0%Q with (0 + 0)%Q by reflexivity. now apply Qplus_le_compat.
Qed.

Lemma Qdiv_nat_nonneg (q : Q) (n : nat) :
  (0 <= q)%Q -> (0 <= q / inject_Z (Z.of_nat n))%Q.
Proof.
  intros Hq. unfold Qdiv. apply Qmult_le_0_compat; [exact Hq|].
  apply Qinv_le_0_compat. unfold Qle. simpl. lia.
Qed.

Lemma mse_mean_nonneg (x y : tensor) : (0 <= mse_mean x y)%Q.
Proof.
  unfold mse_mean. apply Qdiv_nat_nonneg. apply Qsum_nonneg.
  apply Forall_forall. intros q Hq. apply list_elem_of_In in Hq.
  apply in_map_iff in Hq as (p & <- & _). apply sq_diff_nonneg.
Qed.

Lemma mse_loss_nonneg (x y : tensor) (loss : Q) :
  mse_loss x y = Ok loss -> (0 <= loss)%Q.
Proof.
  unfold mse_loss. destruct (same_shape x y); [|discriminate].
  intros [= <-]. apply mse_mean_nonneg.
Qed.

Lemma mse_mean_same (x : tensor) : (mse_mean x x == 0)%Q.
Proof.
  unfold mse_mean.
  assert (H : (Qsum (map sq_diff (combine (concat x) (concat x))) == 0)%Q).
  { induction (concat x) as [|a l IH]; simpl.
    - reflexivity.
    - rewrite IH. unfold sq_diff. simpl. ring. }
  rewrite H. unfold Qdiv. ring.
Qed.

Lemma mse_loss_same (x : tensor) (loss : Q) :
  mse_loss x x = Ok loss -> (loss == 0)%Q.
Proof.
  unfold mse_loss. destruct (same_shape x x); [|discriminate].
  intros [= <-]. apply mse_mean_same.
Qed.

Section LossProperties.
Variable rng : Type.
Variable vae_encode : tensor -> rng -> tensor * rng.
Variable randn_like : tensor -> rng -> tensor * rng.
Variable randint : nat -> nat -> rng -> list nat * rng.
Variable noise_scheduler_apply : tensor -> list nat -> tensor -> tensor.
Variable unet_apply : tensor -> list nat -> tensor -> tensor.

Local Abbreviation forward_pass :=
  (DreamBooth.forward_pass rng vae_encode randn_like randint noise_scheduler_apply unet_apply).
Local Abbreviation forward :=
  (DreamBooth.forward rng vae_encode randn_like randint noise_scheduler_apply unet_apply).

Lemma forward_inv self batch g loss g' :
  forward self batch g = (Ok loss, g') ->
  exists model_output latents noise target,
    forward_pass self batch g = (model_output, latents, noise, g') /\
    DreamBooth.select_target self latents noise = Ok target /\
    DreamBooth.compute_loss self model_output target = Ok loss.
Proof.
  unfold DreamBooth.forward.
  destruct (forward_pass self batch g) as [[[model_output latents] noise] g1].
  destruct (DreamBooth.select_target self latents noise) as [target|] eqn:Ht;
    cbn [rbind]; [|discriminate].
  intros [= Hloss <-]. eauto 10.
Qed.

Lemma compute_loss_nonneg self model_output target loss :
  (0 <= DreamBooth.prior_loss_weight self)%Q ->
  DreamBooth.compute_loss self model_output target = Ok loss ->
  (0 <= loss)%Q.
Proof.
  intros Hw. unfold DreamBooth.compute_loss.
  destruct (DreamBooth.with_prior_preservation self).
  - destruct (torch_chunk 2 model_output) as [co|]; cbn [rbind]; [|discriminate].
    destruct (unpack2 co) as [[mp mpp]|]; cbn [rbind]; [|discriminate].
    destruct (torch_chunk 2 target) as [ct|]; cbn [rbind]; [|discriminate].
    destruct (unpack2 ct) as [[tg tgp]|]; cbn [rbind]; [|discriminate].
    destruct (mse_loss mp tg) as [l1|] eqn:E1; cbn [rbind]; [|discriminate].
    destruct (mse_loss mpp tgp) as [l2|] eqn:E2; cbn [rbind]; [|discriminate].
    intros [= <-].
    apply mse_loss_nonneg in E1, E2.
    replace 0%Q with (0 + 0)%Q by reflexivity.
    apply Qplus_le_compat; [exact E1|]. now apply Qmult_le_0_compat.
  - apply mse_loss_nonneg.
Qed.

(** X7: with a non-negative prior loss weight, a loss the forward pass
    returns for a non-empty model output is never negative. *)
Theorem forward_loss_nonneg self batch g loss g' model_output latents noise b d :
  (0 <= DreamBooth.prior_loss_weight self)%Q ->
  forward_pass self batch g = (model_output, latents, noise, g') ->
  has_shape model_output b d = true -> (0 < b)%nat -> (0 < d)%nat ->
  forward self batch g = (Ok loss, g') ->
  (0 <= loss)%Q.
Proof.
  intros Hw _ _ _ _ Hf. apply forward_inv in Hf as (mo & lat & noi & tgt & _ & _ & Hloss).
  now apply (compute_loss_nonneg self mo tgt).
Qed.

End LossProperties.

Lemma forward_loss_nonneg_witness :
  exists loss,
    sample_forward (sample_dreambooth true "eps") ([[1]; [3]], [])%Q 0%nat = (Ok loss, 2%nat) /\
    (0 <= loss)%Q.
Proof.
  eexists. split; [reflexivity|].
  apply (forward_loss_nonneg nat sample_vae_encode sample_randn_like sample_randint
           (fun x _ _ => x) (fun x _ _ => x)
           (sample_dreambooth true "eps") ([[1]; [3]], [])%Q 0%nat _ 2%nat
           [[1 * 1]; [1 * 3]]%Q [[1 * 1]; [1 * 3]]%Q [[0]; [0]]%Q 2%nat 1%nat);
    try reflexivity; try lia.
  discriminate.
Defined.


Lemma ceil_div_two_bounds (n : nat) :
  (2 * ceil_div n 2 <= n + 1 /\ n <= 2 * ceil_div n 2)%nat.
Proof.
  unfold ceil_div. replace (n + 2 - 1)%nat with (n + 1)%nat by lia.
  pose proof (Nat.div_mod_eq (n + 1) 2) as H.
  pose proof (Nat.mod_upper_bound (n + 1) 2 ltac:(lia)) as Hr. lia.
Qed.

(** A batch of at least two entries is chunked in two, the first chunk
    taking the larger half. *)
Lemma torch_chunk_two {A : Type} (l : list A) :
  (2 <= length l)%nat ->
  torch_chunk 2 l = Ok [firstn (ceil_div (length l) 2) l; skipn (ceil_div (length l) 2) l].
Proof.
  intros Hlen. unfold torch_chunk. simpl Nat.eqb at 1. cbv iota.
  pose proof (ceil_div_two_bounds (length l)) as [Hlo Hhi].
  set (k := ceil_div (length l) 2) in *.
  destruct (Nat.eqb_spec k 0) as [Hk|Hk]; [lia|]. simpl andb. cbv iota.
  unfold torch_split.
  assert (Hsplits : ceil_div (length l) k = 2%nat).
  { unfold ceil_div. symmetry.
    apply Nat.div_unique with (r := (length l - k - 1)%nat); lia. }
  rewrite Hsplits. simpl. rewrite Nat.add_0_r. f_equal. f_equal. f_equal.
  apply firstn_all2. rewrite length_skipn. lia.
Qed.

Lemma torch_chunk_single {A : Type} (l : list A) :
  length l = 1%nat -> torch_chunk 2 l = Ok [l].
Proof.
  destruct l as [|a [|b l]]; try discriminate. reflexivity.
Qed.

(** X9: with prior preservation the loss is not computed on a batch of a
    single entry, where the unpacking of the chunks raises ValueError; on a
    batch of N >= 2 entries the first chunk holds the ceil(N/2) first entries
    and the second the rest, so that an odd batch is split unevenly. *)
Theorem compute_loss_uneven_batch (self : DreamBooth.t) (model_output target : tensor)
    (N d : nat) :
  DreamBooth.with_prior_preservation self = true ->
  has_shape model_output N d = true ->
  has_shape target N d = true ->
  (0 < d)%nat ->
  let k := ceil_div N 2 in
  (N = 1%nat ->
   DreamBooth.compute_loss self model_output target = Raise ValueError) /\
  (2 <= N ->
   (N - k <= k <= N - k + 1)%nat /\
   DreamBooth.compute_loss self model_output target =
     Ok (mse_mean (firstn k model_output) (firstn k target)
         + mse_mean (skipn k model_output) (skipn k target)
           * DreamBooth.prior_loss_weight self)%Q).
Proof.
  intros Hpp Hout Htgt Hd k.
  pose proof (has_shape_length _ _ _ Hout) as Lout.
  pose proof (has_shape_length _ _ _ Htgt) as Ltgt.
  pose proof (has_shape_rows _ _ _ Hout) as Rout.
  pose proof (has_shape_rows _ _ _ Htgt) as Rtgt.
  unfold DreamBooth.compute_loss. rewrite Hpp. split.
  - intros ->. now rewrite (torch_chunk_single model_output Lout).
  - intros HN. pose proof (ceil_div_two_bounds N) as [Hlo Hhi]. fold k in Hlo, Hhi.
    split; [lia|].
    rewrite (torch_chunk_two model_output), (torch_chunk_two target) by lia.
    rewrite Lout, Ltgt. fold k. cbn [rbind unpack2]. unfold mse_loss.
    rewrite (same_shape_of_rows (firstn k model_output) (firstn k target) d);
      [ | rewrite !length_firstn; lia | now apply Forall_take | now apply Forall_take ].
    rewrite (same_shape_of_rows (skipn k model_output) (skipn k target) d);
      [ | rewrite !length_skipn; lia | now apply Forall_drop | now apply Forall_drop ].
    reflexivity.
Qed.

Lemma compute_loss_uneven_batch_witness :
  DreamBooth.compute_loss (sample_dreambooth true "eps") [[1]]%Q [[0]]%Q = Raise ValueError /\
  DreamBooth.compute_loss (sample_dreambooth true "eps") [[1]; [2]; [3]]%Q [[0]; [0]; [0]]%Q
    = Ok (mse_mean [[1]; [2]] [[0]; [0]] + mse_mean [[3]] [[0]] * (1 # 2))%Q.
Proof.
  split.
  - apply (compute_loss_uneven_batch (sample_dreambooth true "eps") [[1]]%Q [[0]]%Q 1 1);
      try reflexivity. lia.
  - apply (compute_loss_uneven_batch (sample_dreambooth true "eps")
             [[1]; [2]; [3]]%Q [[0]; [0]; [0]]%Q 3 1); try reflexivity; lia.
Defined.

(** ** MegatronRetrievalModel: range and errors of the masked loss *)

Lemma Qsum_zip_mul_bounds (l mask : list Q) (lo hi : Q) :
  length l = length mask ->
  Forall (fun m => (0 <= m)%Q) mask ->
  Forall (fun x => (lo <= x)%Q /\ (x <= hi)%Q) l ->
  (lo * Qsum mask <= Qsum (MegatronRetrievalModel.zip_mul l mask))%Q /\
  (Qsum (MegatronRetrievalModel.zip_mul l mask) <= hi * Qsum mask)%Q.
Proof.
  revert l. induction mask as [|y mask IH]; intros [|x l] Hlen Hm Hl;
    simpl in Hlen; try discriminate; simpl.
  - split; rewrite Qmult_0_r; apply Qle_refl.
  - inversion Hm as [|? ? Hy Hm']; subst. inversion Hl as [|? ? [Hlo Hhi] Hl']; subst.
    injection Hlen as Hlen.
    destruct (IH l Hlen Hm' Hl') as [IHlo IHhi].
    split; rewrite Qmult_plus_distr_r; apply Qplus_le_compat; try assumption;
      now apply Qmult_le_compat_r.
Qed.



Lemma Qsum_zip_mul_ones (l mask : list Q) :
  length l = length mask ->
  Forall (fun m => (m == 1)%Q) mask ->
  (Qsum (MegatronRetrievalModel.zip_mul l mask) == Qsum l)%Q /\
  (Qsum mask == inject_Z (Z.of_nat (length mask)))%Q.
Proof.
  revert l. induction mask as [|y mask IH]; intros [|x l] Hlen Hm;
    simpl in Hlen; try discriminate.
  - split; reflexivity.
  - inversion Hm as [|? ? Hy Hm']; subst. injection Hlen as Hlen.
    destruct (IH l Hlen Hm') as [IH1 IH2].
    cbn [MegatronRetrievalModel.zip_mul Qsum fold_right length]. fold (Qsum mask).
    fold (Qsum (MegatronRetrievalModel.zip_mul l mask)). fold (Qsum l).
    split.
    + rewrite IH1, Hy. ring.
    + rewrite IH2, Hy, Nat2Z.inj_succ. unfold Z.succ. rewrite inject_Z_plus. ring.
Qed.

(** X11: with a mask of ones, the masked loss is the plain mean of the
    per-token losses. *)
Theorem uniform_mask_gives_mean (loss mask : tensor) :
  numel loss = numel mask ->
  (0 < numel loss)%nat ->
  Forall (fun m => (m == 1)%Q) (concat mask) ->
  exists q,
    MegatronRetrievalModel.masked_lm_loss loss mask = Ok q /\
    (q == mean (concat loss))%Q.
Proof.
  intros Hn _ Hones.
  eexists. split; [now apply masked_lm_loss_eq|].
  destruct (Qsum_zip_mul_ones (concat loss) (concat mask) Hn Hones) as [H1 H2].
  unfold mean. rewrite H1, H2. unfold numel in Hn. rewrite Hn. reflexivity.
Qed.

Lemma uniform_mask_gives_mean_witness :
  exists q,
    MegatronRetrievalModel.masked_lm_loss [[2; 5]; [4; 1]]%Q [[1; 1]; [1; 1]]%Q = Ok q /\
    (q == mean [2; 5; 4; 1])%Q.
Proof.
  apply (uniform_mask_gives_mean [[2; 5]; [4; 1]]%Q [[1; 1]; [1; 1]]%Q).
  - reflexivity.
  - unfold numel. simpl. lia.
  - repeat constructor.
Defined.

Lemma torch_mul_mismatch (a b : list Q) :
  length a <> length b -> length a <> 1%nat -> length b <> 1%nat ->
  MegatronRetrievalModel.torch_mul a b = Raise RuntimeError.
Proof.
  intros Hab Ha Hb. unfold MegatronRetrievalModel.torch_mul.
  destruct (Nat.eqb_spec (length a) (length b)); [contradiction|].
  destruct a as [|x [|x' a]]; destruct b as [|y [|y' b]]; simpl in *;
    try reflexivity; congruence.
Qed.

Section RetrievalErrorProperties.
Variable model_forward : MegatronRetrievalModel.batch -> option tensor -> tensor.
Variable build_position_ids : tensor -> tensor.
Variable average_losses : list Q -> list Q.

Local Abbreviation per_token_loss :=
  (MegatronRetrievalModel.per_token_loss model_forward build_position_ids).
Local Abbreviation training_step :=
  (MegatronRetrievalModel.training_step model_forward build_position_ids average_losses).
Local Abbreviation validation_step :=
  (MegatronRetrievalModel.validation_step model_forward build_position_ids average_losses).
Local Abbreviation training_steps :=
  (MegatronRetrievalLoops.training_steps model_forward build_position_ids average_losses).

(** X12: when the per-token loss and the mask differ in their number of
    elements, neither having a single one, the training step and the
    validation step raise RuntimeError at the product, before anything is
    reduced, buffered or logged. *)
Theorem steps_reject_mismatched_mask self b batch_idx st :
  let loss := per_token_loss self b in
  let mask := MegatronRetrievalModel.loss_mask b in
  numel loss <> numel mask -> numel loss <> 1%nat -> numel mask <> 1%nat ->
  training_step self b batch_idx st = (Raise RuntimeError, st) /\
  validation_step self b batch_idx st = (Raise RuntimeError, st).
Proof.
  intros loss mask Hn H1 H2.
  assert (Hm : MegatronRetrievalModel.masked_lm_loss loss mask = Raise RuntimeError).
  { unfold MegatronRetrievalModel.masked_lm_loss.
    now rewrite (torch_mul_mismatch (concat loss) (concat mask)). }
  subst loss mask.
  unfold MegatronRetrievalModel.training_step, MegatronRetrievalModel.validation_step,
    sbind, lift.
  rewrite Hm. split; reflexivity.
Qed.

(** X13: with accumulate_grad_batches = 0 the training step raises
    ZeroDivisionError at the test of the accumulation window, after the loss
    was reduced and appended to the buffer and the gradient synchronization
    of the mode was made; nothing of the window is logged. *)
Theorem training_step_zero_accumulation self b batch_idx st lm_loss reduced :
  MegatronRetrievalModel.masked_lm_loss (per_token_loss self b)
                                        (MegatronRetrievalModel.loss_mask b) = Ok lm_loss ->
  MegatronRetrievalModel.index0 (average_losses [lm_loss]) = Ok reduced ->
  MegatronRetrievalModel.accumulate_grad_batches self = 0%Z ->
  training_step self b batch_idx st =
    (Raise ZeroDivisionError,
     MegatronRetrievalModel.mkStepState
       (MegatronRetrievalModel._reduced_loss_buffer st ++ [reduced])
       (MegatronRetrievalModel.trace st ++ retrieval_step_events self)).
Proof.
  intros Hloss Hred Hacc.
  unfold MegatronRetrievalModel.training_step, MegatronRetrievalModel.synchronize_gradients,
    retrieval_step_events, retrieval_scale_events, retrieval_sync_events,
    MegatronRetrievalModel.emit_, sbind, get, modify, lift, sret.
  rewrite Hloss. cbn [MegatronRetrievalModel.trace MegatronRetrievalModel._reduced_loss_buffer].
  rewrite Hred. cbn [MegatronRetrievalModel.trace MegatronRetrievalModel._reduced_loss_buffer].
  rewrite Hacc. unfold MegatronRetrievalModel.py_mod. simpl Z.eqb. cbv iota.
  set (pp := cfg_get (MegatronRetrievalModel.cfg_pipeline_model_parallel_size
                        (MegatronRetrievalModel.cfg self)) 1%Z).
  destruct (precision_is_16 (MegatronRetrievalModel.cfg_precision (MegatronRetrievalModel.cfg self)));
    destruct (MegatronRetrievalModel.scaler_scale self);
    destruct (MegatronRetrievalModel.with_distributed_adam self);
    destruct (MegatronRetrievalModel.megatron_amp_o2 self);
    destruct (pp =? 1)%Z;
    destruct (pp >? 1)%Z;
    cbn [MegatronRetrievalModel.trace MegatronRetrievalModel._reduced_loss_buffer app];
    rewrite <- ?app_assoc; reflexivity.
Qed.

(** The steps of the end of an accumulation window: at most
    accumulate_grad_batches batches, the last of which closes the window. *)
Lemma training_steps_window self batches : forall outcomes batch_idx st,
  (0 < MegatronRetrievalModel.accumulate_grad_batches self)%Z ->
  batches <> [] ->
  (Z.of_nat (length batches) <= MegatronRetrievalModel.accumulate_grad_batches self)%Z ->
  ((batch_idx + Z.of_nat (length batches))
     mod MegatronRetrievalModel.accumulate_grad_batches self = 0)%Z ->
  Forall2 (fun b o =>
             MegatronRetrievalModel.masked_lm_loss
               (per_token_loss self b) (MegatronRetrievalModel.loss_mask b) = Ok (fst o) /\
             MegatronRetrievalModel.index0 (average_losses [fst o]) = Ok (snd o))
          batches outcomes ->
  training_steps self batches batch_idx st =
    (Ok (map fst outcomes),
     MegatronRetrievalModel.mkStepState []
       (MegatronRetrievalModel.trace st
        ++ concat (repeat (retrieval_step_events self) (length batches))
        ++ retrieval_log_events self
             (mean (MegatronRetrievalModel._reduced_loss_buffer st ++ map snd outcomes)))%list).
Proof.
  set (k := MegatronRetrievalModel.accumulate_grad_batches self).
  induction batches as [|b rest IH]; intros outcomes batch_idx st Hk Hne Hlen Hmod Hall;
    [congruence|].
  inversion Hall as [|? o ? os [Hloss Hred] Hrest]; subst.
  cbn [MegatronRetrievalLoops.training_steps]. unfold sbind at 1.
  destruct rest as [|b2 rest'].
  - inversion Hrest; subst.
    assert (Hpm : MegatronRetrievalModel.py_mod (batch_idx + 1) k = Ok 0%Z).
    { unfold MegatronRetrievalModel.py_mod.
      destruct (Z.eqb_spec k 0); [lia|].
      change (Z.of_nat (length [b])) with 1%Z in Hmod. now rewrite Hmod. }
    rewrite (retrieval_training_step_run _ _ _ self b batch_idx st _ _ _ Hloss Hred Hpm).
    simpl Z.eqb. cbv iota. cbn [MegatronRetrievalLoops.training_steps].
    unfold sbind, sret. unfold retrieval_step_events. simpl.
    rewrite app_nil_r, <- !app_assoc. reflexivity.
  - set (r := ((batch_idx + 1) mod k)%Z).
    assert (Hpm : MegatronRetrievalModel.py_mod (batch_idx + 1) k = Ok r).
    { unfold MegatronRetrievalModel.py_mod. destruct (Z.eqb_spec k 0); [lia|reflexivity]. }
    assert (Hr : (r =? 0)%Z = false).
    { apply Z.eqb_neq. intros Hr0. subst r.
      set (n := Z.of_nat (length (b :: b2 :: rest'))) in *.
      assert (Hn : (2 <= n)%Z) by (subst n; simpl length; lia).
      pose proof (Z.div_mod (batch_idx + 1) k ltac:(lia)) as E1.
      pose proof (Z.div_mod (batch_idx + n) k ltac:(lia)) as E2.
      rewrite Hr0 in E1. rewrite Hmod in E2.
      set (q1 := ((batch_idx + 1) / k)%Z) in *. set (q2 := ((batch_idx + n) / k)%Z) in *.
      assert (E : (n - 1 = k * (q2 - q1))%Z) by lia.
      destruct (Z_le_gt_dec (q2 - q1) 0); nia. }
    rewrite (retrieval_training_step_run _ _ _ self b batch_idx st _ _ _ Hloss Hred Hpm).
    rewrite Hr.
    set (st1 := MegatronRetrievalModel.mkStepState _ _).
    unfold sbind at 1.
    rewrite (IH os (batch_idx + 1)%Z st1); try assumption.
    + unfold sret. subst st1.
      cbn [MegatronRetrievalModel.trace MegatronRetrievalModel._reduced_loss_buffer map].
      unfold retrieval_step_events.
      cbn [repeat concat length]. rewrite app_nil_r, <- !app_assoc.
      cbn [app]. reflexivity.
    + discriminate.
    + simpl length in *. lia.
    + replace (batch_idx + 1 + Z.of_nat (length (b2 :: rest')))%Z
        with (batch_idx + Z.of_nat (length (b :: b2 :: rest')))%Z; [exact Hmod|].
      simpl length. lia.
Qed.

End RetrievalErrorProperties.

Lemma steps_reject_mismatched_mask_witness :
  sample_retrieval_training_step [[2; 5]]%Q (sample_retrieval false false None)
    = (Raise RuntimeError, sample_step_state).
Proof.
  refine (proj1 (steps_reject_mismatched_mask
                   (fun _ _ => [[2; 5]]%Q) (fun x => x) (fun l => l)
                   (sample_retrieval false false None) sample_batch 0%Z sample_step_state
                   _ _ _));
    unfold numel; simpl; lia.
Defined.

Lemma training_step_zero_accumulation_witness :
  let self := MegatronRetrievalModel.mk
                (MegatronRetrievalModel.mkConfig (PInt 16) 4 None None)
                false true 0 0 0 0 1 (1 # 1000) None in
  let q := (Qsum [2 * 1; 5 * 0; 4 * 1] / Qsum [1; 0; 1])%Q in
  sample_retrieval_training_step [[2; 5; 4]]%Q self
    = (Raise ZeroDivisionError,
       MegatronRetrievalModel.mkStepState
         [q] [average_losses_across_data_parallel_group; cuda_synchronize]).
Proof.
  intros self q.
  apply (training_step_zero_accumulation
           (fun _ _ => [[2; 5; 4]]%Q) (fun x => x) (fun l => l)
           self sample_batch 0%Z sample_step_state q q); reflexivity.
Defined.


(** ** MegatronRetrievalModel: the ends of the epochs *)

Section EpochEndProperties.
Variable torch_exp : Q -> Q.

Lemma stack_mean_singletons (outputs : list (list Q)) :
  outputs <> [] ->
  Forall (fun o => length o = 1%nat) outputs ->
  MegatronRetrievalLoops.stack_mean outputs = Ok (mean (concat outputs)).
Proof.
  intros Hne Hall. unfold MegatronRetrievalLoops.stack_mean.
  destruct outputs as [|r rest]; [congruence|].
  inversion Hall as [|? ? Hr Hrest]; subst.
  assert (H : forallb (fun r' => (length r' =? length r)%nat) rest = true).
  { apply forallb_forall. intros r' Hin. rewrite Forall_forall in Hrest.
    apply list_elem_of_In in Hin. rewrite (Hrest r' Hin), Hr. reflexivity. }
  now rewrite H.
Qed.

(** X15: on an epoch without outputs validation_epoch_end returns without a
    value and logs nothing, while test_epoch_end, which has no such guard,
    raises the RuntimeError of torch.stack; on the outputs of at least one
    step, each a tensor of one reduced loss, both log and return the mean of
    the reduced losses, and log the perplexity computed from it. *)
Theorem epoch_end_averages_step_losses (outputs : list (list Q))
    (st : MegatronRetrievalModel.step_state) :
  (outputs = [] ->
   MegatronRetrievalLoops.validation_epoch_end torch_exp outputs st = (Ok None, st) /\
   MegatronRetrievalLoops.test_epoch_end torch_exp outputs st = (Raise RuntimeError, st)) /\
  (outputs <> [] ->
   Forall (fun o => length o = 1%nat) outputs ->
   let m := mean (concat outputs) in
   MegatronRetrievalLoops.validation_epoch_end torch_exp outputs st =
     (Ok (Some m),
      MegatronRetrievalModel.mkStepState
        (MegatronRetrievalModel._reduced_loss_buffer st)
        (MegatronRetrievalModel.trace st
         ++ [log "val_loss" m; log "perplexity" (torch_exp m)])) /\
   MegatronRetrievalLoops.test_epoch_end torch_exp outputs st =
     (Ok m,
      MegatronRetrievalModel.mkStepState
        (MegatronRetrievalModel._reduced_loss_buffer st)
        (MegatronRetrievalModel.trace st
         ++ [log "test_loss" m; log "perplexity" (torch_exp m)]))).
Proof.
  split.
  - intros ->. split; reflexivity.
  - intros Hne Hall m.
    pose proof (stack_mean_singletons outputs Hne Hall) as Hmean.
    unfold MegatronRetrievalLoops.validation_epoch_end,
      MegatronRetrievalLoops.test_epoch_end, MegatronRetrievalModel.emit_,
      sbind, modify, lift, sret.
    rewrite Hmean.
    destruct outputs as [|r rest]; [congruence|]. cbn [length Nat.eqb].
    cbn [MegatronRetrievalModel.trace MegatronRetrievalModel._reduced_loss_buffer].
    rewrite <- !app_assoc. split; reflexivity.
Qed.
End EpochEndProperties.

Lemma epoch_end_averages_step_losses_witness :
  MegatronRetrievalLoops.test_epoch_end (fun q => q) [] sample_step_state
    = (Raise RuntimeError, sample_step_state) /\
  MegatronRetrievalLoops.validation_epoch_end (fun q => q) [[1]; [3]]%Q sample_step_state
    = (Ok (Some (mean [1; 3]%Q)),
       MegatronRetrievalModel.mkStepState
         [] [log "val_loss" (mean [1; 3]%Q); log "perplexity" (mean [1; 3]%Q)]).
Proof.
  split.
  - apply (epoch_end_averages_step_losses (fun q => q) [] sample_step_state). reflexivity.
  - apply (epoch_end_averages_step_losses (fun q => q) [[1]; [3]]%Q sample_step_state).
    + discriminate.
    + repeat constructor.
Defined.

(** ** MegatronRetrievalModel: the hook at the end of a batch *)

(** X16: the hook at the end of a training batch leaves the trainer as it
    is unless the grad scaler of the mixed-precision plugin has reported a
    skipped step, the trainer has schedulers and the module optimizes
    automatically; on every trainer it keeps the number of schedulers and
    their rate functions, and calling it a second time changes nothing. *)
Theorem batch_end_hook_is_guarded (trainer : MegatronRetrievalModel.Trainer) :
  ((MegatronRetrievalModel.precision_plugin trainer
      <> MegatronRetrievalModel.NativeMixedPrecisionPlugin
           (MegatronRetrievalModel.GradScaler (Some true)) \/
    MegatronRetrievalModel.lr_scheduler_configs trainer = [] \/
    MegatronRetrievalModel.automatic_optimization trainer = false) ->
   MegatronRetrievalModel.on_train_batch_end trainer = trainer) /\
  map MegatronRetrievalModel.get_lr
      (MegatronRetrievalModel.lr_scheduler_configs
         (MegatronRetrievalModel.on_train_batch_end trainer))
    = map MegatronRetrievalModel.get_lr (MegatronRetrievalModel.lr_scheduler_configs trainer) /\
  MegatronRetrievalModel.automatic_optimization (MegatronRetrievalModel.on_train_batch_end trainer)
    = MegatronRetrievalModel.automatic_optimization trainer /\
  MegatronRetrievalModel.on_train_batch_end (MegatronRetrievalModel.on_train_batch_end trainer)
    = MegatronRetrievalModel.on_train_batch_end trainer.
Proof.
  destruct trainer as [plugin scheds auto].
  unfold MegatronRetrievalModel.on_train_batch_end.
  cbn [MegatronRetrievalModel.precision_plugin MegatronRetrievalModel.lr_scheduler_configs
       MegatronRetrievalModel.automatic_optimization].
  destruct plugin as [| |[| |[[|]|]]]; try (repeat split; reflexivity).
  destruct scheds as [|s scheds]; [repeat split; reflexivity|].
  destruct auto; [|repeat split; reflexivity].
  cbn [length Nat.eqb orb negb].
  cbn [MegatronRetrievalModel.precision_plugin MegatronRetrievalModel.lr_scheduler_configs
       MegatronRetrievalModel.automatic_optimization].
  split; [|split; [|split]].
  - intros [H|[H|H]]; [congruence|discriminate|discriminate].
  - rewrite map_map. reflexivity.
  - reflexivity.
  - reflexivity.
Qed.

Lemma batch_end_hook_is_guarded_witness :
  MegatronRetrievalModel.on_train_batch_end (sample_skipped_trainer false)
    = sample_skipped_trainer false.
Proof.
  refine (proj1 (batch_end_hook_is_guarded (sample_skipped_trainer false)) _).
  right. right. reflexivity.
Defined.

(** ** MegatronDreamBooth: a failing step *)

Lemma aggregate_losses_missing_key (records : list (gmap string Q)) :
  Exists (fun record => record !! "loss" = None) records ->
  MegatronDreamBooth.aggregate_losses records = Raise KeyError.
Proof.
  intros Hex. unfold MegatronDreamBooth.aggregate_losses.
  destruct records as [|r rs]; [inversion Hex|].
  rewrite (rmap_raise (fun loss_reduced => getitem loss_reduced "loss") KeyError (r :: rs)).
  - reflexivity.
  - intros a e' H. now apply getitem_only_KeyError in H.
  - eapply Exists_impl; [exact Hex|]. intros a Ha. unfold getitem. now rewrite Ha.
Qed.

(** X17: when the forward/backward engine raises on a rank, or hands back a
    record without the key "loss", the training step of that rank raises the
    same exception, or KeyError, right after the engine: it makes no
    gradient reduction, does not reach the broadcast and logs nothing. *)
Theorem training_step_aborts_before_reduction
    (compute_consumed_samples : Z -> Z) (get_last_rank rank : nat)
    (engine : nat -> result (list (gmap string Q)))
    (self : MegatronDreamBooth.t) (trace : list event) (e : exn) :
  (engine rank = Raise e \/
   exists records, engine rank = Ok records /\
                   Exists (fun record => record !! "loss" = None) records /\
                   e = KeyError) ->
  MegatronDreamBooth.training_step compute_consumed_samples get_last_rank rank engine self trace
    = (Raise e, (trace ++ [zero_grad; forward_backward_no_pipelining])%list).
Proof.
  intros [H|(records & H & Hex & ->)];
    unfold MegatronDreamBooth.training_step, sbind, emit, modify, lift; rewrite H.
  - now rewrite <- app_assoc.
  - rewrite (aggregate_losses_missing_key records Hex). now rewrite <- app_assoc.
Qed.

Lemma training_step_aborts_before_reduction_witness :
  MegatronDreamBooth.training_step
    (fun steps => steps) 1%nat 0%nat
    (fun _ => Ok [ {["loss" := 1%Q]}; {["lss" := 2%Q]} ])
    (sample_megatron_dreambooth false false) []
  = (Raise KeyError, [zero_grad; forward_backward_no_pipelining]).
Proof.
  apply (training_step_aborts_before_reduction
           (fun steps => steps) 1%nat 0%nat
           (fun _ => Ok [ {["loss" := 1%Q]}; {["lss" := 2%Q]} ])
           (sample_megatron_dreambooth false false) [] KeyError).
  right. eexists. split; [reflexivity|]. split; [|reflexivity].
  apply Exists_cons_tl. apply Exists_cons_hd. reflexivity.
Defined.

(** ** DreamBooth: the sub-models after construction *)

Lemma new_parameters_trainable (init : list Q) (h : heap) :
  exists h',
    new_parameters init h = (Ok (seq (next_id h) (length init)), h') /\
    next_id h' = (next_id h + length init)%nat /\
    (forall id, (id < next_id h)%nat -> objects h' !! id = objects h !! id) /\
    (forall id, (next_id h <= id < next_id h + length init)%nat ->
       exists p, objects h' !! id = Some p /\ requires_grad p = true).
Proof.
  revert h. induction init as [|v init IH]; intros h.
  - exists h. simpl. split; [reflexivity|]. split; [lia|]. split; [reflexivity|].
    intros id Hid. lia.
  - simpl. unfold sbind, new_parameter at 1.
    set (h1 := mkHeap (<[next_id h := mkParam true v]> (objects h)) (S (next_id h))).
    destruct (IH h1) as (h' & Hrun & Hnext & Hframe & Halloc).
    rewrite Hrun. exists h'. simpl in *.
    split; [reflexivity|]. split; [lia|]. split.
    + intros id Hid. rewrite Hframe by lia. apply lookup_insert_ne. lia.
    + intros id Hid. destruct (decide (id = next_id h)) as [->|Hne].
      * rewrite Hframe by lia. rewrite lookup_insert_eq. eauto.
      * apply Halloc. lia.
Qed.

(** A new sub-model whose parameters are then all given the flag [b]. *)
Lemma build_and_flag (b : bool) (cfg : list Q) (h : heap) :
  exists h1 h',
    new_parameters cfg h = (Ok (seq (next_id h) (length cfg)), h1) /\
    for_each (seq (next_id h) (length cfg)) (set_requires_grad b) h1 = (Ok tt, h') /\
    next_id h' = (next_id h + length cfg)%nat /\
    (forall id, (id < next_id h)%nat -> objects h' !! id = objects h !! id) /\
    (forall id, (next_id h <= id < next_id h + length cfg)%nat ->
       exists p, objects h' !! id = Some p /\ requires_grad p = b).
Proof.
  destruct (new_parameters_trainable cfg h) as (h1 & Hnew & Hnext & Hframe & Halloc).
  destruct (for_each_set_requires_grad b (seq (next_id h) (length cfg)) h1)
    as (h' & Hfor & Hnext' & Hframe' & Hset).
  exists h1, h'. split; [exact Hnew|]. split; [exact Hfor|]. split; [lia|]. split.
  - intros id Hid. rewrite Hframe' by (rewrite elem_of_seq; lia). now apply Hframe.
  - intros id Hid. apply Hset; [rewrite elem_of_seq; lia|].
    destruct (Halloc id Hid) as (p & -> & _). eauto.
Qed.

Ltac module_ops :=
  cbn [call_train eval set_train_attr Module_train disabled_train train_attr params training].

Lemma instantiate_text_encoder_layout (tte : bool) (cfg : list Q) (h : heap) :
  exists h',
    DreamBooth.instantiate_text_encoder tte cfg h =
      (Ok (mkModule (seq (next_id h) (length cfg)) tte
                    (if tte then nn_Module_train else disabled_train_fn)), h') /\
    next_id h' = (next_id h + length cfg)%nat /\
    (forall id, (id < next_id h)%nat -> objects h' !! id = objects h !! id) /\
    (forall id, (next_id h <= id < next_id h + length cfg)%nat ->
       exists p, objects h' !! id = Some p /\ requires_grad p = tte).
Proof.
  destruct (build_and_flag tte cfg h) as (h1 & h' & Hnew & Hfor & Hrest).
  exists h'. split; [|exact Hrest].
  unfold DreamBooth.instantiate_text_encoder, from_config_dict, sbind, sret.
  rewrite Hnew. destruct tte; module_ops; rewrite Hfor; reflexivity.
Qed.

Lemma instantiate_vae_layout (cfg : list Q) (h : heap) :
  exists h',
    DreamBooth.instantiate_vae cfg h =
      (Ok (mkModule (seq (next_id h) (length cfg)) false disabled_train_fn), h') /\
    next_id h' = (next_id h + length cfg)%nat /\
    (forall id, (id < next_id h)%nat -> objects h' !! id = objects h !! id) /\
    (forall id, (next_id h <= id < next_id h + length cfg)%nat ->
       exists p, objects h' !! id = Some p /\ requires_grad p = false).
Proof.
  destruct (build_and_flag false cfg h) as (h1 & h' & Hnew & Hfor & Hrest).
  exists h'. split; [|exact Hrest].
  unfold DreamBooth.instantiate_vae, from_config_dict, sbind, sret.
  rewrite Hnew. module_ops. rewrite Hfor. reflexivity.
Qed.

Lemma instantiate_unet_layout (cfg : list Q) (h : heap) :
  exists h',
    DreamBooth.instantiate_unet cfg h =
      (Ok (mkModule (seq (next_id h) (length cfg)) true nn_Module_train), h') /\
    next_id h' = (next_id h + length cfg)%nat /\
    (forall id, (id < next_id h)%nat -> objects h' !! id = objects h !! id) /\
    (forall id, (next_id h <= id < next_id h + length cfg)%nat ->
       exists p, objects h' !! id = Some p /\ requires_grad p = true).
Proof.
  destruct (new_parameters_trainable cfg h) as (h' & Hnew & Hrest).
  exists h'. split; [|exact Hrest].
  unfold DreamBooth.instantiate_unet, from_config_dict, sbind, sret.
  rewrite Hnew. reflexivity.
Qed.

Lemma get_noise_scheduler_layout (cfg : list Q) (h : heap) :
  exists h',
    DreamBooth.get_noise_scheduler cfg h =
      (Ok (mkModule (seq (next_id h) (length cfg)) false nn_Module_train), h') /\
    next_id h' = (next_id h + length cfg)%nat /\
    (forall id, (id < next_id h)%nat -> objects h' !! id = objects h !! id).
Proof.
  destruct (new_parameters_trainable cfg h) as (h' & Hnew & Hnext & Hframe & _).
  exists h'. split; [|split; assumption].
  unfold DreamBooth.get_noise_scheduler, from_config_dict, sbind, sret.
  rewrite Hnew. reflexivity.
Qed.

(** The sub-models right after construction: the ranges of parameter
    objects they hold, their modes, and the flags of their parameters. *)
Lemma dreambooth_init_layout (cfg : DreamBooth.config) (h : heap) :
  let n0 := next_id h in
  let a := length (DreamBooth.cfg_cond_stage_config cfg) in
  let b := length (DreamBooth.cfg_first_stage_config cfg) in
  let c := length (DreamBooth.cfg_unet_config cfg) in
  let d := length (DreamBooth.cfg_noise_scheduler cfg) in
  let tte := DreamBooth.cfg_train_text_encoder cfg in
  exists h',
    DreamBooth.__init__ cfg h =
      (Ok (DreamBooth.mk
             (DreamBooth.cfg_with_prior_preservation cfg) (DreamBooth.cfg_prior_loss_weight cfg) tte
             (mkModule (seq n0 a) tte (if tte then nn_Module_train else disabled_train_fn))
             (mkModule (seq (n0 + a) b) false disabled_train_fn)
             (mkModule (seq (n0 + a + b) c) true nn_Module_train)
             (mkModule (seq (n0 + a + b + c) d) false nn_Module_train)
             (DreamBooth.cfg_scale_factor cfg) (DreamBooth.cfg_timesteps cfg)
             (DreamBooth.cfg_parameterization cfg)),
       h') /\
    next_id h' = (n0 + a + b + c + d)%nat /\
    (forall id, (id < n0)%nat -> objects h' !! id = objects h !! id) /\
    (forall id, (n0 <= id < n0 + a)%nat ->
       exists p, objects h' !! id = Some p /\ requires_grad p = tte) /\
    (forall id, (n0 + a <= id < n0 + a + b)%nat ->
       exists p, objects h' !! id = Some p /\ requires_grad p = false) /\
    (forall id, (n0 + a + b <= id < n0 + a + b + c)%nat ->
       exists p, objects h' !! id = Some p /\ requires_grad p = true).
Proof.
  intros n0 a b c d tte.
  destruct (instantiate_text_encoder_layout tte (DreamBooth.cfg_cond_stage_config cfg) h)
    as (h1 & Hrun1 & Hn1 & Hf1 & Hs1).
  destruct (instantiate_vae_layout (DreamBooth.cfg_first_stage_config cfg) h1)
    as (h2 & Hrun2 & Hn2 & Hf2 & Hs2).
  destruct (instantiate_unet_layout (DreamBooth.cfg_unet_config cfg) h2)
    as (h3 & Hrun3 & Hn3 & Hf3 & Hs3).
  destruct (get_noise_scheduler_layout (DreamBooth.cfg_noise_scheduler cfg) h3)
    as (h4 & Hrun4 & Hn4 & Hf4).
  fold a in Hn1, Hs1, Hrun1. fold b in Hn2, Hs2, Hrun2.
  fold c in Hn3, Hs3, Hrun3. fold d in Hn4, Hrun4. fold n0 in Hn1, Hs1, Hf1, Hrun1.
  rewrite Hn1 in Hn2, Hs2, Hf2, Hrun2.
  rewrite Hn2 in Hn3, Hs3, Hf3, Hrun3.
  rewrite Hn3 in Hn4, Hf4, Hrun4.
  exists h4.
  split; [|split; [exact Hn4|split; [|split; [|split]]]].
  - unfold DreamBooth.__init__, sbind, sret. fold tte.
    rewrite Hrun1, Hrun2, Hrun3, Hrun4. reflexivity.
  - intros id Hid. rewrite Hf4, Hf3, Hf2, Hf1 by lia. reflexivity.
  - intros id Hid. rewrite Hf4, Hf3, Hf2 by lia. now apply Hs1.
  - intros id Hid. rewrite Hf4, Hf3 by lia. now apply Hs2.
  - intros id Hid. rewrite Hf4 by lia. now apply Hs3.
Qed.

(** X18: the text encoder follows the train_text_encoder flag.  After
    construction its mode and the requires_grad of each of its parameters
    equal the flag; when the flag is off, train() is the no-op
    disabled_train, none of its parameters is handed to the optimizer and an
    optimizer step leaves them as they were; when the flag is on, train()
    sets the mode and all its parameters are handed to the optimizer. *)
Theorem text_encoder_follows_training_flag (cfg : DreamBooth.config) (h : heap) :
  exists self h',
    DreamBooth.__init__ cfg h = (Ok self, h') /\
    training (DreamBooth.text_encoder self) = DreamBooth.cfg_train_text_encoder cfg /\
    (forall id, id ∈ params (DreamBooth.text_encoder self) ->
       exists p, objects h' !! id = Some p /\
                 requires_grad p = DreamBooth.cfg_train_text_encoder cfg) /\
    (DreamBooth.cfg_train_text_encoder cfg = false ->
       (forall mode, call_train (DreamBooth.text_encoder self) mode
                     = DreamBooth.text_encoder self) /\
       (forall id, id ∈ params (DreamBooth.text_encoder self) ->
          id ∉ DreamBooth.parameters self) /\
       (forall update id, id ∈ params (DreamBooth.text_encoder self) ->
          objects (optimizer_step update (DreamBooth.parameters self) h') !! id
          = objects h' !! id)) /\
    (DreamBooth.cfg_train_text_encoder cfg = true ->
       (forall mode, training (call_train (DreamBooth.text_encoder self) mode) = mode) /\
       (forall id, id ∈ params (DreamBooth.text_encoder self) ->
          id ∈ DreamBooth.parameters self)).
Proof.
  destruct (dreambooth_init_layout cfg h) as (h' & Hrun & Hnext & Hframe & Hte & Hvae & Hunet).
  cbv zeta in Hrun, Hte.
  eexists. exists h'. split; [exact Hrun|].
  unfold DreamBooth.parameters.
  cbn [DreamBooth.text_encoder DreamBooth.unet DreamBooth.train_text_encoder params training].
  split; [reflexivity|]. split; [|split].
  - intros id Hid. apply elem_of_seq in Hid. apply Hte. lia.
  - intros Hoff. rewrite Hoff.
    assert (Hout : forall id,
               id ∈ seq (next_id h) (length (DreamBooth.cfg_cond_stage_config cfg)) ->
               id ∉ seq (next_id h + length (DreamBooth.cfg_cond_stage_config cfg)
                         + length (DreamBooth.cfg_first_stage_config cfg))
                        (length (DreamBooth.cfg_unet_config cfg))).
    { intros id Hid. rewrite elem_of_seq in *. lia. }
    split; [reflexivity|]. split; [exact Hout|].
    intros update id Hid. apply optimizer_step_frame. now apply Hout.
  - intros Hon. rewrite Hon. split; [reflexivity|].
    intros id Hid. apply elem_of_app. now right.
Qed.

(** X19: the parameters handed to the optimizer after construction are
    pairwise distinct objects, all created by the construction and all with
    requires_grad set; they are the UNet parameters and, with
    train_text_encoder, those of the text encoder.  The construction leaves
    every object that existed before as it was, and an optimizer step over
    these parameters never writes a parameter whose requires_grad is off. *)
Theorem optimizer_parameters_are_trainable (cfg : DreamBooth.config) (h : heap) :
  exists self h',
    DreamBooth.__init__ cfg h = (Ok self, h') /\
    NoDup (DreamBooth.parameters self) /\
    length (DreamBooth.parameters self) =
      (length (DreamBooth.cfg_unet_config cfg)
       + (if DreamBooth.cfg_train_text_encoder cfg
          then length (DreamBooth.cfg_cond_stage_config cfg) else 0))%nat /\
    (forall id, id ∈ DreamBooth.parameters self ->
       (next_id h <= id < next_id h')%nat /\
       exists p, objects h' !! id = Some p /\ requires_grad p = true) /\
    training (DreamBooth.unet self) = true /\
    (forall id, (id < next_id h)%nat -> objects h' !! id = objects h !! id) /\
    (forall update id p,
       objects h' !! id = Some p -> requires_grad p = false ->
       objects (optimizer_step update (DreamBooth.parameters self) h') !! id = Some p).
Proof.
  destruct (dreambooth_init_layout cfg h) as (h' & Hrun & Hnext & Hframe & Hte & Hvae & Hunet).
  cbv zeta in Hrun, Hnext, Hframe, Hte, Hvae, Hunet.
  eexists. exists h'. split; [exact Hrun|].
  unfold DreamBooth.parameters.
  cbn [DreamBooth.text_encoder DreamBooth.unet DreamBooth.train_text_encoder params training].
  set (n0 := next_id h) in *.
  set (a := length (DreamBooth.cfg_cond_stage_config cfg)) in *.
  set (b := length (DreamBooth.cfg_first_stage_config cfg)) in *.
  set (c := length (DreamBooth.cfg_unet_config cfg)) in *.
  set (d := length (DreamBooth.cfg_noise_scheduler cfg)) in *.
  assert (Hmem : forall id,
            id ∈ (if DreamBooth.cfg_train_text_encoder cfg
                  then (seq (n0 + a + b) c ++ seq n0 a)%list else seq (n0 + a + b) c) ->
            (n0 <= id < next_id h')%nat /\
            exists p, objects h' !! id = Some p /\ requires_grad p = true).
  { intros id Hid. destruct (DreamBooth.cfg_train_text_encoder cfg) eqn:Htte.
    - apply elem_of_app in Hid as [Hid|Hid]; apply elem_of_seq in Hid.
      + split; [lia|]. apply Hunet. lia.
      + split; [lia|]. apply Hte. lia.
    - apply elem_of_seq in Hid. split; [lia|]. apply Hunet. lia. }
  split; [|split; [|split; [exact Hmem|split; [reflexivity|split; [exact Hframe|]]]]].
  - destruct (DreamBooth.cfg_train_text_encoder cfg).
    + apply NoDup_app. split; [apply NoDup_seq|]. split; [|apply NoDup_seq].
      intros id Hid. rewrite elem_of_seq in *. lia.
    + apply NoDup_seq.
  - destruct (DreamBooth.cfg_train_text_encoder cfg).
    + now rewrite length_app, !length_seq.
    + rewrite length_seq. lia.
  - intros update id p Hp Hoff. rewrite optimizer_step_frame; [exact Hp|].
    intros Hin. destruct (Hmem id Hin) as (_ & p' & Hp' & Hon). congruence.
Qed.

(** ** MegatronDreamBooth: the order of the checks of the constructor *)

Section InitOutcome.
Variable base_init : MegatronDreamBooth.config -> MegatronDreamBooth.Trainer -> result unit.
Variable int_of_str : string -> result Z.
Variable base_with_distributed_adam : bool.
Variable base_lr : Q.
Variable setup_init_global_step : Z.

Local Abbreviation init :=
  (MegatronDreamBooth.__init__ true base_init int_of_str base_with_distributed_adam
                               base_lr setup_init_global_step).

(** X20: once the base class and the trainer validation have accepted the
    trainer, the constructor builds the model before it looks at the
    precision: with a precision other than 32, 16 or "bf16" it raises only
    after the parameters of the four sub-models have been created; with a
    valid precision it returns the model built, with the autocast type of
    the precision. *)
Theorem init_checks_precision_after_model cfg trainer h :
  base_init cfg trainer = Ok tt ->
  (MegatronDreamBooth.accumulate_grad_batches trainer <= 1)%Z ->
  exists model h',
    DreamBooth.__init__ (MegatronDreamBooth.cfg_model cfg) h = (Ok model, h') /\
    next_id h' =
      (next_id h
       + length (DreamBooth.cfg_cond_stage_config (MegatronDreamBooth.cfg_model cfg))
       + length (DreamBooth.cfg_first_stage_config (MegatronDreamBooth.cfg_model cfg))
       + length (DreamBooth.cfg_unet_config (MegatronDreamBooth.cfg_model cfg))
       + length (DreamBooth.cfg_noise_scheduler (MegatronDreamBooth.cfg_model cfg)))%nat /\
    (forall d,
       MegatronDreamBooth.select_autocast_dtype int_of_str (MegatronDreamBooth.precision trainer)
         = Ok d ->
       init cfg trainer h =
         (Ok (MegatronDreamBooth.mk cfg trainer model
                (cfg_get (MegatronDreamBooth.cfg_megatron_amp_O2 cfg) false) d
                base_with_distributed_adam base_lr setup_init_global_step), h')) /\
    (forall e,
       MegatronDreamBooth.select_autocast_dtype int_of_str (MegatronDreamBooth.precision trainer)
         = Raise e ->
       init cfg trainer h = (Raise e, h')) /\
    (forall z, MegatronDreamBooth.precision trainer = PInt z ->
       MegatronDreamBooth.select_autocast_dtype int_of_str (MegatronDreamBooth.precision trainer)
       = if (z =? 32)%Z then Ok MegatronDreamBooth.float32
         else if (z =? 16)%Z then Ok MegatronDreamBooth.float16
         else Raise ValueError).
Proof.
  intros Hbase Hacc.
  destruct (dreambooth_init_layout (MegatronDreamBooth.cfg_model cfg) h)
    as (h' & Hrun & Hnext & _).
  cbv zeta in Hrun, Hnext.
  assert (Hv : MegatronDreamBooth._validate_trainer trainer = Ok tt).
  { unfold MegatronDreamBooth._validate_trainer.
    destruct (Z.gtb_spec (MegatronDreamBooth.accumulate_grad_batches trainer) 1);
      [lia|reflexivity]. }
  eexists. exists h'. split; [exact Hrun|]. split; [exact Hnext|].
  split; [|split].
  - intros d Hd. unfold MegatronDreamBooth.__init__, sbind, lift, sret.
    change (negb true) with false. cbv beta iota.
    rewrite Hbase. cbv beta iota. rewrite Hv. cbv beta iota zeta.
    rewrite Hrun. cbv beta iota. now rewrite Hd.
  - intros e He. unfold MegatronDreamBooth.__init__, sbind, lift, sret.
    change (negb true) with false. cbv beta iota.
    rewrite Hbase. cbv beta iota. rewrite Hv. cbv beta iota zeta.
    rewrite Hrun. cbv beta iota. now rewrite He.
  - intros z ->. unfold MegatronDreamBooth.select_autocast_dtype, MegatronDreamBooth.py_int.
    cbn [rbind]. reflexivity.
Qed.
End InitOutcome.

Lemma init_checks_precision_after_model_witness :
  exists h',
    MegatronDreamBooth.__init__ true (fun _ _ => Ok tt) (fun _ => Raise ValueError)
      false (1 # 1000) 0 sample_config (MegatronDreamBooth.mkTrainer 1 (PInt 8) 0 None)
      empty_heap
    = (Raise ValueError, h') /\
    next_id h' = 7%nat.
Proof.
  destruct (init_checks_precision_after_model
              (fun _ _ => Ok tt) (fun _ => Raise ValueError) false (1 # 1000) 0%Z
              sample_config (MegatronDreamBooth.mkTrainer 1 (PInt 8) 0 None) empty_heap)
    as (model & h' & _ & Hnext & _ & Hraise & _).
  - reflexivity.
  - simpl. lia.
  - exists h'. split; [apply Hraise; reflexivity | exact Hnext].
Defined.

(** ** MegatronDreamBooth: the setup *)

Section SetupProperties.
Variable manual_seed : Z -> result unit.
Variable log_number_of_parameters : result unit.
Variable _extract_consumed_samples_from_ckpt : string -> result Z.
Variable DreamBoothDataset : MegatronDreamBoothSteps.dataset_args -> result Z.
Variable compute_consumed_samples : Z -> result Z.
Variable MegatronPretrainingRandomBatchSampler : MegatronDreamBoothSteps.sampler_args -> result unit.
Variable DataLoader : MegatronDreamBoothSteps.data_loader -> result unit.
Variable get_data_parallel_rank : Z.
Variable get_data_parallel_world_size : Z.

Local Abbreviation setup :=
  (MegatronDreamBoothSteps.setup
     manual_seed log_number_of_parameters _extract_consumed_samples_from_ckpt
     DreamBoothDataset compute_consumed_samples MegatronPretrainingRandomBatchSampler
     DataLoader get_data_parallel_rank get_data_parallel_world_size).
Local Abbreviation setup_training_data :=
  (MegatronDreamBoothSteps.setup_training_data
     DreamBoothDataset compute_consumed_samples MegatronPretrainingRandomBatchSampler
     DataLoader get_data_parallel_rank get_data_parallel_world_size).

Lemma setup_training_data_inv self_cfg cfg dl :
  setup_training_data self_cfg cfg = Ok dl ->
  let wpp := MegatronDreamBoothSteps.with_prior_preservation self_cfg in
  (wpp = true ->
   is_Some (MegatronDreamBoothSteps.regularization_dir cfg) /\
   is_Some (MegatronDreamBoothSteps.regularization_prompt cfg)) /\
  MegatronDreamBoothSteps.reg_data_root (MegatronDreamBoothSteps.train_dataset dl)
    = (if wpp then MegatronDreamBoothSteps.regularization_dir cfg else None) /\
  MegatronDreamBoothSteps.reg_prompt (MegatronDreamBoothSteps.train_dataset dl)
    = (if wpp then MegatronDreamBoothSteps.regularization_prompt cfg else None) /\
  MegatronDreamBoothSteps.collate_with_prior_preservation dl = wpp /\
  MegatronDreamBoothSteps.drop_last (MegatronDreamBoothSteps.batch_sampler dl) = false /\
  DreamBoothDataset (MegatronDreamBoothSteps.train_dataset dl)
    = Ok (MegatronDreamBoothSteps.total_samples (MegatronDreamBoothSteps.batch_sampler dl)) /\
  MegatronPretrainingRandomBatchSampler (MegatronDreamBoothSteps.batch_sampler dl) = Ok tt /\
  DataLoader dl = Ok tt.
Proof.
  intros H wpp. unfold MegatronDreamBoothSteps.setup_training_data in H. fold wpp in H.
  assert (Hreg : wpp = true ->
            is_Some (MegatronDreamBoothSteps.regularization_dir cfg) /\
            is_Some (MegatronDreamBoothSteps.regularization_prompt cfg)).
  { intros Hw. rewrite Hw in H.
    destruct (MegatronDreamBoothSteps.regularization_dir cfg); [|discriminate].
    destruct (MegatronDreamBoothSteps.regularization_prompt cfg); [|discriminate].
    split; eauto. }
  match type of H with
  | rbind ?guard _ = _ => destruct guard as [[]|]; [|discriminate]
  end.
  cbn [rbind] in H.
  destruct (DreamBoothDataset _) as [total|] eqn:Hds; [|discriminate]. cbn [rbind] in H.
  destruct (compute_consumed_samples 0) as [consumed|]; [|discriminate]. cbn [rbind] in H.
  destruct (MegatronPretrainingRandomBatchSampler _) as [[]|] eqn:Hsampler; [|discriminate].
  cbn [rbind] in H.
  destruct (DataLoader _) as [[]|] eqn:Hdl; [|discriminate]. cbn [rbind] in H.
  injection H as <-.
  cbn [MegatronDreamBoothSteps.train_dataset MegatronDreamBoothSteps.reg_data_root
       MegatronDreamBoothSteps.reg_prompt MegatronDreamBoothSteps.collate_with_prior_preservation
       MegatronDreamBoothSteps.batch_sampler MegatronDreamBoothSteps.drop_last
       MegatronDreamBoothSteps.total_samples].
  repeat split; try reflexivity; try assumption; now apply Hreg.
Qed.

Lemma setup_inv self_cfg global_step resume r :
  setup self_cfg global_step resume = Ok r ->
  let step := (MegatronDreamBoothSteps.micro_batch_size self_cfg
               * get_data_parallel_world_size)%Z in
  let q := (MegatronDreamBoothSteps.global_batch_size self_cfg / step)%Z in
  manual_seed (MegatronDreamBoothSteps.seed self_cfg + 100 * get_data_parallel_rank)%Z = Ok tt /\
  step <> 0%Z /\
  exists consumed dl,
    setup_training_data self_cfg (MegatronDreamBoothSteps.data self_cfg) = Ok dl /\
    r = MegatronDreamBoothSteps.mkSetup
          (MegatronDreamBoothSteps.seed self_cfg + 100 * get_data_parallel_rank)
          consumed global_step q (q * MegatronDreamBoothSteps.micro_batch_size self_cfg) dl.
Proof.
  intros H step q. unfold MegatronDreamBoothSteps.setup, py_floordiv in H.
  fold step in H.
  destruct (manual_seed _) as [[]|] eqn:Hseed; [|discriminate]. cbn [rbind] in H.
  destruct log_number_of_parameters as [[]|]; [|discriminate]. cbn [rbind] in H.
  match type of H with
  | rbind ?resumed _ = _ => destruct resumed as [consumed|]; [|discriminate]
  end.
  cbn [rbind] in H.
  destruct (Z.eqb_spec step 0) as [|Hne]; [discriminate|].
  cbn [rbind] in H. fold q in H.
  destruct (setup_training_data self_cfg (MegatronDreamBoothSteps.data self_cfg)) as [dl|];
    [|discriminate].
  cbn [rbind] in H. injection H as <-.
  split; [reflexivity|]. split; [exact Hne|]. now exists consumed, dl.
Qed.

(** X21: with a positive micro batch size and a positive data-parallel
    world size, a setup that returns has cut the global batch size into
    micro batches per rank by a floor division: the batch of this rank is
    a whole number of micro batches, the batches of all ranks together never
    exceed the global batch size and fall short of it by less than one micro
    batch per rank, and they add up to it exactly when the global batch size
    is a multiple of micro batch size times world size.  The seed of the
    generator is offset by 100 times the data-parallel rank. *)
Theorem setup_splits_global_batch self_cfg global_step resume r :
  (0 < MegatronDreamBoothSteps.micro_batch_size self_cfg)%Z ->
  (0 < get_data_parallel_world_size)%Z ->
  setup self_cfg global_step resume = Ok r ->
  let micro := MegatronDreamBoothSteps.micro_batch_size self_cfg in
  let world := get_data_parallel_world_size in
  let total := MegatronDreamBoothSteps.global_batch_size self_cfg in
  let per_rank := MegatronDreamBoothSteps._global_batch_size_on_this_data_parallel_rank r in
  per_rank = (MegatronDreamBoothSteps._num_micro_batches r * micro)%Z /\
  (per_rank * world <= total < per_rank * world + micro * world)%Z /\
  ((per_rank * world = total)%Z <-> (total mod (micro * world) = 0)%Z) /\
  MegatronDreamBoothSteps.init_global_step r = global_step /\
  MegatronDreamBoothSteps.rng_seed r
    = (MegatronDreamBoothSteps.seed self_cfg + 100 * get_data_parallel_rank)%Z.
Proof.
  intros Hmicro Hworld Hrun micro world total per_rank.
  destruct (setup_inv _ _ _ _ Hrun) as (_ & Hstep & consumed & dl & _ & Hr).
  subst per_rank. rewrite Hr.
  cbn [MegatronDreamBoothSteps._global_batch_size_on_this_data_parallel_rank
       MegatronDreamBoothSteps._num_micro_batches
       MegatronDreamBoothSteps.init_global_step MegatronDreamBoothSteps.rng_seed].
  fold micro world total.
  set (step := (micro * world)%Z) in *.
  assert (Hpos : (0 < step)%Z) by (subst step; nia).
  pose proof (Z.div_mod total step ltac:(lia)) as Hdm.
  pose proof (Z.mod_pos_bound total step Hpos) as Hb.
  set (q := (total / step)%Z) in *.
  assert (E : (q * micro * world = step * q)%Z) by (subst step; ring).
  rewrite E. repeat split; try reflexivity; lia.
Qed.

(** X22: what the setup does in which order, whatever its collaborators
    do.  A seed the generator refuses makes the setup raise the error of
    the generator; once the seed, the parameter count and the checkpoint
    have passed, a micro batch size times data-parallel world size of zero
    raises ZeroDivisionError, and otherwise prior preservation without the
    regularization directory or prompt raises ValueError, whatever the
    dataset, the sampler and the loader would do.  A setup that returns has
    seeded the generator, has a non-zero divisor and has built the dataset,
    the sampler and the loader; the dataset has regularization data
    exactly when prior preservation is on, the loader collates with the
    same flag and the sampler drops no last batch. *)
Theorem setup_outcome self_cfg global_step resume :
  let cfg := MegatronDreamBoothSteps.data self_cfg in
  let wpp := MegatronDreamBoothSteps.with_prior_preservation self_cfg in
  let rng_seed := (MegatronDreamBoothSteps.seed self_cfg + 100 * get_data_parallel_rank)%Z in
  let step := (MegatronDreamBoothSteps.micro_batch_size self_cfg
               * get_data_parallel_world_size)%Z in
  let resumed :=
    match resume with
    | Some path => if String.eqb path "" then Ok 0%Z
                   else _extract_consumed_samples_from_ckpt path
    | None => Ok 0%Z
    end in
  (forall e, manual_seed rng_seed = Raise e ->
     setup self_cfg global_step resume = Raise e) /\
  (manual_seed rng_seed = Ok tt -> log_number_of_parameters = Ok tt -> is_ok resumed = true ->
   (step = 0%Z -> setup self_cfg global_step resume = Raise ZeroDivisionError) /\
   (step <> 0%Z -> wpp = true ->
    MegatronDreamBoothSteps.regularization_dir cfg = None \/
    MegatronDreamBoothSteps.regularization_prompt cfg = None ->
    setup self_cfg global_step resume = Raise ValueError)) /\
  (forall r, setup self_cfg global_step resume = Ok r ->
     let dl := MegatronDreamBoothSteps._train_dl r in
     manual_seed rng_seed = Ok tt /\
     step <> 0%Z /\
     (wpp = true ->
      is_Some (MegatronDreamBoothSteps.regularization_dir cfg) /\
      is_Some (MegatronDreamBoothSteps.regularization_prompt cfg)) /\
     MegatronDreamBoothSteps.reg_data_root (MegatronDreamBoothSteps.train_dataset dl)
       = (if wpp then MegatronDreamBoothSteps.regularization_dir cfg else None) /\
     MegatronDreamBoothSteps.reg_prompt (MegatronDreamBoothSteps.train_dataset dl)
       = (if wpp then MegatronDreamBoothSteps.regularization_prompt cfg else None) /\
     MegatronDreamBoothSteps.collate_with_prior_preservation dl = wpp /\
     MegatronDreamBoothSteps.drop_last (MegatronDreamBoothSteps.batch_sampler dl) = false /\
     DreamBoothDataset (MegatronDreamBoothSteps.train_dataset dl)
       = Ok (MegatronDreamBoothSteps.total_samples (MegatronDreamBoothSteps.batch_sampler dl)) /\
     MegatronPretrainingRandomBatchSampler (MegatronDreamBoothSteps.batch_sampler dl) = Ok tt /\
     DataLoader dl = Ok tt).
Proof.
  intros cfg wpp rng_seed step resumed.
  split; [|split].
  - intros e He. unfold MegatronDreamBoothSteps.setup. fold rng_seed. now rewrite He.
  - intros Hseed Hlog Hres.
    unfold MegatronDreamBoothSteps.setup, py_floordiv. fold rng_seed step resumed.
    rewrite Hseed, Hlog. cbn [rbind].
    destruct resumed as [consumed|]; [|discriminate]. cbn [rbind].
    split.
    + intros ->. reflexivity.
    + intros Hne Hw Hmiss.
      destruct (Z.eqb_spec step 0); [contradiction|]. cbn [rbind].
      unfold MegatronDreamBoothSteps.setup_training_data. fold cfg wpp. rewrite Hw.
      destruct Hmiss as [-> | Hp]; [reflexivity|].
      rewrite Hp. now destruct (MegatronDreamBoothSteps.regularization_dir cfg).
  - intros r Hrun dl.
    destruct (setup_inv _ _ _ _ Hrun) as (Hseed & Hstep & consumed & dl' & Hdata & Hr).
    assert (Edl : dl = dl') by (subst dl; now rewrite Hr). rewrite Edl.
    split; [exact Hseed|]. split; [exact Hstep|].
    exact (setup_training_data_inv _ _ _ Hdata).
Qed.
End SetupProperties.

Lemma setup_splits_global_batch_witness :
  let self_cfg := sample_setup_config 1234 false in
  let r :=
    MegatronDreamBoothSteps.mkSetup 1334 0 0 2 4
      (MegatronDreamBoothSteps.mkDataLoader
         (MegatronDreamBoothSteps.mkDatasetArgs "instance" "a photo" None None 512 true)
         (MegatronDreamBoothSteps.mkSamplerArgs 5 0 2 10 1 2 false) false 4) in
  sample_setup 2 self_cfg 0 None = Ok r /\
  (MegatronDreamBoothSteps._global_batch_size_on_this_data_parallel_rank r * 2 <= 10
   < MegatronDreamBoothSteps._global_batch_size_on_this_data_parallel_rank r * 2 + 2 * 2)%Z.
Proof.
  intros self_cfg r. split; [reflexivity|].
  apply (setup_splits_global_batch
           sample_manual_seed (Ok tt) (fun _ => Ok 0%Z) (fun _ => Ok 5%Z) (fun _ => Ok 0%Z)
           (fun _ => Ok tt) (fun _ => Ok tt) 1%Z 2%Z self_cfg 0%Z None r);
    reflexivity.
Defined.

Lemma setup_outcome_witness :
  sample_setup 2 (sample_setup_config (2 ^ 64) false) 0 None = Raise ValueError /\
  sample_setup 0 (sample_setup_config 1234 false) 0 None = Raise ZeroDivisionError /\
  sample_setup 2 (sample_setup_config 1234 true) 0 None = Raise ValueError.
Proof.
  split; [|split].
  - refine (proj1 (setup_outcome
                     sample_manual_seed (Ok tt) (fun _ => Ok 0%Z) (fun _ => Ok 5%Z)
                     (fun _ => Ok 0%Z) (fun _ => Ok tt) (fun _ => Ok tt) 1%Z 2%Z
                     (sample_setup_config (2 ^ 64) false) 0%Z None) ValueError _).
    reflexivity.
  - refine (proj1 (proj1 (proj2 (setup_outcome
                     sample_manual_seed (Ok tt) (fun _ => Ok 0%Z) (fun _ => Ok 5%Z)
                     (fun _ => Ok 0%Z) (fun _ => Ok tt) (fun _ => Ok tt) 1%Z 0%Z
                     (sample_setup_config 1234 false) 0%Z None)) _ _ _) _);
      reflexivity.
  - refine (proj2 (proj1 (proj2 (setup_outcome
                     sample_manual_seed (Ok tt) (fun _ => Ok 0%Z) (fun _ => Ok 5%Z)
                     (fun _ => Ok 0%Z) (fun _ => Ok tt) (fun _ => Ok tt) 1%Z 2%Z
                     (sample_setup_config 1234 true) 0%Z None)) _ _ _) _ _ _);
      try reflexivity; [discriminate | now left].
Defined.

(** ** MegatronDreamBooth: the records of the step function *)

Lemma dummy_records_hold_loss (losses : list Q) : forall (outputs : list tensor),
  length outputs = length losses ->
  Forall2 (fun record loss => record !! "loss" = Some loss)
          (map (fun lo => snd (MegatronDreamBoothSteps.dummy (fst lo) (snd lo)))
               (combine losses outputs))
          losses.
Proof.
  induction losses as [|l losses IH]; intros [|o outputs] Hlen; simpl in Hlen;
    try discriminate; simpl.
  - constructor.
  - constructor; [apply lookup_singleton_eq | apply IH; lia].
Qed.

(** X23: the step function hands the loss of the model on, under the key
    the training step reads: for the thunks of any non-empty run of
    microbatches, whatever output tensors they are applied to, the
    aggregation of the step never meets a missing key and yields the mean of
    the losses of the model. *)
Theorem step_function_records_aggregate {rng : Type}
    (model : tensor * tensor -> state rng Q) (batch : tensor * tensor) (g g' : rng)
    (loss : Q) (losses : list Q) (outputs : list tensor) :
  model batch g = (Ok loss, g') ->
  length outputs = S (length losses) ->
  exists thunk,
    MegatronDreamBoothSteps.fwd_output_and_loss_func batch model g = (Ok (loss, thunk), g') /\
    (forall output_tensor, thunk output_tensor = (loss, {["loss" := loss]})) /\
    MegatronDreamBooth.aggregate_losses
      (map (fun lo => snd (MegatronDreamBoothSteps.dummy (fst lo) (snd lo)))
           (combine (loss :: losses) outputs))
      = Ok (mean (loss :: losses)).
Proof.
  intros Hmodel Hlen.
  exists (MegatronDreamBoothSteps.dummy loss). split; [|split].
  - unfold MegatronDreamBoothSteps.fwd_output_and_loss_func, sbind, sret. now rewrite Hmodel.
  - reflexivity.
  - apply aggregate_losses_mean.
    + destruct outputs; [discriminate|]. discriminate.
    + apply dummy_records_hold_loss. exact Hlen.
Qed.

Lemma step_function_records_aggregate_witness :
  MegatronDreamBooth.aggregate_losses
    (map (fun lo => snd (MegatronDreamBoothSteps.dummy (fst lo) (snd lo)))
         (combine [1; 3]%Q [[]; [[7]]]%Q))
    = Ok (mean [1; 3]%Q).
Proof.
  destruct (step_function_records_aggregate
              (rng := nat) (fun _ g => (Ok 1%Q, S g)) ([], []) 0%nat 1%nat
              1%Q [3]%Q [[]; [[7]]]%Q)
    as (thunk & _ & _ & H).
  - reflexivity.
  - reflexivity.
  - exact H.
Defined.

(** ** generate_xl_fid_images.py: the jobs that cannot start *)

(** X24: a worker stops before it generates anything when the grid of the
    job does not fit the configuration: with no node per guidance scale or no
    task per node the division raises ZeroDivisionError, and on a node of a
    block beyond the list of guidance scales the lookup of the scale raises
    IndexError. *)
Theorem fid_select_input_errors (fid : GenerateFidImages.fid_config)
    (env : GenerateFidImages.environ) (captions : list string) :
  let node_id := cfg_get (GenerateFidImages.SLURM_ARRAY_TASK_ID env) 0%Z in
  let n := GenerateFidImages.nnodes_per_cfg fid in
  (n = 0%Z ->
   GenerateFidImages.select_input fid env captions = Raise ZeroDivisionError) /\
  ((0 < n)%Z -> (0 <= node_id)%Z ->
   (Z.of_nat (length (GenerateFidImages.classifier_free_guidance fid)) * n <= node_id)%Z ->
   GenerateFidImages.select_input fid env captions = Raise IndexError) /\
  ((0 < n)%Z -> (0 <= node_id)%Z ->
   (node_id < Z.of_nat (length (GenerateFidImages.classifier_free_guidance fid)) * n)%Z ->
   GenerateFidImages.ntasks_per_node fid = 0%Z ->
   GenerateFidImages.select_input fid env captions = Raise ZeroDivisionError).
Proof.
  intros node_id n.
  unfold GenerateFidImages.select_input, MegatronRetrievalModel.py_mod, py_floordiv.
  fold node_id n.
  split; [|split].
  - intros ->. reflexivity.
  - intros Hn Hnode Hbig.
    destruct (Z.eqb_spec n 0); [lia|]. cbn [rbind].
    assert (Hq : (Z.of_nat (length (GenerateFidImages.classifier_free_guidance fid))
                  <= node_id / n)%Z) by (apply Z.div_le_lower_bound; lia).
    unfold py_getitem.
    destruct (Z.ltb_spec (node_id / n) 0); [lia|].
    destruct (Z.ltb_spec (node_id / n) 0); [lia|].
    assert (E : nth_error (GenerateFidImages.classifier_free_guidance fid)
                          (Z.to_nat (node_id / n)) = None)
      by (apply nth_error_None; lia).
    now rewrite E.
  - intros Hn Hnode Hsmall Htasks.
    destruct (Z.eqb_spec n 0); [lia|]. cbn [rbind].
    assert (Hq : (0 <= node_id / n
                  < Z.of_nat (length (GenerateFidImages.classifier_free_guidance fid)))%Z).
    { split; [apply Z.div_pos; lia | apply Z.div_lt_upper_bound; lia]. }
    destruct (py_getitem_nat (GenerateFidImages.classifier_free_guidance fid)
                             (Z.to_nat (node_id / n)) ltac:(lia)) as [scale Hscale].
    rewrite Z2Nat.id in Hscale by lia. rewrite Hscale. cbn [rbind].
    rewrite Htasks. reflexivity.
Qed.

Lemma fid_select_input_errors_witness :
  GenerateFidImages.select_input
    (GenerateFidImages.mkFid 2 4 None 100 [3; 5]%Q)
    (GenerateFidImages.mkEnviron (Some 4%Z) None) ["a"; "b"]
  = Raise IndexError.
Proof.
  refine (proj1 (proj2 (fid_select_input_errors
                          (GenerateFidImages.mkFid 2 4 None 100 [3; 5]%Q)
                          (GenerateFidImages.mkEnviron (Some 4%Z) None) ["a"; "b"]))
                _ _ _); simpl; lia.
Defined.
